(** * SceneManager: texture registry, material catalog and shader set-up

    A shallow embedding of [SceneManager.cpp] (CS-330 final project).  The
    class keeps three pieces of state: the texture table [m_textureIDs]
    with its counter [m_loadedTextures], the material vector
    [m_objectMaterials], and the pointer [m_pShaderManager].  Its methods
    talk to three collaborators that are not part of the sources and are
    modelled here by what the methods ask of them:

    - the OpenGL context (texture names, active unit, 2D bindings, and the
      stream of commands issued),
    - the image decoder [stbi_load],
    - the shader manager, seen as a table from uniform names to values.

    Console output ([std::cout]) and the local image buffer are not
    modelled. *)

From Stdlib Require Import ZArith QArith String List Reals Lra Lia.
From stdpp Require Import gmap strings list fin_maps.

Local Open Scope Z_scope.

(** ** Scalars

    [float] values are only copied around by the registry and the catalog;
    [SetTransformations] also multiplies and adds them and takes sines and
    cosines.  The operations are collected in a class, so that the code is
    written once and read at any scalar type. *)

Class Scalar := {
  float : Type;
  fzero : float;
  fone : float;
  fadd : float → float → float;
  fsub : float → float → float;
  fmul : float → float → float;
  fcos : float → float;
  fsin : float → float;
  (** [glm::radians]: degrees to radians *)
  fradians : float → float;
  (** [glm::inversesqrt]: [1 / sqrt x] *)
  finversesqrt : float → float;
}.

(** ** The OpenGL context *)

Module GL.

Definition GL_TEXTURE_2D : Z := 0x0DE1.
Definition GL_TEXTURE0 : Z := 0x84C0.
Definition GL_TEXTURE_MAG_FILTER : Z := 0x2800.
Definition GL_TEXTURE_MIN_FILTER : Z := 0x2801.
Definition GL_TEXTURE_WRAP_S : Z := 0x2802.
Definition GL_TEXTURE_WRAP_T : Z := 0x2803.
Definition GL_REPEAT : Z := 0x2901.
Definition GL_MIRRORED_REPEAT : Z := 0x8370.
Definition GL_LINEAR : Z := 0x2601.
Definition GL_RGB : Z := 0x1907.
Definition GL_RGBA : Z := 0x1908.
Definition GL_RGB8 : Z := 0x8051.
Definition GL_RGBA8 : Z := 0x8058.
Definition GL_UNSIGNED_BYTE : Z := 0x1401.
Definition GL_INVALID_ENUM : Z := 0x0500.
Definition GL_INVALID_OPERATION : Z := 0x0502.

(** Conversion of an [int] to [GLuint]/[GLenum] (32 bits, unsigned). *)
Definition to_GLuint (i : Z) : Z := i mod 2 ^ 32.

(** The commands a [SceneManager] can issue, plus [DeleteTextures], the
    command that gives a texture name back. *)
Inductive Command :=
| GenTextures (name : Z)
| DeleteTextures (name : Z)
| BindTexture (target name : Z)
| ActiveTexture (texture : Z)
| TexParameteri (target pname param : Z)
| TexImage2D (target level internalformat width height border format type : Z)
             (pixels : list Z)
| GenerateMipmap (target : Z).

Record Context := mkContext {
  (** texture names handed out by [glGenTextures] and not deleted *)
  names : list Z;
  (** index of the active texture unit *)
  active : Z;
  (** name bound to [GL_TEXTURE_2D] on each unit; no entry means 0 *)
  bound2D : gmap Z Z;
  (** number of texture units of the implementation *)
  max_units : Z;
  (** error flags raised so far, most recent first *)
  errors : list Z;
  (** every command issued, most recent first *)
  log : list Command;
}.

Definition initial (units : Z) : Context :=
  mkContext [] 0 ∅ units [] [].

Definition issue (c : Command) (ctx : Context) : Context :=
  mkContext (names ctx) (active ctx) (bound2D ctx) (max_units ctx)
            (errors ctx) (c :: log ctx).

Definition raise (e : Z) (ctx : Context) : Context :=
  mkContext (names ctx) (active ctx) (bound2D ctx) (max_units ctx)
            (e :: errors ctx) (log ctx).

(** An unused name: one more than the largest live name, never 0. *)
Definition unused_name (l : list Z) : Z := 1 + foldr Z.max 0 l.

(** [glGenTextures(1, &id)] *)
Definition glGenTextures (ctx : Context) : Z * Context :=
  let id := unused_name (names ctx) in
  (id, issue (GenTextures id)
         (mkContext (id :: names ctx) (active ctx) (bound2D ctx)
                    (max_units ctx) (errors ctx) (log ctx))).

(** [glDeleteTextures(1, &id)]; no method of the class calls it. *)
Definition glDeleteTextures (id : Z) (ctx : Context) : Context :=
  issue (DeleteTextures id)
    (mkContext (filter (λ n, n ≠ id) (names ctx)) (active ctx)
               (bound2D ctx) (max_units ctx) (errors ctx) (log ctx)).

(** The name bound to [GL_TEXTURE_2D] on the active unit. *)
Definition current_binding (ctx : Context) : Z :=
  default 0 (bound2D ctx !! active ctx).

(** [glBindTexture(target, texture)]: 0 unbinds; a name that
    [glGenTextures] did not return is refused (core profile). *)
Definition glBindTexture (target texture : Z) (ctx : Context) : Context :=
  let ctx' := issue (BindTexture target texture) ctx in
  if bool_decide (target = GL_TEXTURE_2D) then
    if bool_decide (texture = 0 ∨ texture ∈ names ctx) then
      mkContext (names ctx') (active ctx')
                (<[active ctx' := texture]> (bound2D ctx'))
                (max_units ctx') (errors ctx') (log ctx')
    else raise GL_INVALID_OPERATION ctx'
  else raise GL_INVALID_ENUM ctx'.

(** [glActiveTexture(texture)]: selects unit [texture - GL_TEXTURE0] when
    the implementation has it. *)
Definition glActiveTexture (texture : Z) (ctx : Context) : Context :=
  let ctx' := issue (ActiveTexture texture) ctx in
  if bool_decide (GL_TEXTURE0 ≤ texture < GL_TEXTURE0 + max_units ctx) then
    mkContext (names ctx') (texture - GL_TEXTURE0) (bound2D ctx')
              (max_units ctx') (errors ctx') (log ctx')
  else raise GL_INVALID_ENUM ctx'.

Definition glTexParameteri (target pname param : Z) : Context → Context :=
  issue (TexParameteri target pname param).

Definition glTexImage2D (target level internalformat width height border
                         format type : Z) (pixels : list Z)
  : Context → Context :=
  issue (TexImage2D target level internalformat width height border
                    format type pixels).

Definition glGenerateMipmap (target : Z) : Context → Context :=
  issue (GenerateMipmap target).

End GL.

(** ** glm vectors and matrices

    A [mat4] is four columns, as in glm ([m[i]] is column [i]). *)

Section Glm.
Context {F : Scalar}.

Record vec2 := Vec2 { v2_x : float; v2_y : float }.
Record vec3 := Vec3 { v3_x : float; v3_y : float; v3_z : float }.
Record vec4 := Vec4 { v4_x : float; v4_y : float; v4_z : float; v4_w : float }.
Record mat4 := Mat4 { col0 : vec4; col1 : vec4; col2 : vec4; col3 : vec4 }.

Definition vec4_add (a b : vec4) : vec4 :=
  Vec4 (fadd (v4_x a) (v4_x b)) (fadd (v4_y a) (v4_y b))
       (fadd (v4_z a) (v4_z b)) (fadd (v4_w a) (v4_w b)).

Definition vec4_scale (a : vec4) (s : float) : vec4 :=
  Vec4 (fmul (v4_x a) s) (fmul (v4_y a) s) (fmul (v4_z a) s) (fmul (v4_w a) s).

(** [mat4(1.0f)]: the identity *)
Definition mat4_identity : mat4 :=
  Mat4 (Vec4 fone fzero fzero fzero) (Vec4 fzero fone fzero fzero)
       (Vec4 fzero fzero fone fzero) (Vec4 fzero fzero fzero fone).

(** The combination of the columns of [m] with the entries of [v] as
    coefficients, summed from the left: [m] applied to [v]. *)
Definition mat4_apply (m : mat4) (v : vec4) : vec4 :=
  vec4_add
    (vec4_add
       (vec4_add (vec4_scale (col0 m) (v4_x v)) (vec4_scale (col1 m) (v4_y v)))
       (vec4_scale (col2 m) (v4_z v)))
    (vec4_scale (col3 m) (v4_w v)).

(** [m1 * m2]: column [j] of the product is
    [m1[0] * m2[j][0] + m1[1] * m2[j][1] + m1[2] * m2[j][2] + m1[3] * m2[j][3]] *)
Definition mat4_mul (m1 m2 : mat4) : mat4 :=
  Mat4 (mat4_apply m1 (col0 m2)) (mat4_apply m1 (col1 m2))
       (mat4_apply m1 (col2 m2)) (mat4_apply m1 (col3 m2)).

Definition vec3_dot (a b : vec3) : float :=
  fadd (fadd (fmul (v3_x a) (v3_x b)) (fmul (v3_y a) (v3_y b)))
       (fmul (v3_z a) (v3_z b)).

Definition vec3_scale (a : vec3) (s : float) : vec3 :=
  Vec3 (fmul (v3_x a) s) (fmul (v3_y a) s) (fmul (v3_z a) s).

(** [glm::normalize(v) = v * inversesqrt(dot(v, v))] *)
Definition normalize (v : vec3) : vec3 :=
  vec3_scale v (finversesqrt (vec3_dot v v)).

(** [glm::scale(v)], that is [glm::scale(mat4(1.0f), v)] *)
Definition glm_scale (v : vec3) : mat4 :=
  let m := mat4_identity in
  Mat4 (vec4_scale (col0 m) (v3_x v)) (vec4_scale (col1 m) (v3_y v))
       (vec4_scale (col2 m) (v3_z v)) (col3 m).

(** [glm::translate(v)], that is [glm::translate(mat4(1.0f), v)] *)
Definition glm_translate (v : vec3) : mat4 :=
  let m := mat4_identity in
  Mat4 (col0 m) (col1 m) (col2 m)
       (vec4_add
          (vec4_add
             (vec4_add (vec4_scale (col0 m) (v3_x v))
                       (vec4_scale (col1 m) (v3_y v)))
             (vec4_scale (col2 m) (v3_z v)))
          (col3 m)).

(** [glm::rotate(angle, v)], that is [glm::rotate(mat4(1.0f), angle, v)]:
    the axis-angle matrix about the normalised axis. *)
Definition glm_rotate (angle : float) (v : vec3) : mat4 :=
  let m := mat4_identity in
  let c := fcos angle in
  let s := fsin angle in
  let axis := normalize v in
  let temp := Vec3 (fmul (fsub fone c) (v3_x axis))
                   (fmul (fsub fone c) (v3_y axis))
                   (fmul (fsub fone c) (v3_z axis)) in
  let r00 := fadd c (fmul (v3_x temp) (v3_x axis)) in
  let r01 := fadd (fmul (v3_x temp) (v3_y axis)) (fmul s (v3_z axis)) in
  let r02 := fsub (fmul (v3_x temp) (v3_z axis)) (fmul s (v3_y axis)) in
  let r10 := fsub (fmul (v3_y temp) (v3_x axis)) (fmul s (v3_z axis)) in
  let r11 := fadd c (fmul (v3_y temp) (v3_y axis)) in
  let r12 := fadd (fmul (v3_y temp) (v3_z axis)) (fmul s (v3_x axis)) in
  let r20 := fadd (fmul (v3_z temp) (v3_x axis)) (fmul s (v3_y axis)) in
  let r21 := fsub (fmul (v3_z temp) (v3_y axis)) (fmul s (v3_x axis)) in
  let r22 := fadd c (fmul (v3_z temp) (v3_z axis)) in
  let comb a b d :=
    vec4_add (vec4_add (vec4_scale (col0 m) a) (vec4_scale (col1 m) b))
             (vec4_scale (col2 m) d) in
  Mat4 (comb r00 r01 r02) (comb r10 r11 r12) (comb r20 r21 r22) (col3 m).

End Glm.

(** ** The shader manager

    Seen from the scene manager, the shader manager is a table of uniforms
    written by name. *)

Section Shader.
Context {F : Scalar}.

Inductive UniformValue :=
| UInt (i : Z)
| UBool (b : bool)
| UFloat (f : float)
| UVec2 (v : vec2)
| UVec3 (v : vec3)
| UVec4 (v : vec4)
| UMat4 (m : mat4)
| USampler2D (unit : Z).

Record ShaderManager := mkShader { uniforms : gmap string UniformValue }.

Definition setUniform (name : string) (v : UniformValue) (sh : ShaderManager)
  : ShaderManager :=
  mkShader (<[name := v]> (uniforms sh)).

Definition setIntValue name (i : Z) := setUniform name (UInt i).
Definition setBoolValue name (b : bool) := setUniform name (UBool b).
Definition setFloatValue name (f : float) := setUniform name (UFloat f).
Definition setVec2Value name (v : vec2) := setUniform name (UVec2 v).
Definition setVec3Value name (v : vec3) := setUniform name (UVec3 v).
Definition setVec4Value name (v : vec4) := setUniform name (UVec4 v).
Definition setMat4Value name (m : mat4) := setUniform name (UMat4 m).
Definition setSampler2DValue name (unit : Z) := setUniform name (USampler2D unit).

End Shader.

(** ** The scene manager *)

(** One cell of [m_textureIDs].  [ID] is a [GLuint]: [DestroyGLTextures]
    passes its address to [glGenTextures]. *)
Module TEXTURE_INFO.
Record t := mk { ID : Z; tag : string }.
#[global] Instance inhabited : Inhabited t := populate (mk 0 "").
End TEXTURE_INFO.

(** What [stbi_load] returns for a file it can decode. *)
Record stbi_image := mkImage {
  width : Z;
  height : Z;
  colorChannels : Z;
  pixels : list Z;
}.

(** A call either returns or dereferences the null shader-manager pointer. *)
Inductive outcome (A : Type) :=
| Returns (a : A)
| NullDereference.
Arguments Returns {A} a.
Arguments NullDereference {A}.

(** Conversion of a [GLuint] to [int] (32 bits, two's complement). *)
Definition int_of_GLuint (u : Z) : Z :=
  if u <? 2 ^ 31 then u else u - 2 ^ 32.

(** Names of the uniforms, from the anonymous namespace of the file. *)
Definition g_ModelName : string := "model".
Definition g_ColorValueName : string := "objectColor".
Definition g_TextureValueName : string := "objectTexture".
Definition g_Texture2 : string := "texture2".
Definition g_UseTextureName : string := "bUseTexture".
Definition g_UseLightingName : string := "bUseLighting".
Definition g_BlendTexture : string := "bBlendTexture".
Definition g_MixFactor : string := "bMixFactor".

Section SceneManager.
Context {F : Scalar}.

(** The struct is declared in the header, which is not among the sources;
    the fields are those the methods read and write. *)
Record OBJECT_MATERIAL := mkMaterial {
  diffuseColor : vec3;
  specularColor : vec3;
  shininess : float;
  tag : string;
}.

(** The object and the GL context of its thread.  [m_textureIDs] is an
    array whose bound is declared in the header, which is not among the
    sources; no method compares an index with that bound, so the cells are
    kept in a map from index to content and an assignment goes to the index
    it names, whatever the index (past the bound C++ defines nothing).  A
    cell never written reads as the default entry.  [m_pShaderManager] is
    [None] for a null pointer. *)
Record State := mkState {
  m_pShaderManager : option ShaderManager;
  m_textureIDs : gmap Z TEXTURE_INFO.t;
  m_loadedTextures : Z;
  m_objectMaterials : list OBJECT_MATERIAL;
  gl : GL.Context;
}.

Definition set_shader (sh : option ShaderManager) (st : State) : State :=
  mkState sh (m_textureIDs st) (m_loadedTextures st) (m_objectMaterials st) (gl st).

Definition set_gl (g : GL.Context) (st : State) : State :=
  mkState (m_pShaderManager st) (m_textureIDs st) (m_loadedTextures st)
          (m_objectMaterials st) g.

Definition set_textures (cells : gmap Z TEXTURE_INFO.t) (n : Z) (st : State)
  : State :=
  mkState (m_pShaderManager st) cells n (m_objectMaterials st) (gl st).

(** [m_textureIDs[i]] *)
Definition cell (cells : gmap Z TEXTURE_INFO.t) (i : Z) : TEXTURE_INFO.t :=
  cells !!! i.

(** [m_textureIDs[i].ID = id] *)
Definition write_ID (i id : Z) (cells : gmap Z TEXTURE_INFO.t)
  : gmap Z TEXTURE_INFO.t :=
  <[i := TEXTURE_INFO.mk id (TEXTURE_INFO.tag (cell cells i))]> cells.

(** [m_textureIDs[i].tag = tag] *)
Definition write_tag (i : Z) (tag : string) (cells : gmap Z TEXTURE_INFO.t)
  : gmap Z TEXTURE_INFO.t :=
  <[i := TEXTURE_INFO.mk (TEXTURE_INFO.ID (cell cells i)) tag]> cells.

(** *** Texture registration *)

Section Registration.
(** [stbi_load(filename, &width, &height, &colorChannels, 0)] after
    [stbi_set_flip_vertically_on_load(flip)]; [None] is the null
    pointer of a failed decode. *)
Variable stbi_load : bool → string → option stbi_image.

(** The body shared by [CreateGLTexture] and [CreateMirroredTexture],
    which differ in the wrap mode only. *)
Definition create_texture (wrap : Z) (filename tag : string) (st : State)
  : bool * State :=
  match stbi_load true filename with
  | Some image =>
      let '(textureID, g) := GL.glGenTextures (gl st) in
      let g := GL.glBindTexture GL.GL_TEXTURE_2D textureID g in
      let g := GL.glTexParameteri GL.GL_TEXTURE_2D GL.GL_TEXTURE_WRAP_S wrap g in
      let g := GL.glTexParameteri GL.GL_TEXTURE_2D GL.GL_TEXTURE_WRAP_T wrap g in
      let g := GL.glTexParameteri GL.GL_TEXTURE_2D GL.GL_TEXTURE_MIN_FILTER
                                  GL.GL_LINEAR g in
      let g := GL.glTexParameteri GL.GL_TEXTURE_2D GL.GL_TEXTURE_MAG_FILTER
                                  GL.GL_LINEAR g in
      let upload internalformat format :=
        GL.glTexImage2D GL.GL_TEXTURE_2D 0 internalformat (width image)
                        (height image) 0 format GL.GL_UNSIGNED_BYTE
                        (pixels image) g in
      let register g :=
        let g := GL.glGenerateMipmap GL.GL_TEXTURE_2D g in
        let g := GL.glBindTexture GL.GL_TEXTURE_2D 0 g in
        let n := m_loadedTextures st in
        let cells := write_ID n textureID (m_textureIDs st) in
        let cells := write_tag n tag cells in
        (true, set_gl g (set_textures cells (n + 1) st)) in
      if colorChannels image =? 3 then register (upload GL.GL_RGB8 GL.GL_RGB)
      else if colorChannels image =? 4 then
        register (upload GL.GL_RGBA8 GL.GL_RGBA)
      else (false, set_gl g st)
  | None => (false, st)
  end.

Definition CreateGLTexture : string → string → State → bool * State :=
  create_texture GL.GL_REPEAT.

Definition CreateMirroredTexture : string → string → State → bool * State :=
  create_texture GL.GL_MIRRORED_REPEAT.
End Registration.

(** [for (int i = 0; i < m_loadedTextures; i++)] of [BindGLTextures].
    In this loop and the ones below [fuel] is the number of iterations
    left, [m_loadedTextures - i] at every entry, so that the test of the
    loop fails before the fuel does. *)
Fixpoint BindGLTextures_loop (cells : gmap Z TEXTURE_INFO.t) (n : Z)
         (fuel : nat) (i : Z) (g : GL.Context) : GL.Context :=
  if i <? n then
    match fuel with
    | O => g
    | S fuel' =>
        let g := GL.glActiveTexture (GL.to_GLuint (GL.GL_TEXTURE0 + i)) g in
        let g := GL.glBindTexture GL.GL_TEXTURE_2D
                                  (TEXTURE_INFO.ID (cell cells i)) g in
        BindGLTextures_loop cells n fuel' (i + 1) g
    end
  else g.

Definition BindGLTextures (st : State) : State :=
  set_gl (BindGLTextures_loop (m_textureIDs st) (m_loadedTextures st)
            (Z.to_nat (m_loadedTextures st)) 0 (gl st)) st.

(** The loop of [DestroyGLTextures]:
    [glGenTextures(1, &m_textureIDs[i].ID)] for each used cell. *)
Fixpoint DestroyGLTextures_loop (n : Z) (fuel : nat) (i : Z)
         (cells : gmap Z TEXTURE_INFO.t) (g : GL.Context)
  : gmap Z TEXTURE_INFO.t * GL.Context :=
  if i <? n then
    match fuel with
    | O => (cells, g)
    | S fuel' =>
        let '(id, g) := GL.glGenTextures g in
        DestroyGLTextures_loop n fuel' (i + 1) (write_ID i id cells) g
    end
  else (cells, g).

Definition DestroyGLTextures (st : State) : State :=
  let '(cells, g) :=
    DestroyGLTextures_loop (m_loadedTextures st)
      (Z.to_nat (m_loadedTextures st)) 0 (m_textureIDs st) (gl st) in
  set_gl g (set_textures cells (m_loadedTextures st) st).

(** *** Lookups *)

(** The [while] loop of [FindTextureID], entered with [bFound == false]
    and [textureID == -1]: a match sets the result and ends the loop, a
    mismatch moves on. *)
Fixpoint FindTextureID_loop (cells : gmap Z TEXTURE_INFO.t) (n : Z)
         (tag : string) (fuel : nat) (index : Z) : Z :=
  if index <? n then
    match fuel with
    | O => -1
    | S fuel' =>
        if String.eqb (TEXTURE_INFO.tag (cell cells index)) tag
        then int_of_GLuint (TEXTURE_INFO.ID (cell cells index))
        else FindTextureID_loop cells n tag fuel' (index + 1)
    end
  else -1.

Definition FindTextureID (tag : string) (st : State) : Z :=
  FindTextureID_loop (m_textureIDs st) (m_loadedTextures st) tag
                     (Z.to_nat (m_loadedTextures st)) 0.

(** The [while] loop of [FindTextureSlot]. *)
Fixpoint FindTextureSlot_loop (cells : gmap Z TEXTURE_INFO.t) (n : Z)
         (tag : string) (fuel : nat) (index : Z) : Z :=
  if index <? n then
    match fuel with
    | O => -1
    | S fuel' =>
        if String.eqb (TEXTURE_INFO.tag (cell cells index)) tag
        then index
        else FindTextureSlot_loop cells n tag fuel' (index + 1)
    end
  else -1.

Definition FindTextureSlot (tag : string) (st : State) : Z :=
  FindTextureSlot_loop (m_textureIDs st) (m_loadedTextures st) tag
                       (Z.to_nat (m_loadedTextures st)) 0.

(** The [while] loop of [FindMaterial] over the vector; [material] is
    the reference parameter.  Only three fields are copied on a match. *)
Fixpoint FindMaterial_loop (materials : list OBJECT_MATERIAL) (tag0 : string)
         (fuel : nat) (index : nat) (material : OBJECT_MATERIAL)
  : OBJECT_MATERIAL :=
  match materials !! index with
  | Some entry =>
      match fuel with
      | O => material
      | S fuel' =>
          if String.eqb (tag entry) tag0
          then mkMaterial (diffuseColor entry) (specularColor entry)
                          (shininess entry) (tag material)
          else FindMaterial_loop materials tag0 fuel' (S index) material
      end
  | None => material
  end.

Definition FindMaterial (tag0 : string) (material : OBJECT_MATERIAL)
           (st : State) : bool * OBJECT_MATERIAL :=
  if Nat.eqb (length (m_objectMaterials st)) 0 then (false, material)
  else
    (true, FindMaterial_loop (m_objectMaterials st) tag0
             (length (m_objectMaterials st)) 0%nat material).

End SceneManager.

(** *** Shader set-up before a draw call *)

Section ShaderCalls.
Context {F : Scalar}.

Definition SetTransformations (scaleXYZ : vec3)
           (XrotationDegrees YrotationDegrees ZrotationDegrees : float)
           (positionXYZ : vec3) (st : State) : State :=
  let scale := glm_scale scaleXYZ in
  let rotationX := glm_rotate (fradians XrotationDegrees) (Vec3 fone fzero fzero) in
  let rotationY := glm_rotate (fradians YrotationDegrees) (Vec3 fzero fone fzero) in
  let rotationZ := glm_rotate (fradians ZrotationDegrees) (Vec3 fzero fzero fone) in
  let translation := glm_translate positionXYZ in
  let modelView :=
    mat4_mul (mat4_mul (mat4_mul (mat4_mul translation rotationZ) rotationY)
                       rotationX) scale in
  match m_pShaderManager st with
  | Some sh => set_shader (Some (setMat4Value g_ModelName modelView sh)) st
  | None => st
  end.

Definition SetShaderColor (redColorValue greenColorValue blueColorValue
                           alphaValue : float) (st : State) : State :=
  let currentColor :=
    Vec4 redColorValue greenColorValue blueColorValue alphaValue in
  match m_pShaderManager st with
  | Some sh =>
      let sh := setIntValue g_UseTextureName 0 sh in
      let sh := setVec4Value g_ColorValueName currentColor sh in
      set_shader (Some sh) st
  | None => st
  end.

Definition SetShaderTexture (textureTag : string) (st : State) : State :=
  match m_pShaderManager st with
  | Some sh =>
      let sh := setIntValue g_UseTextureName 1 sh in
      let textureID := FindTextureSlot textureTag st in
      let sh := setSampler2DValue g_TextureValueName textureID sh in
      set_shader (Some sh) st
  | None => st
  end.

Definition SetTextureUVScale (u v : float) (st : State) : State :=
  match m_pShaderManager st with
  | Some sh => set_shader (Some (setVec2Value "UVscale" (Vec2 u v) sh)) st
  | None => st
  end.

(** [material] is a local that the method does not initialise;
    [uninitialised] stands for whatever it holds. *)
Definition SetShaderMaterial (materialTag : string)
           (uninitialised : OBJECT_MATERIAL) (st : State) : outcome State :=
  if (0 <? length (m_objectMaterials st))%nat then
    let '(bReturn, material) := FindMaterial materialTag uninitialised st in
    if bReturn then
      match m_pShaderManager st with
      | Some sh =>
          let sh := setVec3Value "material.diffuseColor" (diffuseColor material) sh in
          let sh := setVec3Value "material.specularColor" (specularColor material) sh in
          let sh := setFloatValue "material.shininess" (shininess material) sh in
          Returns (set_shader (Some sh) st)
      | None => NullDereference
      end
    else Returns st
  else Returns st.

Definition SetTwoTextures (tag1 tag2 : string) (mixFactor : float)
           (st : State) : State :=
  match m_pShaderManager st with
  | Some sh =>
      let sh := setFloatValue g_MixFactor mixFactor sh in
      let sh := setBoolValue g_UseTextureName true sh in
      let sh := setIntValue g_BlendTexture 1 sh in
      let textureID1 := FindTextureSlot tag1 st in
      let textureID2 := FindTextureSlot tag2 st in
      let texture1 := FindTextureID tag1 st in
      let texture2 := FindTextureID tag2 st in
      let g := GL.glActiveTexture (GL.to_GLuint (GL.GL_TEXTURE0 + textureID1)) (gl st) in
      let g := GL.glBindTexture GL.GL_TEXTURE_2D (GL.to_GLuint texture1) g in
      let g := GL.glActiveTexture (GL.to_GLuint (GL.GL_TEXTURE0 + textureID2)) g in
      let g := GL.glBindTexture GL.GL_TEXTURE_2D (GL.to_GLuint texture2) g in
      let sh := setSampler2DValue g_TextureValueName textureID1 sh in
      let sh := setSampler2DValue g_Texture2 textureID2 sh in
      set_gl g (set_shader (Some sh) st)
  | None => st
  end.

(** [LoadGLTextures]: ten registrations, then the binding of all slots. *)
Definition LoadGLTextures (stbi_load : bool → string → option stbi_image)
           (st : State) : State :=
  let dir := "../7-1_FinalProjectMilestones/textures/" in
  let '(_, st) := CreateGLTexture stbi_load (dir ++ "tableCloth.jpg") "cloth" st in
  let '(_, st) := CreateGLTexture stbi_load (dir ++ "bottleLid.jpg") "bottleLid" st in
  let '(_, st) := CreateGLTexture stbi_load (dir ++ "bread.jpg") "breadTop" st in
  let '(_, st) := CreateGLTexture stbi_load (dir ++ "butter.jpg") "butter" st in
  let '(_, st) := CreateGLTexture stbi_load (dir ++ "cracks.jpg") "cracks" st in
  let '(_, st) := CreateGLTexture stbi_load (dir ++ "ORANGE.jpg") "orange" st in
  let '(_, st) := CreateGLTexture stbi_load (dir ++ "side.jpg") "breadSide" st in
  let '(_, st) :=
    CreateMirroredTexture stbi_load (dir ++ "Untitled_Artwork.jpg") "skull" st in
  let '(_, st) := CreateGLTexture stbi_load (dir ++ "wall.jpg") "wall" st in
  let '(_, st) := CreateGLTexture stbi_load (dir ++ "water.jpg") "water" st in
  BindGLTextures st.

End ShaderCalls.

(** ** Exact arithmetic

    The scalars read as real numbers: the arithmetic of the transformation
    without rounding. *)

#[global] Instance R_scalar : Scalar := {|
  float := R;
  fzero := 0%R;
  fone := 1%R;
  fadd := Rplus;
  fsub := Rminus;
  fmul := Rmult;
  fcos := cos;
  fsin := sin;
  fradians := λ degrees, (degrees * (PI / 180))%R;
  finversesqrt := λ x, (/ sqrt x)%R;
|}.

(** ** Scene set-up

    [DefineObjectMaterials], [SetupSceneLights] and [PrepareScene]. *)

(** The scene is written with [float] literals ([0.1f]), with [double]
    and [int] literals where a [float] is expected
    ([SetShaderColor(1.0, 1.0, 0.8, 1)]), and once with a cosine taken in
    [double] ([glm::cos(glm::radians(45.0))]).  The class says how each
    becomes a [float]. *)
Class Literals (F : Scalar) := {
  (** the [float] written by a literal with the suffix [f] *)
  float_literal : Q → float;
  (** conversion of an [int] to [float] *)
  float_of_int : Z → float;
  double : Type;
  (** the [double] written by a literal without suffix *)
  double_literal : Q → double;
  dcos : double → double;
  dradians : double → double;
  (** conversion of a [double] to [float] *)
  float_of_double : double → float;
}.

(** The calls the class makes on the [ShapeMeshes] object. *)
Inductive MeshCall :=
| LoadPlaneMesh
| LoadBoxMesh
| LoadCylinderMesh
| LoadSphereMesh
| LoadTorusMesh
| LoadTaperedCylinderMesh
| DrawPlaneMesh
| DrawBoxMesh
| DrawCylinderMesh
| DrawSphereMesh
| DrawTorusMesh
| DrawTaperedCylinderMesh.

(** The seven materials of [DefineObjectMaterials]. *)
Module Catalog.
Section Materials.
Context {F : Scalar} {L : Literals F}.

(** [glm::vec3(x, y, z)] of three [float] literals *)
Definition vec3_literal (x y z : Q) : vec3 :=
  Vec3 (float_literal x) (float_literal y) (float_literal z).

Definition shinyPlasticMaterial : OBJECT_MATERIAL :=
  mkMaterial (vec3_literal 0.1 0.1 0.1) (vec3_literal 0.9 0.9 0.9)
             (float_literal 100.0) "shinyPlastic".

Definition flatPlasticMaterial : OBJECT_MATERIAL :=
  mkMaterial (vec3_literal 0.5 0.5 0.5) (vec3_literal 0.2 0.2 0.2)
             (float_literal 5.0) "flatPlastic".

Definition reflectiveGlassMaterial : OBJECT_MATERIAL :=
  mkMaterial (vec3_literal 1.0 1.0 1.0) (vec3_literal 0.95 0.95 0.95)
             (float_literal 120.0) "glass".

Definition breadMaterial : OBJECT_MATERIAL :=
  mkMaterial (vec3_literal 0.9 0.7 0.4) (vec3_literal 0.1 0.1 0.1)
             (float_literal 2.0) "bread".

Definition vinylTableclothMaterial : OBJECT_MATERIAL :=
  mkMaterial (vec3_literal 0.2 0.3 0.4) (vec3_literal 0.7 0.7 0.7)
             (float_literal 50.0) "tableCloth".

Definition wallpaperMaterial : OBJECT_MATERIAL :=
  mkMaterial (vec3_literal 0.8 0.7 0.6) (vec3_literal 0.1 0.1 0.1)
             (float_literal 3.0) "wall".

Definition orangeMaterial : OBJECT_MATERIAL :=
  mkMaterial (vec3_literal 0.9 0.5 0.1) (vec3_literal 0.3 0.3 0.3)
             (float_literal 10.0) "orange".

End Materials.
End Catalog.

Section SceneSetup.
Context {F : Scalar} {L : Literals F}.

Definition set_materials (materials : list OBJECT_MATERIAL) (st : State) : State :=
  mkState (m_pShaderManager st) (m_textureIDs st) (m_loadedTextures st)
          materials (gl st).

(** [m_objectMaterials.push_back(material)] *)
Definition push_back_material (material : OBJECT_MATERIAL) (st : State) : State :=
  set_materials (m_objectMaterials st ++ [material]) st.

Definition DefineObjectMaterials (st : State) : State :=
  let st := push_back_material Catalog.shinyPlasticMaterial st in
  let st := push_back_material Catalog.flatPlasticMaterial st in
  let st := push_back_material Catalog.reflectiveGlassMaterial st in
  let st := push_back_material Catalog.breadMaterial st in
  let st := push_back_material Catalog.vinylTableclothMaterial st in
  let st := push_back_material Catalog.wallpaperMaterial st in
  push_back_material Catalog.orangeMaterial st.

(** [setVec3Value(name, x, y, z)] on three [float] literals *)
Definition setVec3Literals (name : string) (x y z : Q)
  : ShaderManager → ShaderManager :=
  setVec3Value name (Catalog.vec3_literal x y z).

(** The uniform writes of [SetupSceneLights], in order. *)
Definition scene_lights (sh : ShaderManager) : ShaderManager :=
  let sh := setBoolValue g_UseLightingName true sh in
  let sh := setVec3Literals "pointLights[0].position" (-7.0) 2.0 6.0 sh in
  let sh := setVec3Literals "pointLights[0].ambient" 0.6 0.5 0.4 sh in
  let sh := setVec3Literals "pointLights[0].diffuse" 0.8 0.4 0.1 sh in
  let sh := setVec3Literals "pointLights[0].specular" 0.9 0.5 0.2 sh in
  let sh := setBoolValue "pointLights[0].bActive" true sh in
  let sh := setVec3Literals "pointLights[1].position" 8.0 2.0 (-6.0) sh in
  let sh := setVec3Literals "pointLights[1].ambient" 0.05 0.05 0.2 sh in
  let sh := setVec3Literals "pointLights[1].diffuse" 0.2 0.4 1.0 sh in
  let sh := setVec3Literals "pointLights[1].specular" 0.3 0.6 1.0 sh in
  let sh := setBoolValue "pointLights[1].bActive" true sh in
  let sh := setVec3Literals "spotLight.position" (-2.0) 10.0 0.0 sh in
  let sh := setVec3Literals "spotLight.direction" 0.0 (-1.0) 0.0 sh in
  let sh := setVec3Literals "spotLight.ambient" 1.0 0.9 0.8 sh in
  let sh := setVec3Literals "spotLight.diffuse" 1.5 1.3 1.2 sh in
  let sh := setVec3Literals "spotLight.specular" 1.5 1.3 1.2 sh in
  let sh := setFloatValue "spotLight.constant" (float_literal 1.0) sh in
  let sh := setFloatValue "spotLight.linear" (float_literal 0.1) sh in
  let sh := setFloatValue "spotLight.quadratic" (float_literal 0.03) sh in
  let sh :=
    setFloatValue "spotLight.cutOff"
      (float_of_double (dcos (dradians (double_literal 45.0)))) sh in
  let sh :=
    setFloatValue "spotLight.outerCutOff"
      (fcos (fradians (float_literal 60.0))) sh in
  setBoolValue "spotLight.bActive" true sh.

(** [SetupSceneLights] uses [m_pShaderManager] without testing it. *)
Definition SetupSceneLights (st : State) : outcome State :=
  match m_pShaderManager st with
  | Some sh => Returns (set_shader (Some (scene_lights sh)) st)
  | None => NullDereference
  end.

(** The scene manager with the [ShapeMeshes] object it owns, seen as the
    list of calls made on it, most recent first. *)
Record Scene := mkScene {
  manager : State;
  m_basicMeshes : list MeshCall;
}.

Definition PrepareScene (stbi_load : bool → string → option stbi_image)
           (sc : Scene) : outcome Scene :=
  let st := DefineObjectMaterials (manager sc) in
  match SetupSceneLights st with
  | Returns st =>
      let st := LoadGLTextures stbi_load st in
      let meshes := LoadPlaneMesh :: m_basicMeshes sc in
      let meshes := LoadBoxMesh :: meshes in
      let meshes := LoadCylinderMesh :: meshes in
      let meshes := LoadSphereMesh :: meshes in
      let meshes := LoadTorusMesh :: meshes in
      let meshes := LoadTaperedCylinderMesh :: meshes in
      Returns (mkScene st meshes)
  | NullDereference => NullDereference
  end.

(** *** RenderScene

    The method is straight-line code: assignments to [scaleXYZ], the three
    angles and [positionXYZ], then calls of the setters and of a draw
    method, fourteen times over.  It is kept as the list of its calls,
    each with the values its arguments hold, and run in order. *)

Inductive RenderCall :=
| CallSetTransformations (scaleXYZ : vec3)
    (XrotationDegrees YrotationDegrees ZrotationDegrees : float)
    (positionXYZ : vec3)
| CallSetShaderColor (redColorValue greenColorValue blueColorValue alphaValue : float)
| CallSetShaderTexture (textureTag : string)
| CallSetTextureUVScale (u v : float)
| CallSetTwoTextures (tag1 tag2 : string) (mixFactor : float)
| CallSetShaderMaterial (materialTag : string)
| CallMesh (mesh : MeshCall).

(** One call; [uninitialised] is what the local of [SetShaderMaterial]
    holds in this call. *)
Definition run_call (uninitialised : OBJECT_MATERIAL) (c : RenderCall)
           (sc : Scene) : outcome Scene :=
  let st := manager sc in
  match c with
  | CallSetTransformations s x y z p =>
      Returns (mkScene (SetTransformations s x y z p st) (m_basicMeshes sc))
  | CallSetShaderColor r g b a =>
      Returns (mkScene (SetShaderColor r g b a st) (m_basicMeshes sc))
  | CallSetShaderTexture textureTag =>
      Returns (mkScene (SetShaderTexture textureTag st) (m_basicMeshes sc))
  | CallSetTextureUVScale u v =>
      Returns (mkScene (SetTextureUVScale u v st) (m_basicMeshes sc))
  | CallSetTwoTextures tag1 tag2 mixFactor =>
      Returns (mkScene (SetTwoTextures tag1 tag2 mixFactor st) (m_basicMeshes sc))
  | CallSetShaderMaterial materialTag =>
      match SetShaderMaterial materialTag uninitialised st with
      | Returns st => Returns (mkScene st (m_basicMeshes sc))
      | NullDereference => NullDereference
      end
  | CallMesh mesh => Returns (mkScene st (mesh :: m_basicMeshes sc))
  end.

(** The calls in order; call number [k] finds [uninitialised k] in its
    local.  A null dereference ends the run. *)
Fixpoint run_calls (uninitialised : nat → OBJECT_MATERIAL) (k : nat)
         (cs : list RenderCall) (sc : Scene) : outcome Scene :=
  match cs with
  | [] => Returns sc
  | c :: cs =>
      match run_call (uninitialised k) c sc with
      | Returns sc => run_calls uninitialised (S k) cs sc
      | NullDereference => NullDereference
      end
  end.

(** A [float] literal, a [double] literal where a [float] is expected, and
    an [int] literal where a [float] is expected. *)
Definition lf (q : Q) : float := float_literal q.
Definition ld (q : Q) : float := float_of_double (double_literal q).
Definition li (i : Z) : float := float_of_int i.

(** [glm::vec3(x, y, z)] of three [float] literals *)
Definition lv (x y z : Q) : vec3 := Catalog.vec3_literal x y z.

Definition render_calls : list RenderCall :=
  [ (* table: plane *)
    CallSetTransformations (lv 20.0 1.0 10.0) (lf 0.0) (lf 0.0) (lf 0.0) (lv 0.0 0.0 0.0);
    CallSetTextureUVScale (lf 4.0) (lf 4.0);
    CallSetTwoTextures "cloth" "skull" (lf 0.3);
    CallSetShaderMaterial "tableCloth";
    CallMesh DrawPlaneMesh;
    (* backdrop: plane *)
    CallSetTransformations (lv 20.0 1.0 10.0) (lf 90.0) (lf 0.0) (lf 0.0)
                           (lv 0.0 10.0 (-10.0));
    CallSetTextureUVScale (lf 3.0) (lf 3.0);
    CallSetTwoTextures "wall" "skull" (lf 0.5);
    CallSetShaderMaterial "wall";
    CallMesh DrawPlaneMesh;
    (* loaf of bread: box *)
    CallSetTransformations (lv 5.0 3.0 3.0) (lf 0.0) (lf 0.0) (lf 0.0)
                           (lv (-4.0) 1.0 4.0);
    CallSetTextureUVScale (lf 1.0) (lf 1.0);
    CallSetTwoTextures "breadSide" "breadSide" (lf 0.0);
    CallSetShaderMaterial "bread";
    CallMesh DrawBoxMesh;
    (* loaf of bread: cylinder *)
    CallSetTransformations (lv 1.8 4.8 1.0) (lf 90.0) (lf 90.0) (lf 0.0)
                           (lv (-6.2) 3.0 4.2);
    CallSetTwoTextures "breadTop" "breadTop" (lf 0.0);
    CallSetShaderMaterial "bread";
    CallMesh DrawCylinderMesh;
    (* butter container: cylinder *)
    CallSetTransformations (lv 1.5 2.0 1.5) (lf 0.0) (lf 0.0) (lf 0.0) (lv 7.0 0.0 4.0);
    CallSetTextureUVScale (lf 2.0) (lf 1.0);
    CallSetTwoTextures "butter" "butter" (ld 0.0);
    CallSetShaderMaterial "glass";
    CallMesh DrawCylinderMesh;
    (* butter container: cylinder *)
    CallSetTransformations (Vec3 (lf 1.5) (ld 0.1) (lf 1.5)) (lf 0.0) (lf 0.0) (lf 0.0)
                           (lv 7.0 2.0 4.0);
    CallSetShaderColor (ld 1.0) (ld 1.0) (ld 0.8) (li 1);
    CallSetShaderMaterial "glass";
    CallMesh DrawCylinderMesh;
    (* butter container: tapered cylinder *)
    CallSetTransformations (lv 1.0 0.5 1.0) (lf 0.0) (lf 0.0) (lf 0.0) (lv 7.0 2.0 4.0);
    CallSetShaderColor (ld 1.0) (ld 1.0) (ld 0.8) (li 1);
    CallSetShaderMaterial "glass";
    CallMesh DrawTaperedCylinderMesh;
    (* butter container: tapered cylinder, upside down *)
    CallSetTransformations (lv 1.0 0.5 1.0) (lf 180.0) (lf 0.0) (lf 0.0)
                           (lv 7.0 3.0 4.0);
    CallSetShaderColor (ld 1.0) (ld 1.0) (ld 0.8) (li 1);
    CallSetShaderMaterial "glass";
    CallMesh DrawTaperedCylinderMesh;
    (* orange: sphere *)
    CallSetTransformations (lv 1.5 1.0 1.5) (lf 0.0) (lf 0.0) (lf 0.0) (lv 1.0 1.0 7.0);
    CallSetTextureUVScale (lf 1.0) (lf 1.0);
    CallSetTwoTextures "orange" "cracks" (lf 0.2);
    CallSetShaderMaterial "orange";
    CallMesh DrawSphereMesh;
    (* orange: cylinder *)
    CallSetTransformations (lv 0.1 0.2 0.1) (lf 0.0) (lf 0.0) (lf 0.0) (lv 1.0 2.0 7.0);
    CallSetShaderMaterial "bread";
    CallSetShaderColor (ld 0.5) (ld 0.3) (ld 0.2) (li 1);
    CallMesh DrawCylinderMesh;
    (* bottle: cylinder *)
    CallSetTransformations (lv 1.5 5.0 1.5) (lf 0.0) (lf 0.0) (lf 0.0) (lv 4.0 0.5 0.0);
    CallSetShaderMaterial "shinyPlastic";
    CallSetShaderColor (ld 0.8) (ld 0.8) (ld 0.8) (ld 0.6);
    CallMesh DrawCylinderMesh;
    (* bottle: tapered cylinder *)
    CallSetTransformations (lv 1.5 0.5 1.5) (lf 0.0) (lf 0.0) (lf 0.0) (lv 4.0 5.5 0.0);
    CallSetShaderColor (ld 0.8) (ld 0.8) (ld 0.8) (ld 0.6);
    CallSetShaderMaterial "shinyPlastic";
    CallMesh DrawTaperedCylinderMesh;
    (* bottle: cylinder *)
    CallSetTransformations (lv 1.0 0.5 0.5) (lf 0.0) (lf 0.0) (lf 0.0) (lv 4.0 6.0 0.1);
    CallSetTwoTextures "bottleLid" "bottleLid" (lf 0.0);
    CallSetShaderMaterial "flatPlastic";
    CallMesh DrawCylinderMesh;
    (* bottle: torus *)
    CallSetTransformations (lv 1.0 0.4 0.8) (lf 0.0) (lf 0.0) (lf 0.0) (lv 3.0 6.0 0.0);
    CallSetShaderColor (li 1) (ld 0.8) (li 0) (li 1);
    CallSetShaderMaterial "flatPlastic";
    CallMesh DrawTorusMesh ].

Definition RenderScene (uninitialised : nat → OBJECT_MATERIAL) (sc : Scene)
  : outcome Scene :=
  run_calls uninitialised 0 render_calls sc.

End SceneSetup.

(** Literals in exact arithmetic: every literal is the number it writes. *)
#[global] Instance R_literals : Literals R_scalar := {|
  float_literal := Q2R;
  float_of_int := IZR;
  double := R;
  double_literal := Q2R;
  dcos := cos;
  dradians := λ degrees, (degrees * (PI / 180))%R;
  float_of_double := λ d, d;
|}.

(** * Vocabulary of the statements *)

Section Vocabulary.
Context {F : Scalar}.

(** The tag of cell [i]. *)
Definition tag_at (cells : gmap Z TEXTURE_INFO.t) (i : Z) : string :=
  TEXTURE_INFO.tag (cell cells i).

(** [r] is the first index from [index] on, below [n], whose tag is [tag]. *)
Definition first_match (cells : gmap Z TEXTURE_INFO.t) (n : Z) (tag : string)
         (index r : Z) : Prop :=
  index ≤ r < n ∧ tag_at cells r = tag ∧
  ∀ i, index ≤ i < r → tag_at cells i ≠ tag.

(** No cell from [index] on, below [n], has tag [tag]. *)
Definition no_match (cells : gmap Z TEXTURE_INFO.t) (n : Z) (tag : string)
         (index : Z) : Prop :=
  ∀ i, index ≤ i < n → tag_at cells i ≠ tag.

(** The tags of the used cells, in slot order. *)
Definition registered_tags (st : State) : list string :=
  tag_at (m_textureIDs st) <$> seqZ 0 (m_loadedTextures st).

(** What a match leaves in the reference parameter: the three copied
    fields of the entry, and the tag the parameter had. *)
Definition copy_into (material entry : OBJECT_MATERIAL) : OBJECT_MATERIAL :=
  mkMaterial (diffuseColor entry) (specularColor entry) (shininess entry)
             (tag material).

(** The first entry of the catalog whose tag is [tag0]. *)
Definition first_material (tag0 : string) (materials : list OBJECT_MATERIAL)
  : option OBJECT_MATERIAL :=
  snd <$> list_find (λ entry, tag entry = tag0) materials.

(** A call succeeds exactly on a decoded image of 3 or 4 channels. *)
Definition supported (stbi_load : bool → string → option stbi_image)
           (filename : string) : Prop :=
  ∃ image, stbi_load true filename = Some image ∧
           (colorChannels image = 3 ∨ colorChannels image = 4).

(** *** Histories of registrations *)

(** A call of one of the two registration methods. *)
Inductive request :=
| Plain (filename tag : string)
| Mirrored (filename tag : string).

Definition request_tag (r : request) : string :=
  match r with Plain _ tag | Mirrored _ tag => tag end.

Definition perform (stbi_load : bool → string → option stbi_image)
           (r : request) (st : State) : bool * State :=
  match r with
  | Plain filename tag => CreateGLTexture stbi_load filename tag st
  | Mirrored filename tag => CreateMirroredTexture stbi_load filename tag st
  end.

(** What a call that returned [true] assigned: the index it wrote at, the
    handle found in that cell right after the call, and the tag it was
    given. *)
Record receipt := mkReceipt { slot : Z; handle : Z; owner : string }.

(** The calls in order; the receipts of those that returned [true], the
    earliest first, and the state at the end. *)
Fixpoint perform_all (stbi_load : bool → string → option stbi_image)
         (rs : list request) (st : State) : list receipt * State :=
  match rs with
  | [] => ([], st)
  | r :: rs =>
      let '(ok, st') := perform stbi_load r st in
      let '(receipts, st'') := perform_all stbi_load rs st' in
      let n := m_loadedTextures st in
      ((if ok
        then [mkReceipt n (TEXTURE_INFO.ID (cell (m_textureIDs st') n))
                        (request_tag r)]
        else []) ++ receipts,
       st'')
  end.

(** The table holds the receipts: receipt number [k] has slot [k], and
    cell [k] holds its handle and tag. *)
Definition holds (receipts : list receipt) (st : State) : Prop :=
  m_loadedTextures st = Z.of_nat (length receipts) ∧
  ∀ (k : nat) rc, receipts !! k = Some rc →
    slot rc = Z.of_nat k ∧
    cell (m_textureIDs st) (Z.of_nat k) = TEXTURE_INFO.mk (handle rc) (owner rc).

(** The first receipt issued for [tag]. *)
Definition first_receipt (tag : string) (receipts : list receipt)
  : option receipt :=
  snd <$> list_find (λ rc, owner rc = tag) receipts.

(** *** Shader and GL observations *)

(** The value of uniform [name]; [None] when the pointer is null or the
    uniform was never written. *)
Definition uniform_of (st : State) (name : string) : option UniformValue :=
  m_pShaderManager st ≫= λ sh, uniforms sh !! name.

Definition is_GenTextures (c : GL.Command) : Prop :=
  ∃ id, c = GL.GenTextures id.

End Vocabulary.

(** ** The elementary matrices of the specification

    Written out entry by entry over the reals, column by column; angles
    are in degrees, as the arguments of [SetTransformations] are. *)

Definition rvec3 : Type := vec3 (F := R_scalar).
Definition rvec4 : Type := vec4 (F := R_scalar).
Definition rmat4 : Type := mat4 (F := R_scalar).

Definition rv3 (x y z : R) : rvec3 := Vec3 (F := R_scalar) x y z.
Definition rv4 (x y z w : R) : rvec4 := Vec4 (F := R_scalar) x y z w.

Definition degrees (d : R) : R := (d * (PI / 180))%R.

Definition translation_matrix (t : rvec3) : rmat4 :=
  Mat4 (rv4 1 0 0 0) (rv4 0 1 0 0) (rv4 0 0 1 0)
       (rv4 (v3_x t) (v3_y t) (v3_z t) 1).

Definition scaling_matrix (s : rvec3) : rmat4 :=
  Mat4 (rv4 (v3_x s) 0 0 0) (rv4 0 (v3_y s) 0 0) (rv4 0 0 (v3_z s) 0)
       (rv4 0 0 0 1).

Definition rotation_x_matrix (d : R) : rmat4 :=
  Mat4 (rv4 1 0 0 0)
       (rv4 0 (cos (degrees d)) (sin (degrees d)) 0)
       (rv4 0 (- sin (degrees d)) (cos (degrees d)) 0)
       (rv4 0 0 0 1).

Definition rotation_y_matrix (d : R) : rmat4 :=
  Mat4 (rv4 (cos (degrees d)) 0 (- sin (degrees d)) 0)
       (rv4 0 1 0 0)
       (rv4 (sin (degrees d)) 0 (cos (degrees d)) 0)
       (rv4 0 0 0 1).

Definition rotation_z_matrix (d : R) : rmat4 :=
  Mat4 (rv4 (cos (degrees d)) (sin (degrees d)) 0 0)
       (rv4 (- sin (degrees d)) (cos (degrees d)) 0 0)
       (rv4 0 0 1 0)
       (rv4 0 0 0 1).

(** [T · Rz · Ry · Rx · S], multiplied in the order the method multiplies. *)
Definition model_matrix (s : rvec3) (dx dy dz : R) (t : rvec3) : rmat4 :=
  mat4_mul
    (mat4_mul
       (mat4_mul (mat4_mul (translation_matrix t) (rotation_z_matrix dz))
                 (rotation_y_matrix dy))
       (rotation_x_matrix dx))
    (scaling_matrix s).

(** ** Vocabulary of the further statements *)

Section FurtherVocabulary.
Context {F : Scalar}.

(** Every used cell holds a texture name the context knows. *)
Definition handles_live (cells : gmap Z TEXTURE_INFO.t) (n : Z) (g : GL.Context)
  : Prop :=
  ∀ i, 0 ≤ i < n → TEXTURE_INFO.ID (cell cells i) ∈ GL.names g.

(** Every used cell holds a value of a [GLuint]. *)
Definition handles_in_range (cells : gmap Z TEXTURE_INFO.t) (n : Z) : Prop :=
  ∀ i, 0 ≤ i < n → 0 ≤ TEXTURE_INFO.ID (cell cells i) < 2 ^ 32.

(** Texture [i] is bound on unit [i], for every used cell. *)
Definition bound_in_order (cells : gmap Z TEXTURE_INFO.t) (n : Z) (g : GL.Context)
  : Prop :=
  ∀ i, 0 ≤ i < n → GL.bound2D g !! i = Some (TEXTURE_INFO.ID (cell cells i)).

(** [stbi_load] decodes the file to an image of 3 or 4 channels. *)
Definition decodable (stbi_load : bool → string → option stbi_image)
           (filename : string) : bool :=
  match stbi_load true filename with
  | Some image => (colorChannels image =? 3) || (colorChannels image =? 4)
  | None => false
  end.

Definition request_file (r : request) : string :=
  match r with Plain filename _ | Mirrored filename _ => filename end.

(** The tags of the requests whose file can be registered, in order. *)
Definition granted_tags (stbi_load : bool → string → option stbi_image)
           (rs : list request) : list string :=
  request_tag <$> filter (λ r, decodable stbi_load (request_file r) = true) rs.

(** The ten calls of [LoadGLTextures]. *)
Definition texture_requests : list request :=
  let dir := "../7-1_FinalProjectMilestones/textures/" in
  [Plain (dir ++ "tableCloth.jpg") "cloth";
   Plain (dir ++ "bottleLid.jpg") "bottleLid";
   Plain (dir ++ "bread.jpg") "breadTop";
   Plain (dir ++ "butter.jpg") "butter";
   Plain (dir ++ "cracks.jpg") "cracks";
   Plain (dir ++ "ORANGE.jpg") "orange";
   Plain (dir ++ "side.jpg") "breadSide";
   Mirrored (dir ++ "Untitled_Artwork.jpg") "skull";
   Plain (dir ++ "wall.jpg") "wall";
   Plain (dir ++ "water.jpg") "water"]%string.

(** The uniforms that [SetTwoTextures] writes. *)
Definition two_texture_uniforms : list string :=
  [g_MixFactor; g_UseTextureName; g_BlendTexture; g_TextureValueName; g_Texture2].

End FurtherVocabulary.

(** The materials of [DefineObjectMaterials], in the order of the calls of
    [push_back]. *)
Definition defined_materials {F : Scalar} {L : Literals F}
  : list OBJECT_MATERIAL :=
  [Catalog.shinyPlasticMaterial; Catalog.flatPlasticMaterial;
   Catalog.reflectiveGlassMaterial; Catalog.breadMaterial;
   Catalog.vinylTableclothMaterial; Catalog.wallpaperMaterial;
   Catalog.orangeMaterial].

(** The uniforms that [SetupSceneLights] writes. *)
Definition light_uniforms : list string :=
  [g_UseLightingName;
   "pointLights[0].position"; "pointLights[0].ambient"; "pointLights[0].diffuse";
   "pointLights[0].specular"; "pointLights[0].bActive";
   "pointLights[1].position"; "pointLights[1].ambient"; "pointLights[1].diffuse";
   "pointLights[1].specular"; "pointLights[1].bActive";
   "spotLight.position"; "spotLight.direction"; "spotLight.ambient";
   "spotLight.diffuse"; "spotLight.specular"; "spotLight.constant";
   "spotLight.linear"; "spotLight.quadratic"; "spotLight.cutOff";
   "spotLight.outerCutOff"; "spotLight.bActive"]%string.

(** The six calls that load the meshes, most recent first. *)
Definition mesh_loads : list MeshCall :=
  [LoadTaperedCylinderMesh; LoadTorusMesh; LoadSphereMesh; LoadCylinderMesh;
   LoadBoxMesh; LoadPlaneMesh].

(** The draw calls of one frame, most recent first. *)
Definition frame_draws : list MeshCall :=
  [DrawTorusMesh; DrawCylinderMesh; DrawTaperedCylinderMesh; DrawCylinderMesh;
   DrawCylinderMesh; DrawSphereMesh; DrawTaperedCylinderMesh;
   DrawTaperedCylinderMesh; DrawCylinderMesh; DrawCylinderMesh; DrawCylinderMesh;
   DrawBoxMesh; DrawPlaneMesh; DrawPlaneMesh].

(** The texture tags that [RenderScene] passes to [SetTwoTextures]. *)
Definition frame_tags : list string :=
  ["cloth"; "skull"; "wall"; "breadSide"; "breadTop"; "butter"; "orange";
   "cracks"; "bottleLid"]%string.

(** Texture names that leave room for [k] more below [2 ^ 32]. *)
Definition names_below (bound : Z) (g : GL.Context) : Prop :=
  ∀ id, id ∈ GL.names g → 0 ≤ id < bound.

Section RenderVocabulary.
Context {F : Scalar}.

(** The texture tags that a list of calls looks up. *)
Definition texture_tags_of (cs : list RenderCall) : list string :=
  cs ≫= λ c,
    match c with
    | CallSetTwoTextures tag1 tag2 _ => [tag1; tag2]
    | CallSetShaderTexture textureTag => [textureTag]
    | _ => []
    end.

(** The mesh calls of a list of calls, in order. *)
Definition meshes_of (cs : list RenderCall) : list MeshCall :=
  cs ≫= λ c, match c with CallMesh mesh => [mesh] | _ => [] end.

Definition is_material_call (c : RenderCall) : bool :=
  match c with CallSetShaderMaterial _ => true | _ => false end.

(** Registry and context agree: the counter is within the units of the
    context and the range of an [int], every used cell holds a live
    32-bit texture name, and texture [i] is bound on unit [i]. *)
Definition bound_and_live (st : State) : Prop :=
  0 ≤ m_loadedTextures st < 2 ^ 31 ∧
  m_loadedTextures st ≤ GL.max_units (gl st) ∧
  handles_in_range (m_textureIDs st) (m_loadedTextures st) ∧
  handles_live (m_textureIDs st) (m_loadedTextures st) (gl st) ∧
  bound_in_order (m_textureIDs st) (m_loadedTextures st) (gl st).

(** What no render call changes: table, counter, catalog, the texture
    names and units of the context, and whether there is a shader
    manager. *)
Definition same_registry (st st' : State) : Prop :=
  m_textureIDs st' = m_textureIDs st ∧
  m_loadedTextures st' = m_loadedTextures st ∧
  m_objectMaterials st' = m_objectMaterials st ∧
  GL.names (gl st') = GL.names (gl st) ∧
  GL.max_units (gl st') = GL.max_units (gl st) ∧
  (m_pShaderManager st = None → m_pShaderManager st' = None) ∧
  (∀ sh, m_pShaderManager st = Some sh → ∃ sh', m_pShaderManager st' = Some sh').

(** The texture tags that a list of calls passes to [SetTwoTextures]. *)
Definition bound_tags_of (cs : list RenderCall) : list string :=
  cs ≫= λ c,
    match c with CallSetTwoTextures tag1 tag2 _ => [tag1; tag2] | _ => [] end.

End RenderVocabulary.

(** * Concrete scenes *)

(** A decoder that knows three files: one of 3 channels, one of 4 and a
    greyscale one. *)
Definition disk (flip : bool) (filename : string) : option stbi_image :=
  if String.eqb filename "rgb.jpg"
  then Some (mkImage 2 1 3 [255; 0; 0; 0; 255; 0])
  else if String.eqb filename "rgba.png" then Some (mkImage 1 1 4 [1; 2; 3; 4])
  else if String.eqb filename "gray.jpg" then Some (mkImage 1 1 1 [128])
  else None.

(** Modelled from the spec: the header that declares [m_loadedTextures]
    and gives it its first value is not among the sources; slots start at
    0.  This is a scene manager right after construction, with a null
    shader manager, on a context of 16 units. *)
Definition empty_scene : State (F := R_scalar) :=
  mkState None ∅ 0 [] (GL.initial 16).

(** One texture registered, then bound by [BindGLTextures]. *)
Definition bound_scene : State (F := R_scalar) :=
  BindGLTextures (snd (CreateGLTexture disk "rgb.jpg" "cloth" empty_scene)).

(** [k] registrations of the same file under the tag ["t"]. *)
Definition crowded_scene (k : nat) : State (F := R_scalar) :=
  Nat.iter k (λ st, snd (CreateGLTexture disk "rgb.jpg" "t" st)) empty_scene.

(** Three calls, two of them under the same tag. *)
Definition three_requests : list request :=
  [Plain "rgb.jpg" "cloth"; Mirrored "rgba.png" "skull"; Plain "rgb.jpg" "cloth"].

(** Two textures registered: ["cloth"] in slot 0, ["wall"] in slot 1. *)
Definition two_textures : State (F := R_scalar) :=
  snd (perform_all disk [Plain "rgb.jpg" "cloth"; Plain "rgba.png" "wall"]
         empty_scene).

(** The same with a shader manager that has no uniform set. *)
Definition shaded_scene : State (F := R_scalar) :=
  set_shader (Some (mkShader ∅)) two_textures.

(** The flat plastic of [DefineObjectMaterials]. *)
Definition flatPlasticMaterial : OBJECT_MATERIAL (F := R_scalar) :=
  mkMaterial (rv3 0.5 0.5 0.5) (rv3 0.2 0.2 0.2) 5%R "flatPlastic".

(** What the local [material] of a caller may hold before the lookup. *)
Definition stale_material : OBJECT_MATERIAL (F := R_scalar) :=
  mkMaterial (rv3 1 0 0) (rv3 0 1 0) 64%R "stale".

(** A null shader-manager pointer and a catalog of one material. *)
Definition unlit_scene : State (F := R_scalar) :=
  mkState None ∅ 0 [flatPlasticMaterial] (GL.initial 16).

(** A decoder for which every file is an image of 3 channels, except
    [bread.jpg], which it cannot decode. *)
Definition studio_disk (flip : bool) (filename : string) : option stbi_image :=
  if String.eqb filename "../7-1_FinalProjectMilestones/textures/bread.jpg"
  then None
  else Some (mkImage 1 1 3 [200; 150; 100]).

(** A decoder for which every file is an image of 3 channels. *)
Definition full_disk (flip : bool) (filename : string) : option stbi_image :=
  Some (mkImage 1 1 3 [200; 150; 100]).

(** A scene manager right after construction with a shader manager that
    has no uniform set, and a [ShapeMeshes] object not yet called. *)
Definition lit_scene : State (F := R_scalar) :=
  set_shader (Some (mkShader ∅)) empty_scene.

Definition fresh_studio : Scene (F := R_scalar) := mkScene lit_scene [].

(** The same without a shader manager. *)
Definition dark_studio : Scene (F := R_scalar) := mkScene empty_scene [].

(** Every call of [SetShaderMaterial] finds [stale_material] in its local. *)
Definition stale_locals (k : nat) : OBJECT_MATERIAL (F := R_scalar) :=
  stale_material.

(** [two_textures] after [BindGLTextures], with a shader manager. *)
Definition staged_scene : State (F := R_scalar) :=
  set_shader (Some (mkShader ∅)) (BindGLTextures two_textures).

(** A scene manager with a shader manager after [DefineObjectMaterials]. *)
Definition lit_catalog_scene : State (F := R_scalar) :=
  DefineObjectMaterials lit_scene.

(** The scene manager after [LoadGLTextures] when all ten files decode. *)
Definition furnished_studio : Scene (F := R_scalar) :=
  mkScene (LoadGLTextures full_disk lit_scene) [].

(** The same when [bread.jpg] does not decode. *)
Definition breadless_studio : Scene (F := R_scalar) :=
  mkScene (LoadGLTextures studio_disk lit_scene) [].

(** * Properties *)

(** ** The lookup loops *)

Section LookupFacts.
Context {F : Scalar}.
Implicit Types (cells : gmap Z TEXTURE_INFO.t) (n index : Z) (tag : string).

Lemma FindTextureSlot_loop_spec cells n tag fuel :
  ∀ index, (Z.to_nat (n - index) ≤ fuel)%nat →
    let r := FindTextureSlot_loop cells n tag fuel index in
    (r = -1 ∧ no_match cells n tag index) ∨ first_match cells n tag index r.
Proof.
  induction fuel as [|fuel IH]; intros index Hfuel; simpl;
    destruct (Z.ltb_spec index n) as [Hlt|Hge];
    try (left; split; [reflexivity | intros i Hi; lia]).
  destruct (String.eqb _ tag) eqn:Heq.
  - apply String.eqb_eq in Heq. right.
    split; [lia | split; [exact Heq | intros i Hi; lia]].
  - apply String.eqb_neq in Heq.
    destruct (IH (index + 1)) as [[Hr Hnone]|(Hrange & Htag & Hfirst)];
      [lia | left | right].
    + split; [exact Hr|]. intros i Hi.
      destruct (decide (i = index)) as [->|Hne]; [exact Heq | apply Hnone; lia].
    + split; [lia | split; [exact Htag|]]. intros i Hi.
      destruct (decide (i = index)) as [->|Hne]; [exact Heq | apply Hfirst; lia].
Qed.

(** The two loops walk the table alike: the handle loop returns the
    handle of the cell whose index the slot loop returns. *)
Lemma FindTextureID_loop_slot cells n tag fuel :
  ∀ index, 0 ≤ index →
    FindTextureID_loop cells n tag fuel index =
      let r := FindTextureSlot_loop cells n tag fuel index in
      if r <? 0 then -1 else int_of_GLuint (TEXTURE_INFO.ID (cell cells r)).
Proof.
  induction fuel as [|fuel IH]; intros index Hidx; simpl;
    destruct (Z.ltb_spec index n) as [Hlt|Hge]; try reflexivity.
  destruct (String.eqb _ tag).
  - destruct (Z.ltb_spec index 0); [lia | reflexivity].
  - apply IH. lia.
Qed.

(** More fuel than cells left changes nothing. *)
Lemma FindTextureSlot_loop_fuel cells n tag fuel :
  ∀ index, (Z.to_nat (n - index) ≤ fuel)%nat →
    FindTextureSlot_loop cells n tag fuel index =
    FindTextureSlot_loop cells n tag (Z.to_nat (n - index)) index.
Proof.
  induction fuel as [|fuel IH]; intros index Hfuel.
  - replace (Z.to_nat (n - index)) with 0%nat by lia. reflexivity.
  - simpl. destruct (Z.ltb_spec index n) as [Hlt|Hge].
    + replace (Z.to_nat (n - index)) with (S (Z.to_nat (n - (index + 1)))) by lia.
      simpl. destruct (Z.ltb_spec index n); [|lia].
      destruct (String.eqb _ tag); [reflexivity | apply IH; lia].
    + replace (Z.to_nat (n - index)) with 0%nat by lia. simpl.
      destruct (Z.ltb_spec index n); [lia | reflexivity].
Qed.

Lemma FindTextureSlot_spec tag st :
  let r := FindTextureSlot tag st in
  (r = -1 ∧ no_match (m_textureIDs st) (m_loadedTextures st) tag 0) ∨
  first_match (m_textureIDs st) (m_loadedTextures st) tag 0 r.
Proof.
  apply FindTextureSlot_loop_spec. rewrite Z.sub_0_r. reflexivity.
Qed.

Lemma FindTextureID_slot tag st :
  FindTextureID tag st =
    let r := FindTextureSlot tag st in
    if r <? 0 then -1
    else int_of_GLuint (TEXTURE_INFO.ID (cell (m_textureIDs st) r)).
Proof. apply FindTextureID_loop_slot. lia. Qed.

Lemma first_match_unique cells n tag index r1 r2 :
  first_match cells n tag index r1 → first_match cells n tag index r2 → r1 = r2.
Proof.
  intros (Hr1 & Ht1 & Hf1) (Hr2 & Ht2 & Hf2).
  destruct (Z.lt_trichotomy r1 r2) as [Hlt|[Heq|Hgt]]; [|exact Heq|].
  - exfalso. apply (Hf2 r1); [lia | exact Ht1].
  - exfalso. apply (Hf1 r2); [lia | exact Ht2].
Qed.

Lemma FindTextureSlot_first tag st r :
  first_match (m_textureIDs st) (m_loadedTextures st) tag 0 r →
  FindTextureSlot tag st = r.
Proof.
  intros Hr. destruct (FindTextureSlot_spec tag st) as [[_ Hnone]|Hfirst].
  - destruct Hr as (Hrange & Htag & _). exfalso. exact (Hnone r Hrange Htag).
  - exact (first_match_unique _ _ _ _ _ _ Hfirst Hr).
Qed.

Lemma FindTextureSlot_none tag st :
  no_match (m_textureIDs st) (m_loadedTextures st) tag 0 →
  FindTextureSlot tag st = -1.
Proof.
  intros Hnone. destruct (FindTextureSlot_spec tag st) as [[Hr _]|Hfirst].
  - exact Hr.
  - destruct Hfirst as (Hrange & Htag & _). exfalso. exact (Hnone _ Hrange Htag).
Qed.

End LookupFacts.

(** ** The registry *)

Section RegistryFacts.
Context {F : Scalar}.

Lemma elem_of_registered_tags tag st :
  tag ∈ registered_tags st ↔
  ∃ i, 0 ≤ i < m_loadedTextures st ∧ tag_at (m_textureIDs st) i = tag.
Proof.
  unfold registered_tags. rewrite list_elem_of_fmap. split.
  - intros (i & -> & Hi). apply elem_of_seqZ in Hi. exists i. split; [lia | reflexivity].
  - intros (i & Hi & <-). exists i. split; [reflexivity|]. apply elem_of_seqZ. lia.
Qed.

Lemma not_registered_no_match tag st :
  tag ∉ registered_tags st →
  no_match (m_textureIDs st) (m_loadedTextures st) tag 0.
Proof.
  intros Hnot i Hi Htag. apply Hnot. apply elem_of_registered_tags. eauto.
Qed.

(** C8.  For a tag that no used cell of the table carries,
    [FindTextureSlot] and [FindTextureID] both return -1.  Both are
    functions of the table that return a number only: the methods assign
    no member, so the registry is the same after the call. *)
Theorem lookup_unregistered_returns_sentinel (tag : string) (st : State) :
  tag ∉ registered_tags st →
  FindTextureSlot tag st = -1 ∧ FindTextureID tag st = -1.
Proof.
  intros Hnot. apply not_registered_no_match in Hnot.
  assert (FindTextureSlot tag st = -1) as Hslot by (apply FindTextureSlot_none; exact Hnot).
  split; [exact Hslot|].
  rewrite FindTextureID_slot. cbv zeta. rewrite Hslot. reflexivity.
Qed.

End RegistryFacts.

Lemma lookup_unregistered_returns_sentinel_witness :
  ("water" ∉ registered_tags two_textures) ∧
  FindTextureSlot "water" two_textures = -1 ∧
  FindTextureID "water" two_textures = -1.
Proof.
  assert ("water" ∉ registered_tags two_textures) as Hnot.
  { apply (bool_decide_unpack _). vm_compute. exact I. }
  split; [exact Hnot|].
  exact (lookup_unregistered_returns_sentinel "water" two_textures Hnot).
Defined.

(** ** The material catalog *)

Section MaterialFacts.
Context {F : Scalar}.

Lemma FindMaterial_loop_spec materials tag0 material fuel :
  ∀ index, (length materials - index ≤ fuel)%nat →
    FindMaterial_loop materials tag0 fuel index material =
    from_option (copy_into material) material
                (first_material tag0 (drop index materials)).
Proof.
  unfold first_material.
  induction fuel as [|fuel IH]; intros index Hfuel; simpl;
    destruct (materials !! index) as [entry|] eqn:Hentry;
    try (apply lookup_ge_None in Hentry; rewrite drop_ge by lia; reflexivity).
  - apply lookup_lt_Some in Hentry. lia.
  - rewrite (drop_S _ _ _ Hentry). simpl.
    destruct (String.eqb_spec (tag entry) tag0) as [Heq|Hne]; case_decide;
      try contradiction; [reflexivity|].
    rewrite IH by lia.
    destruct (list_find _ (drop (S index) materials)) as [[k e]|]; reflexivity.
Qed.

Lemma FindMaterial_nonempty tag0 material st :
  m_objectMaterials st ≠ [] →
  FindMaterial tag0 material st =
    (true, from_option (copy_into material) material
             (first_material tag0 (m_objectMaterials st))).
Proof.
  intros Hne. unfold FindMaterial.
  destruct (m_objectMaterials st) as [|first rest] eqn:Hcat; [contradiction|].
  cbn [length Nat.eqb]. rewrite FindMaterial_loop_spec by (simpl; lia).
  rewrite drop_0. reflexivity.
Qed.

(** A miss on a non-empty catalog, spelled out. *)
Lemma FindMaterial_miss tag0 material st :
  m_objectMaterials st ≠ [] →
  (∀ entry, entry ∈ m_objectMaterials st → tag entry ≠ tag0) →
  FindMaterial tag0 material st = (true, material).
Proof.
  intros Hne Hmiss. rewrite FindMaterial_nonempty by exact Hne.
  unfold first_material.
  destruct (list_find _ (m_objectMaterials st)) as [[k e]|] eqn:Hfind;
    [|reflexivity].
  apply list_find_Some in Hfind as (Hk & Htag & _).
  exfalso. apply (Hmiss e); [|exact Htag].
  apply list_elem_of_lookup. eauto.
Qed.

(** C1.  [FindMaterial] on an empty catalog returns [false] and leaves
    the reference parameter alone.  On a non-empty catalog it returns
    [true] in every case: with the diffuse colour, specular colour and
    shininess of the first entry whose tag is the one asked for copied
    into the parameter when there is such an entry, and with the
    parameter as it was when there is none. *)
Theorem FindMaterial_first_match_or_stale (tag0 : string)
        (material : OBJECT_MATERIAL) (st : State) :
  FindMaterial tag0 material st =
    match m_objectMaterials st with
    | [] => (false, material)
    | _ :: _ =>
        (true,
         match first_material tag0 (m_objectMaterials st) with
         | Some entry =>
             mkMaterial (diffuseColor entry) (specularColor entry)
                        (shininess entry) (tag material)
         | None => material
         end)
    end.
Proof.
  destruct (m_objectMaterials st) as [|first rest] eqn:Hcat.
  - unfold FindMaterial. rewrite Hcat. reflexivity.
  - rewrite FindMaterial_nonempty by (rewrite Hcat; discriminate).
    rewrite Hcat. destruct (first_material tag0 (first :: rest)); reflexivity.
Qed.

End MaterialFacts.

(** A hit copies the three fields and keeps the tag of the parameter; a
    miss reports success all the same and hands the parameter back. *)
Example FindMaterial_hit :
  FindMaterial "flatPlastic" stale_material unlit_scene =
    (true, mkMaterial (rv3 0.5 0.5 0.5) (rv3 0.2 0.2 0.2) 5%R "stale").
Proof. reflexivity. Qed.

Example FindMaterial_stale_success :
  FindMaterial "glass" stale_material unlit_scene = (true, stale_material).
Proof. reflexivity. Qed.

Example FindMaterial_empty_catalog :
  FindMaterial "glass" stale_material empty_scene = (false, stale_material).
Proof. reflexivity. Qed.

(** ** The GL context under the commands of the class *)

Module GLFacts.
Import GL.

Lemma unused_name_above (l : list Z) (x : Z) : x ∈ l → x < unused_name l.
Proof.
  unfold unused_name. induction l as [|y l IH]; intros Hx.
  - inversion Hx.
  - apply elem_of_cons in Hx as [->|Hx]; simpl; [lia|].
    specialize (IH Hx). lia.
Qed.

Lemma unused_name_fresh (l : list Z) : unused_name l ∉ l.
Proof. intros Hin. apply unused_name_above in Hin. lia. Qed.

Lemma unused_name_positive (l : list Z) : 0 < unused_name l.
Proof. unfold unused_name. induction l as [|y l IH]; simpl; lia. Qed.

Lemma names_issue c ctx : names (issue c ctx) = names ctx.
Proof. reflexivity. Qed.

Lemma names_glBindTexture target texture ctx :
  names (glBindTexture target texture ctx) = names ctx.
Proof. unfold glBindTexture. repeat case_bool_decide; reflexivity. Qed.

Lemma names_glActiveTexture texture ctx :
  names (glActiveTexture texture ctx) = names ctx.
Proof. unfold glActiveTexture. case_bool_decide; reflexivity. Qed.

Lemma active_glBindTexture target texture ctx :
  active (glBindTexture target texture ctx) = active ctx.
Proof. unfold glBindTexture. repeat case_bool_decide; reflexivity. Qed.

(** Binding 0 always succeeds and leaves the active unit unbound. *)
Lemma glBindTexture_zero ctx :
  current_binding (glBindTexture GL_TEXTURE_2D 0 ctx) = 0.
Proof.
  unfold glBindTexture, current_binding.
  rewrite bool_decide_true by reflexivity.
  rewrite bool_decide_true by (left; reflexivity).
  simpl. rewrite lookup_insert_eq. reflexivity.
Qed.

(** Binding a live name makes it the binding of the active unit. *)
Lemma glBindTexture_live texture ctx :
  texture ∈ names ctx →
  current_binding (glBindTexture GL_TEXTURE_2D texture ctx) = texture.
Proof.
  intros Hlive. unfold glBindTexture, current_binding.
  rewrite bool_decide_true by reflexivity.
  rewrite bool_decide_true by (right; exact Hlive).
  simpl. rewrite lookup_insert_eq. reflexivity.
Qed.

End GLFacts.

(** ** Registration *)

Section RegistrationFacts.
Context {F : Scalar}.
Variable stbi_load : bool → string → option stbi_image.

Lemma cell_write_ID i id cells j :
  cell (write_ID i id cells) j =
    if decide (j = i) then TEXTURE_INFO.mk id (TEXTURE_INFO.tag (cell cells i))
    else cell cells j.
Proof.
  unfold write_ID, cell. case_decide as Hj.
  - subst j. apply lookup_total_insert_eq.
  - apply lookup_total_insert_ne. congruence.
Qed.

Lemma cell_write_tag i tag cells j :
  cell (write_tag i tag cells) j =
    if decide (j = i) then TEXTURE_INFO.mk (TEXTURE_INFO.ID (cell cells i)) tag
    else cell cells j.
Proof.
  unfold write_tag, cell. case_decide as Hj.
  - subst j. apply lookup_total_insert_eq.
  - apply lookup_total_insert_ne. congruence.
Qed.

(** The two assignments of a registration fill cell [n]. *)
Lemma cell_registered n id tag cells j :
  cell (write_tag n tag (write_ID n id cells)) j =
    if decide (j = n) then TEXTURE_INFO.mk id tag else cell cells j.
Proof.
  rewrite cell_write_tag. case_decide as Hj.
  - rewrite cell_write_ID. rewrite decide_True by reflexivity. reflexivity.
  - rewrite cell_write_ID. rewrite decide_False by exact Hj. reflexivity.
Qed.

(** The state after a successful registration. *)
Lemma create_texture_success wrap filename tag st :
  supported stbi_load filename →
  ∃ g, create_texture stbi_load wrap filename tag st =
         (true,
          set_gl g
            (set_textures
               (write_tag (m_loadedTextures st) tag
                  (write_ID (m_loadedTextures st)
                     (GL.unused_name (GL.names (gl st))) (m_textureIDs st)))
               (m_loadedTextures st + 1) st)) ∧
       GL.current_binding g = 0 ∧
       GL.names g = GL.unused_name (GL.names (gl st)) :: GL.names (gl st).
Proof.
  intros (image & Hload & Hchannels). unfold create_texture. rewrite Hload.
  cbv beta iota zeta delta [GL.glGenTextures].
  destruct Hchannels as [H3|H4].
  - rewrite H3. cbn [Z.eqb Pos.eqb]. eexists. split; [reflexivity|]. split.
    + apply GLFacts.glBindTexture_zero.
    + unfold GL.glGenerateMipmap, GL.glTexImage2D, GL.glTexParameteri.
      repeat (rewrite GLFacts.names_glBindTexture || rewrite GLFacts.names_issue).
      reflexivity.
  - rewrite H4. cbn [Z.eqb Pos.eqb]. eexists. split; [reflexivity|]. split.
    + apply GLFacts.glBindTexture_zero.
    + unfold GL.glGenerateMipmap, GL.glTexImage2D, GL.glTexParameteri.
      repeat (rewrite GLFacts.names_glBindTexture || rewrite GLFacts.names_issue).
      reflexivity.
Qed.

(** A call that does not succeed leaves table and counter alone. *)
Lemma create_texture_failure wrap filename tag st :
  ¬ supported stbi_load filename →
  ∃ g, create_texture stbi_load wrap filename tag st = (false, set_gl g st).
Proof.
  intros Hnot. unfold create_texture.
  destruct (stbi_load true filename) as [image|] eqn:Hload.
  - cbv beta iota zeta delta [GL.glGenTextures].
    destruct (Z.eqb_spec (colorChannels image) 3) as [H3|H3];
      [exfalso; apply Hnot; exists image; auto|].
    destruct (Z.eqb_spec (colorChannels image) 4) as [H4|H4];
      [exfalso; apply Hnot; exists image; auto|].
    eexists. reflexivity.
  - exists (gl st). destruct st; reflexivity.
Qed.

End RegistrationFacts.

Section RegistrationOutcome.
Context {F : Scalar}.
Variable stbi_load : bool → string → option stbi_image.

(** Every call takes one of the two ways out described above. *)
Lemma create_texture_cases wrap filename tag st :
  (supported stbi_load filename ∧
   fst (create_texture stbi_load wrap filename tag st) = true) ∨
  (¬ supported stbi_load filename ∧
   fst (create_texture stbi_load wrap filename tag st) = false).
Proof.
  destruct (stbi_load true filename) as [image|] eqn:Hload.
  - destruct (decide (colorChannels image = 3 ∨ colorChannels image = 4))
      as [Hyes|Hno].
    + assert (supported stbi_load filename) as Hs by (exists image; auto).
      left. split; [exact Hs|].
      destruct (create_texture_success stbi_load wrap filename tag st Hs)
        as (g & -> & _). reflexivity.
    + assert (¬ supported stbi_load filename) as Hs.
      { intros (image' & Hload' & Hyes). rewrite Hload in Hload'.
        injection Hload' as <-. contradiction. }
      right. split; [exact Hs|].
      destruct (create_texture_failure stbi_load wrap filename tag st Hs)
        as (g & ->). reflexivity.
  - assert (¬ supported stbi_load filename) as Hs.
    { intros (image' & Hload' & _). congruence. }
    right. split; [exact Hs|].
    destruct (create_texture_failure stbi_load wrap filename tag st Hs)
      as (g & ->). reflexivity.
Qed.

Lemma create_texture_true_supported wrap filename tag st :
  fst (create_texture stbi_load wrap filename tag st) = true →
  supported stbi_load filename.
Proof.
  destruct (create_texture_cases wrap filename tag st) as [[Hs _]|[_ Hf]];
    [intros _; exact Hs | congruence].
Qed.

(** C3.  When the decoded image has neither 3 nor 4 channels,
    [CreateGLTexture] and [CreateMirroredTexture] return [false] and add
    no entry: the counter [m_loadedTextures] and every cell of the table
    are as before the call. *)
Theorem unsupported_channels_register_nothing
        (filename tag : string) (st : State) (image : stbi_image) :
  stbi_load true filename = Some image →
  colorChannels image ≠ 3 →
  colorChannels image ≠ 4 →
  let unchanged (r : bool * State) :=
    fst r = false ∧
    m_loadedTextures (snd r) = m_loadedTextures st ∧
    m_textureIDs (snd r) = m_textureIDs st in
  unchanged (CreateGLTexture stbi_load filename tag st) ∧
  unchanged (CreateMirroredTexture stbi_load filename tag st).
Proof.
  intros Hload H3 H4.
  assert (¬ supported stbi_load filename) as Hs.
  { intros (image' & Hload' & Hyes). rewrite Hload in Hload'.
    injection Hload' as <-. destruct Hyes; contradiction. }
  unfold CreateGLTexture, CreateMirroredTexture. split.
  - destruct (create_texture_failure stbi_load GL.GL_REPEAT filename tag st Hs)
      as (g & ->). repeat split.
  - destruct (create_texture_failure stbi_load GL.GL_MIRRORED_REPEAT
                filename tag st Hs) as (g & ->). repeat split.
Qed.


(** C7, amended.  After a call of [CreateGLTexture] or
    [CreateMirroredTexture] that returns [true], no texture is bound to
    [GL_TEXTURE_2D] on the active unit; a call on a file that cannot be
    decoded issues no GL command and leaves the whole state, the binding
    included, as it was. *)
Theorem binding_after_registration (filename tag : string) (st : State) :
  (fst (CreateGLTexture stbi_load filename tag st) = true →
   GL.current_binding (gl (snd (CreateGLTexture stbi_load filename tag st))) = 0) ∧
  (fst (CreateMirroredTexture stbi_load filename tag st) = true →
   GL.current_binding
     (gl (snd (CreateMirroredTexture stbi_load filename tag st))) = 0) ∧
  (stbi_load true filename = None →
   snd (CreateGLTexture stbi_load filename tag st) = st ∧
   snd (CreateMirroredTexture stbi_load filename tag st) = st).
Proof.
  unfold CreateGLTexture, CreateMirroredTexture.
  split; [|split; [|intros Hload; split]].
  - intros Hok. apply create_texture_true_supported in Hok.
    destruct (create_texture_success stbi_load GL.GL_REPEAT filename tag st Hok)
      as (g & -> & Hbinding & _). exact Hbinding.
  - intros Hok. apply create_texture_true_supported in Hok.
    destruct (create_texture_success stbi_load GL.GL_MIRRORED_REPEAT
                filename tag st Hok) as (g & -> & Hbinding & _). exact Hbinding.
  - unfold create_texture. rewrite Hload. reflexivity.
  - unfold create_texture. rewrite Hload. reflexivity.
Qed.

End RegistrationOutcome.

(** ** Histories of registrations *)

Section HistoryFacts.
Context {F : Scalar}.
Variable stbi_load : bool → string → option stbi_image.

(** A call either fills cell [m_loadedTextures] and moves the counter, or
    changes the GL context only. *)
Lemma perform_cases r st :
  (∃ g id,
     perform stbi_load r st =
       (true,
        set_gl g
          (set_textures
             (write_tag (m_loadedTextures st) (request_tag r)
                (write_ID (m_loadedTextures st) id (m_textureIDs st)))
             (m_loadedTextures st + 1) st))) ∨
  (∃ g, perform stbi_load r st = (false, set_gl g st)).
Proof.
  destruct r as [filename tag|filename tag]; simpl;
    unfold CreateGLTexture, CreateMirroredTexture.
  - destruct (create_texture_cases stbi_load GL.GL_REPEAT filename tag st)
      as [[Hs _]|[Hs _]].
    + left. destruct (create_texture_success stbi_load GL.GL_REPEAT
                        filename tag st Hs) as (g & Heq & _). eauto.
    + right. apply create_texture_failure. exact Hs.
  - destruct (create_texture_cases stbi_load GL.GL_MIRRORED_REPEAT filename tag st)
      as [[Hs _]|[Hs _]].
    + left. destruct (create_texture_success stbi_load GL.GL_MIRRORED_REPEAT
                        filename tag st Hs) as (g & Heq & _). eauto.
    + right. apply create_texture_failure. exact Hs.
Qed.

Lemma holds_set_gl receipts g st : holds receipts st → holds receipts (set_gl g st).
Proof. intros H. exact H. Qed.

(** A successful call appends its receipt. *)
Lemma holds_registered receipts g id tag st :
  holds receipts st →
  holds (receipts ++ [mkReceipt (m_loadedTextures st) id tag])
        (set_gl g
           (set_textures
              (write_tag (m_loadedTextures st) tag
                 (write_ID (m_loadedTextures st) id (m_textureIDs st)))
              (m_loadedTextures st + 1) st)).
Proof.
  intros [Hn Hcells]. split.
  - cbn [set_gl set_textures m_loadedTextures]. rewrite length_app. simpl. lia.
  - intros k rc Hk. cbn [set_gl set_textures m_textureIDs].
    rewrite cell_registered.
    destruct (decide (k < length receipts)%nat) as [Hlt|Hge].
    + rewrite lookup_app_l in Hk by exact Hlt.
      rewrite decide_False by lia. exact (Hcells k rc Hk).
    + rewrite lookup_app_r in Hk by lia.
      destruct (k - length receipts)%nat as [|k'] eqn:Hdiff; [|discriminate].
      injection Hk as <-. cbn [slot handle owner].
      rewrite decide_True by lia. split; [lia | reflexivity].
Qed.

Lemma perform_all_holds rs :
  ∀ st pre, holds pre st →
    holds (pre ++ fst (perform_all stbi_load rs st))
          (snd (perform_all stbi_load rs st)).
Proof.
  induction rs as [|r rs IH]; intros st pre Hpre; simpl.
  - rewrite app_nil_r. exact Hpre.
  - destruct (perform_cases r st) as [(g & id & Heq)|(g & Heq)]; rewrite Heq.
    + specialize (IH _ _ (holds_registered pre g id (request_tag r) st Hpre)).
      destruct (perform_all stbi_load rs _) as [receipts st''].
      cbn [fst snd] in *.
      cbn [set_gl set_textures m_textureIDs]. rewrite cell_registered.
      rewrite decide_True by reflexivity. cbn [TEXTURE_INFO.ID].
      rewrite <- app_assoc in IH. exact IH.
    + specialize (IH _ _ (holds_set_gl pre g st Hpre)).
      destruct (perform_all stbi_load rs _) as [receipts st''].
      cbn [fst snd] in *. exact IH.
Qed.

(** Slots of receipts count up from 0. *)
Lemma holds_slots receipts st :
  holds receipts st → slot <$> receipts = seqZ 0 (Z.of_nat (length receipts)).
Proof.
  intros [_ Hcells]. apply list_eq. intros k. rewrite list_lookup_fmap.
  destruct (receipts !! k) as [rc|] eqn:Hk; simpl.
  - destruct (Hcells k rc Hk) as [-> _]. symmetry. apply lookup_seqZ.
    apply lookup_lt_Some in Hk. lia.
  - symmetry. apply lookup_seqZ_ge. apply lookup_ge_None in Hk. lia.
Qed.

(** The tags of the used cells are the tags of the receipts. *)
Lemma holds_registered_tags receipts st :
  holds receipts st → registered_tags st = owner <$> receipts.
Proof.
  intros [Hn Hcells]. unfold registered_tags. rewrite Hn.
  apply list_eq. intros k. rewrite !list_lookup_fmap.
  destruct (receipts !! k) as [rc|] eqn:Hk; simpl.
  - rewrite lookup_seqZ_lt by (apply lookup_lt_Some in Hk; lia). simpl.
    unfold tag_at. rewrite Z.add_0_l.
    destruct (Hcells k rc Hk) as [_ ->]. reflexivity.
  - rewrite lookup_seqZ_ge by (apply lookup_ge_None in Hk; lia). reflexivity.
Qed.

(** Both lookups answer with the first receipt issued for the tag. *)
Lemma holds_lookup receipts st tag rc :
  holds receipts st →
  first_receipt tag receipts = Some rc →
  FindTextureSlot tag st = slot rc ∧
  FindTextureID tag st = int_of_GLuint (handle rc).
Proof.
  intros [Hn Hcells] Hfirst. unfold first_receipt in Hfirst.
  destruct (list_find _ receipts) as [[k rc']|] eqn:Hfind; [|discriminate].
  injection Hfirst as ->.
  apply list_find_Some in Hfind as (Hk & Howner & Hearlier).
  destruct (Hcells k rc Hk) as [Hslot Hcell].
  assert (FindTextureSlot tag st = Z.of_nat k) as Hfound.
  { apply FindTextureSlot_first. split; [|split].
    - apply lookup_lt_Some in Hk. lia.
    - unfold tag_at. rewrite Hcell. exact Howner.
    - intros i Hi. unfold tag_at.
      assert (Z.to_nat i < k)%nat as Hik by lia.
      destruct (lookup_lt_is_Some_2 receipts (Z.to_nat i)) as [rci Hrci].
      { apply lookup_lt_Some in Hk. lia. }
      destruct (Hcells _ _ Hrci) as [_ Hcelli].
      rewrite Z2Nat.id in Hcelli by lia. rewrite Hcelli.
      exact (Hearlier _ _ Hrci Hik). }
  split.
  - rewrite Hfound. symmetry. exact Hslot.
  - rewrite FindTextureID_slot. cbv zeta. rewrite Hfound, Hcell.
    destruct (Z.ltb_spec (Z.of_nat k) 0); [lia | reflexivity].
Qed.

(** C2.  From a table with no entry, after any sequence of calls of
    [CreateGLTexture] and [CreateMirroredTexture]: the calls that returned
    [true] were given the slots 0, 1, 2, ... in the order of the calls, the
    counter is their number, each of them still has its handle and tag in
    the cell of its slot, and for every tag [FindTextureSlot] and
    [FindTextureID] return the slot and the handle of the first of them
    that was given the tag, also when later ones were given it again. *)
Theorem lookups_return_first_registration (rs : list request) (st0 : State) :
  m_loadedTextures st0 = 0 →
  let receipts := fst (perform_all stbi_load rs st0) in
  let st := snd (perform_all stbi_load rs st0) in
  slot <$> receipts = seqZ 0 (Z.of_nat (length receipts)) ∧
  m_loadedTextures st = Z.of_nat (length receipts) ∧
  (∀ rc, rc ∈ receipts →
     cell (m_textureIDs st) (slot rc) = TEXTURE_INFO.mk (handle rc) (owner rc)) ∧
  (∀ tag rc, first_receipt tag receipts = Some rc →
     FindTextureSlot tag st = slot rc ∧
     FindTextureID tag st = int_of_GLuint (handle rc)) ∧
  (∀ rc, rc ∈ receipts → is_Some (first_receipt (owner rc) receipts)).
Proof.
  intros Hzero receipts st.
  assert (holds receipts st) as Hholds.
  { apply (perform_all_holds rs st0 []). split; [exact Hzero|].
    intros k rc Hk. discriminate. }
  split; [exact (holds_slots _ _ Hholds)|].
  split; [exact (proj1 Hholds)|].
  split; [|split].
  - intros rc Hrc. apply list_elem_of_lookup in Hrc as [k Hk].
    destruct (proj2 Hholds k rc Hk) as [-> Hcell]. exact Hcell.
  - intros tag rc Hfirst. exact (holds_lookup _ _ _ _ Hholds Hfirst).
  - intros rc Hrc. unfold first_receipt.
    destruct (list_find_elem_of (λ r, owner r = owner rc) receipts rc Hrc eq_refl)
      as [[k first] ->]. eexists. reflexivity.
Qed.

End HistoryFacts.

(** ** The registration theorems on the concrete scenes *)

Lemma lookups_return_first_registration_witness :
  m_loadedTextures empty_scene = 0 ∧
  FindTextureSlot "cloth" (snd (perform_all disk three_requests empty_scene)) = 0 ∧
  FindTextureID "cloth" (snd (perform_all disk three_requests empty_scene)) = 1.
Proof.
  split; [reflexivity|].
  destruct (lookups_return_first_registration disk three_requests empty_scene
              eq_refl) as (_ & _ & _ & Hfirst & _).
  apply (Hfirst "cloth" (mkReceipt 0 1 "cloth")). vm_compute. reflexivity.
Defined.

(** The three calls of [three_requests] all succeed; the second ["cloth"]
    sits in slot 2 and is never the answer. *)
Example three_requests_receipts :
  fst (perform_all disk three_requests empty_scene) =
    [mkReceipt 0 1 "cloth"; mkReceipt 1 2 "skull"; mkReceipt 2 3 "cloth"].
Proof. vm_compute. reflexivity. Qed.

Lemma unsupported_channels_register_nothing_witness :
  disk true "gray.jpg" = Some (mkImage 1 1 1 [128]) ∧
  fst (CreateGLTexture disk "gray.jpg" "shadow" bound_scene) = false ∧
  m_loadedTextures (snd (CreateGLTexture disk "gray.jpg" "shadow" bound_scene)) = 1 ∧
  m_textureIDs (snd (CreateGLTexture disk "gray.jpg" "shadow" bound_scene)) =
    m_textureIDs bound_scene.
Proof.
  split; [reflexivity|].
  assert (colorChannels (mkImage 1 1 1 [128]) ≠ 3) as H3 by (simpl; lia).
  assert (colorChannels (mkImage 1 1 1 [128]) ≠ 4) as H4 by (simpl; lia).
  destruct (unsupported_channels_register_nothing disk "gray.jpg" "shadow"
              bound_scene (mkImage 1 1 1 [128]) eq_refl H3 H4)
    as [(Hflag & Hcount & Hcells) _].
  split; [exact Hflag|]. split; [exact Hcount | exact Hcells].
Defined.


(** Where the seventeenth texture ends up: [BindGLTextures] asks for unit
    16 of 16, the context refuses with [GL_INVALID_ENUM] and stays on unit
    15, and the texture is bound there, in place of the sixteenth. *)
Example seventeenth_texture_at_bind_time :
  let st := BindGLTextures (crowded_scene 17) in
  GL.errors (gl st) = [GL.GL_INVALID_ENUM] ∧
  GL.active (gl st) = 15 ∧
  GL.bound2D (gl st) !! 15 = Some 17 ∧
  GL.bound2D (gl st) !! 16 = None.
Proof. vm_compute. repeat split. Qed.

Lemma binding_after_registration_witness :
  fst (CreateGLTexture disk "rgb.jpg" "wall" bound_scene) = true ∧
  GL.current_binding (gl bound_scene) = 1 ∧
  GL.current_binding
    (gl (snd (CreateGLTexture disk "rgb.jpg" "wall" bound_scene))) = 0 ∧
  disk true "missing.jpg" = None ∧
  snd (CreateMirroredTexture disk "missing.jpg" "wall" bound_scene) = bound_scene.
Proof.
  assert (fst (CreateGLTexture disk "rgb.jpg" "wall" bound_scene) = true) as Hok
    by (vm_compute; reflexivity).
  split; [exact Hok|]. split; [vm_compute; reflexivity|].
  split.
  - exact (proj1 (binding_after_registration disk "rgb.jpg" "wall" bound_scene) Hok).
  - split; [reflexivity|].
    exact (proj2 (proj2 (proj2 (binding_after_registration disk "missing.jpg"
                                  "wall" bound_scene)) eq_refl)).
Defined.

(** C7 as stated fails: with texture 1 bound on the active unit, a call on
    a file that cannot be decoded returns [false] and texture 1 is still
    bound. *)
Lemma binding_after_every_registration_counterexample :
  ¬ (∀ (stbi_load : bool → string → option stbi_image) (filename tag : string)
       (st : State (F := R_scalar)),
        GL.current_binding
          (gl (snd (CreateGLTexture stbi_load filename tag st))) = 0 ∧
        GL.current_binding
          (gl (snd (CreateMirroredTexture stbi_load filename tag st))) = 0).
Proof.
  intros Hclaim.
  destruct (Hclaim disk "missing.jpg" "wall" bound_scene) as [Hplain _].
  vm_compute in Hplain. discriminate Hplain.
Qed.

(** The other way a call fails: on the greyscale file the method returns
    from inside the branch that bound the new texture, before the line
    that binds 0. *)
Example binding_after_unsupported_channels :
  let r := CreateGLTexture disk "gray.jpg" "shadow" empty_scene in
  fst r = false ∧ GL.current_binding (gl (snd r)) = 1 ∧
  GL.names (gl (snd r)) = [1].
Proof. vm_compute. repeat split. Qed.

(** ** DestroyGLTextures *)

Section DestroyFacts.
Context {F : Scalar}.

(** What the loop does from index [i] on: it issues [glGenTextures]
    commands only, every name that was live stays live, each cell from
    [i] up to [n] gets a name that was not live before and keeps its tag,
    and the other cells are not touched. *)
Lemma DestroyGLTextures_loop_spec n fuel :
  ∀ i cells g, (Z.to_nat (n - i) ≤ fuel)%nat →
    let cells' := fst (DestroyGLTextures_loop n fuel i cells g) in
    let g' := snd (DestroyGLTextures_loop n fuel i cells g) in
    (∀ id, id ∈ GL.names g → id ∈ GL.names g') ∧
    (∃ issued, GL.log g' = issued ++ GL.log g ∧ Forall is_GenTextures issued) ∧
    (∀ j, i ≤ j < n →
       (TEXTURE_INFO.ID (cell cells' j) ∉ GL.names g) ∧
       TEXTURE_INFO.ID (cell cells' j) ∈ GL.names g' ∧
       TEXTURE_INFO.tag (cell cells' j) = TEXTURE_INFO.tag (cell cells j)) ∧
    (∀ j, ¬ i ≤ j < n → cell cells' j = cell cells j).
Proof.
  induction fuel as [|fuel IH]; intros i cells g Hfuel; simpl;
    destruct (Z.ltb_spec i n) as [Hlt|Hge];
    try (cbn [fst snd]; split; [auto|]; split;
         [exists []; split; [reflexivity | constructor]|];
         split; [intros j Hj; lia | reflexivity]).
  specialize (IH (i + 1) (write_ID i (GL.unused_name (GL.names g)) cells)
                 (snd (GL.glGenTextures g))).
  cbn [GL.glGenTextures snd] in IH.
  destruct (DestroyGLTextures_loop n fuel (i + 1) _ _) as [cells' g'].
  cbn [fst snd] in *.
  destruct IH as (Hlive & (issued & Hlog & Hgen) & Hnew & Hold); [lia|].
  cbn [GL.issue GL.names GL.log] in *.
  split; [|split; [|split]].
  - intros id Hid. apply Hlive. right. exact Hid.
  - exists (issued ++ [GL.GenTextures (GL.unused_name (GL.names g))]). split.
    + rewrite Hlog, <- app_assoc. reflexivity.
    + apply Forall_app. split; [exact Hgen|].
      constructor; [eexists; reflexivity | constructor].
  - intros j Hj. destruct (decide (j = i)) as [->|Hne].
    + rewrite Hold by lia. rewrite cell_write_ID.
      rewrite decide_True by reflexivity. cbn [TEXTURE_INFO.ID TEXTURE_INFO.tag].
      split; [apply GLFacts.unused_name_fresh|].
      split; [apply Hlive; left | reflexivity].
    + destruct (Hnew j) as (Hfresh & Hin & Htag); [lia|].
      split; [intros Hid; apply Hfresh; right; exact Hid|].
      split; [exact Hin|].
      rewrite Htag, cell_write_ID. rewrite decide_False by exact Hne. reflexivity.
  - intros j Hj. rewrite Hold by lia. rewrite cell_write_ID.
    rewrite decide_False by lia. reflexivity.
Qed.

(** C6.  [DestroyGLTextures] gives no texture name back: the only GL
    commands it issues are [glGenTextures], every name that was live
    before the call is live after it, each used cell of the table holds a
    name generated during the call (one that was not live before) under
    its old tag, and the counter [m_loadedTextures] is what it was. *)
Theorem DestroyGLTextures_regenerates_handles (st : State) :
  let st' := DestroyGLTextures st in
  m_loadedTextures st' = m_loadedTextures st ∧
  (∀ id, id ∈ GL.names (gl st) → id ∈ GL.names (gl st')) ∧
  (∃ issued, GL.log (gl st') = issued ++ GL.log (gl st) ∧
             Forall is_GenTextures issued) ∧
  (∀ i, 0 ≤ i < m_loadedTextures st →
     (TEXTURE_INFO.ID (cell (m_textureIDs st') i) ∉ GL.names (gl st)) ∧
     TEXTURE_INFO.ID (cell (m_textureIDs st') i) ∈ GL.names (gl st') ∧
     TEXTURE_INFO.tag (cell (m_textureIDs st') i) =
       TEXTURE_INFO.tag (cell (m_textureIDs st) i)).
Proof.
  unfold DestroyGLTextures.
  pose proof (DestroyGLTextures_loop_spec (m_loadedTextures st)
                (Z.to_nat (m_loadedTextures st)) 0 (m_textureIDs st) (gl st))
    as Hloop.
  destruct (DestroyGLTextures_loop _ _ 0 _ _) as [cells' g'].
  cbn [fst snd] in Hloop.
  destruct Hloop as (Hlive & Hlog & Hnew & _); [lia|].
  cbn [set_gl set_textures m_loadedTextures m_textureIDs gl].
  split; [reflexivity|]. split; [exact Hlive|]. split; [exact Hlog | exact Hnew].
Qed.

End DestroyFacts.

(** On [bound_scene], whose one cell holds handle 1: handle 2 replaces it
    in the cell, and both names are live afterwards. *)
Example DestroyGLTextures_bound_scene :
  let st := DestroyGLTextures bound_scene in
  cell (m_textureIDs bound_scene) 0 = TEXTURE_INFO.mk 1 "cloth" ∧
  cell (m_textureIDs st) 0 = TEXTURE_INFO.mk 2 "cloth" ∧
  GL.names (gl st) = [2; 1] ∧
  m_loadedTextures st = 1.
Proof. vm_compute. repeat split. Qed.

(** ** Shader set-up *)

Section ShaderFacts.
Context {F : Scalar}.

Lemma uniform_of_set_shader sh (st : State) name :
  uniform_of (set_shader (Some sh) st) name = uniforms sh !! name.
Proof. reflexivity. Qed.

Lemma uniform_of_set_gl g (st : State) name :
  uniform_of (set_gl g st) name = uniform_of st name.
Proof. reflexivity. Qed.


(** The sampler that [SetShaderTexture] writes. *)
Lemma SetShaderTexture_sampler textureTag sh st :
  m_pShaderManager st = Some sh →
  uniform_of (SetShaderTexture textureTag st) g_TextureValueName =
    Some (USampler2D (FindTextureSlot textureTag st)).
Proof.
  intros Hsh. unfold SetShaderTexture. rewrite Hsh.
  rewrite uniform_of_set_shader. unfold setSampler2DValue, setUniform. simpl.
  apply lookup_insert_eq.
Qed.

(** The first sampler that [SetTwoTextures] writes. *)
Lemma SetTwoTextures_sampler tag1 tag2 mixFactor sh st :
  m_pShaderManager st = Some sh →
  uniform_of (SetTwoTextures tag1 tag2 mixFactor st) g_TextureValueName =
    Some (USampler2D (FindTextureSlot tag1 st)).
Proof.
  intros Hsh. unfold SetTwoTextures. rewrite Hsh.
  rewrite uniform_of_set_gl, uniform_of_set_shader.
  unfold setSampler2DValue, setUniform. simpl.
  rewrite lookup_insert_ne by discriminate. apply lookup_insert_eq.
Qed.

(** C5.  [SetTwoTextures(tagA, tagA, 0.0)] and [SetShaderTexture(tagA)]
    leave the same value in the uniform [objectTexture]; with a shader
    manager that value is the sampler [FindTextureSlot(tagA)], which for a
    registered tag is the index of the first cell carrying it. *)
Theorem two_textures_and_single_texture_agree (tagA : string) (st : State) :
  uniform_of (SetTwoTextures tagA tagA fzero st) g_TextureValueName =
    uniform_of (SetShaderTexture tagA st) g_TextureValueName ∧
  (∀ sh, m_pShaderManager st = Some sh →
     uniform_of (SetShaderTexture tagA st) g_TextureValueName =
       Some (USampler2D (FindTextureSlot tagA st))) ∧
  (tagA ∈ registered_tags st →
     first_match (m_textureIDs st) (m_loadedTextures st) tagA 0
                 (FindTextureSlot tagA st)).
Proof.
  split; [|split].
  - destruct (m_pShaderManager st) as [sh|] eqn:Hsh.
    + rewrite (SetTwoTextures_sampler _ _ _ sh) by exact Hsh.
      rewrite (SetShaderTexture_sampler _ sh) by exact Hsh. reflexivity.
    + unfold SetTwoTextures, SetShaderTexture. rewrite Hsh. reflexivity.
  - intros sh Hsh. apply (SetShaderTexture_sampler _ sh). exact Hsh.
  - intros Hreg. apply elem_of_registered_tags in Hreg as (i & Hi & Htag).
    destruct (FindTextureSlot_spec tagA st) as [[_ Hnone]|Hfirst];
      [exfalso; exact (Hnone i Hi Htag) | exact Hfirst].
Qed.

(** C10.  With a null shader-manager pointer, [SetTransformations],
    [SetShaderColor], [SetShaderTexture], [SetTextureUVScale] and
    [SetTwoTextures] return with the state as it was.
    [SetShaderMaterial] tests the catalog only: on an empty catalog it
    returns, on any other it gets [true] from [FindMaterial] and
    dereferences the null pointer. *)
Theorem null_shader_manager_guards (st : State) :
  m_pShaderManager st = None →
  (∀ scaleXYZ X Y Z positionXYZ,
     SetTransformations scaleXYZ X Y Z positionXYZ st = st) ∧
  (∀ r g b a, SetShaderColor r g b a st = st) ∧
  (∀ textureTag, SetShaderTexture textureTag st = st) ∧
  (∀ u v, SetTextureUVScale u v st = st) ∧
  (∀ tag1 tag2 mixFactor, SetTwoTextures tag1 tag2 mixFactor st = st) ∧
  (∀ materialTag uninitialised,
     (m_objectMaterials st = [] →
      SetShaderMaterial materialTag uninitialised st = Returns st) ∧
     (m_objectMaterials st ≠ [] →
      SetShaderMaterial materialTag uninitialised st = NullDereference)).
Proof.
  intros Hnull.
  unfold SetTransformations, SetShaderColor, SetShaderTexture,
    SetTextureUVScale, SetTwoTextures.
  rewrite Hnull. repeat (split; [reflexivity|]).
  intros materialTag uninitialised. unfold SetShaderMaterial. split.
  - intros ->. reflexivity.
  - intros Hne. rewrite (FindMaterial_nonempty _ _ _ Hne). rewrite Hnull.
    destruct (m_objectMaterials st); [contradiction | reflexivity].
Qed.

End ShaderFacts.

Lemma two_textures_and_single_texture_agree_witness :
  m_pShaderManager shaded_scene = Some (mkShader ∅) ∧
  ("wall" ∈ registered_tags shaded_scene) ∧
  uniform_of (SetTwoTextures "wall" "wall" 0%R shaded_scene) g_TextureValueName =
    uniform_of (SetShaderTexture "wall" shaded_scene) g_TextureValueName ∧
  uniform_of (SetShaderTexture "wall" shaded_scene) g_TextureValueName =
    Some (USampler2D (FindTextureSlot "wall" shaded_scene)) ∧
  first_match (m_textureIDs shaded_scene) (m_loadedTextures shaded_scene)
              "wall" 0 (FindTextureSlot "wall" shaded_scene).
Proof.
  assert ("wall" ∈ registered_tags shaded_scene) as Hreg.
  { apply (bool_decide_unpack _). vm_compute. exact I. }
  destruct (two_textures_and_single_texture_agree (F := R_scalar) "wall"
              shaded_scene) as (Hsame & Hsampler & Hfirst).
  split; [reflexivity|]. split; [exact Hreg|]. split; [exact Hsame|].
  split; [exact (Hsampler (mkShader ∅) eq_refl) | exact (Hfirst Hreg)].
Defined.

Example shaded_scene_wall_slot : FindTextureSlot "wall" shaded_scene = 1.
Proof. vm_compute. reflexivity. Qed.

Lemma null_shader_manager_guards_witness :
  m_pShaderManager unlit_scene = None ∧
  m_objectMaterials unlit_scene ≠ [] ∧
  SetTwoTextures "cloth" "skull" 0.3%R unlit_scene = unlit_scene ∧
  SetShaderMaterial "glass" flatPlasticMaterial unlit_scene = NullDereference ∧
  SetShaderMaterial "flatPlastic" flatPlasticMaterial unlit_scene = NullDereference.
Proof.
  assert (m_objectMaterials unlit_scene ≠ []) as Hne by discriminate.
  destruct (null_shader_manager_guards unlit_scene eq_refl)
    as (_ & _ & _ & _ & Htwo & Hmaterial).
  split; [reflexivity|]. split; [exact Hne|]. split; [apply Htwo|].
  split.
  - exact (proj2 (Hmaterial "glass" flatPlasticMaterial) Hne).
  - exact (proj2 (Hmaterial "flatPlastic" flatPlasticMaterial) Hne).
Defined.

(** ** The model matrix, in exact arithmetic *)

Section ModelMatrix.
Local Open Scope R_scope.

(** Equality of two real matrices, entry by entry. *)
Ltac entrywise :=
  cbv [glm_scale glm_translate glm_rotate mat4_identity vec4_scale vec4_add
       vec3_scale vec3_dot mat4_mul mat4_apply translation_matrix
       scaling_matrix rotation_x_matrix rotation_y_matrix rotation_z_matrix
       model_matrix degrees rv3 rv4 col0 col1 col2 col3 v3_x v3_y v3_z v4_x v4_y v4_z
       v4_w fadd fsub fmul fzero fone fcos fsin fradians R_scalar];
  cbv [float R_scalar] in *;
  repeat match goal with
         | |- Mat4 _ _ _ _ = Mat4 _ _ _ _ => f_equal
         | |- Vec4 _ _ _ _ = Vec4 _ _ _ _ => f_equal
         | |- Vec3 _ _ _ = Vec3 _ _ _ => f_equal
         end;
  cbv [float]; try ring.








(** The product is associative, and applying a product to a vector is
    applying its factors from the right: the innermost factor acts first. *)
Lemma mat4_apply_mul (a b : rmat4) (v : rvec4) :
  mat4_apply (mat4_mul a b) v = mat4_apply a (mat4_apply b v).
Proof.
  destruct a as [[] [] [] []], b as [[] [] [] []], v. entrywise.
Qed.

Lemma mat4_mul_assoc (a b c : rmat4) :
  mat4_mul (mat4_mul a b) c = mat4_mul a (mat4_mul b c).
Proof.
  unfold mat4_mul at 1 3. cbn [col0 col1 col2 col3].
  rewrite !mat4_apply_mul. reflexivity.
Qed.

(** On a point the model matrix scales first, then turns about x, y and
    z, then translates. *)
Lemma model_matrix_acts_innermost_first (s : rvec3) (dx dy dz : R) (t : rvec3)
      (p : rvec4) :
  mat4_apply (model_matrix s dx dy dz t) p =
    mat4_apply (translation_matrix t)
      (mat4_apply (rotation_z_matrix dz)
         (mat4_apply (rotation_y_matrix dy)
            (mat4_apply (rotation_x_matrix dx)
               (mat4_apply (scaling_matrix s) p)))).
Proof. unfold model_matrix. rewrite !mat4_apply_mul. reflexivity. Qed.









End ModelMatrix.


(** * Further properties *)

(** ** Single GL commands *)

Module GLSteps.
Import GL.

Lemma glActiveTexture_valid texture ctx :
  GL_TEXTURE0 ≤ texture < GL_TEXTURE0 + max_units ctx →
  glActiveTexture texture ctx =
    mkContext (names ctx) (texture - GL_TEXTURE0) (bound2D ctx) (max_units ctx)
              (errors ctx) (ActiveTexture texture :: log ctx).
Proof.
  intros Hvalid. unfold glActiveTexture. rewrite bool_decide_true by exact Hvalid.
  reflexivity.
Qed.

Lemma glActiveTexture_invalid texture ctx :
  ¬ GL_TEXTURE0 ≤ texture < GL_TEXTURE0 + max_units ctx →
  glActiveTexture texture ctx =
    mkContext (names ctx) (active ctx) (bound2D ctx) (max_units ctx)
              (GL_INVALID_ENUM :: errors ctx) (ActiveTexture texture :: log ctx).
Proof.
  intros Hinvalid. unfold glActiveTexture.
  rewrite bool_decide_false by exact Hinvalid. reflexivity.
Qed.

Lemma glBindTexture_valid texture ctx :
  texture = 0 ∨ texture ∈ names ctx →
  glBindTexture GL_TEXTURE_2D texture ctx =
    mkContext (names ctx) (active ctx) (<[active ctx := texture]> (bound2D ctx))
              (max_units ctx) (errors ctx)
              (BindTexture GL_TEXTURE_2D texture :: log ctx).
Proof.
  intros Hvalid. unfold glBindTexture. rewrite bool_decide_true by reflexivity.
  rewrite bool_decide_true by exact Hvalid. reflexivity.
Qed.

(** A 32-bit handle survives the way through [int] and back. *)
Lemma to_GLuint_int_of_GLuint u :
  0 ≤ u < 2 ^ 32 → to_GLuint (int_of_GLuint u) = u.
Proof.
  intros Hu. unfold to_GLuint, int_of_GLuint.
  destruct (Z.ltb_spec u (2 ^ 31)) as [Hlow|Hhigh].
  - apply Z.mod_small. lia.
  - replace (u - 2 ^ 32) with (u + (-1) * 2 ^ 32) by lia.
    rewrite Z.mod_add by lia. apply Z.mod_small. lia.
Qed.

(** The selector of unit [i] is a [GLenum] for every non-negative [int]. *)
Lemma to_GLuint_selector i :
  0 ≤ i < 2 ^ 31 → to_GLuint (GL_TEXTURE0 + i) = GL_TEXTURE0 + i.
Proof.
  intros Hi. unfold to_GLuint, GL_TEXTURE0. apply Z.mod_small. lia.
Qed.

End GLSteps.

(** ** BindGLTextures *)

Section BindFacts.
Context {F : Scalar}.

(** One turn of the loop when unit [i] exists and the handle is live. *)
Lemma BindGLTextures_turn cells i g :
  0 ≤ i < 2 ^ 31 → i < GL.max_units g →
  TEXTURE_INFO.ID (cell cells i) ∈ GL.names g →
  GL.glBindTexture GL.GL_TEXTURE_2D (TEXTURE_INFO.ID (cell cells i))
    (GL.glActiveTexture (GL.to_GLuint (GL.GL_TEXTURE0 + i)) g) =
  GL.mkContext (GL.names g) i
    (<[i := TEXTURE_INFO.ID (cell cells i)]> (GL.bound2D g)) (GL.max_units g)
    (GL.errors g)
    (GL.BindTexture GL.GL_TEXTURE_2D (TEXTURE_INFO.ID (cell cells i))
       :: GL.ActiveTexture (GL.GL_TEXTURE0 + i) :: GL.log g).
Proof.
  intros Hi Hunit Hlive. rewrite GLSteps.to_GLuint_selector by exact Hi.
  rewrite GLSteps.glActiveTexture_valid by lia.
  rewrite GLSteps.glBindTexture_valid by (right; exact Hlive).
  cbn [GL.names GL.active GL.bound2D GL.max_units GL.errors GL.log].
  replace (GL.GL_TEXTURE0 + i - GL.GL_TEXTURE0) with i by lia. reflexivity.
Qed.

(** The loop from [i] on, when the units suffice: texture [j] goes to unit
    [j], nothing else moves, and no error is raised. *)
Lemma BindGLTextures_loop_within cells n fuel :
  ∀ i g, (Z.to_nat (n - i) ≤ fuel)%nat → 0 ≤ i → n < 2 ^ 31 →
    n ≤ GL.max_units g →
    (∀ j, i ≤ j < n → TEXTURE_INFO.ID (cell cells j) ∈ GL.names g) →
    let g' := BindGLTextures_loop cells n fuel i g in
    GL.names g' = GL.names g ∧
    GL.errors g' = GL.errors g ∧
    GL.max_units g' = GL.max_units g ∧
    (∀ j, i ≤ j < n →
       GL.bound2D g' !! j = Some (TEXTURE_INFO.ID (cell cells j))) ∧
    (∀ u, ¬ i ≤ u < n → GL.bound2D g' !! u = GL.bound2D g !! u) ∧
    GL.active g' = (if i <? n then n - 1 else GL.active g).
Proof.
  induction fuel as [|fuel IH]; intros i g Hfuel Hi Hn Hunits Hlive;
    cbn [BindGLTextures_loop]; cbv zeta;
    destruct (Z.ltb_spec i n) as [Hlt|Hge];
    try (exfalso; lia);
    try (repeat split; try reflexivity; intros; lia).
  rewrite BindGLTextures_turn by (try apply Hlive; lia).
  match goal with |- context [BindGLTextures_loop _ _ _ _ ?g1] =>
    specialize (IH (i + 1) g1) end.
  cbn [GL.names GL.active GL.bound2D GL.max_units GL.errors GL.log] in IH.
  destruct IH as (Hnames & Herrors & Hmax & Hbound & Hother & Hactive);
    [lia | lia | exact Hn | exact Hunits | intros j Hj; apply Hlive; lia |].
  split; [exact Hnames|]. split; [exact Herrors|]. split; [exact Hmax|].
  split; [|split].
  - intros j Hj. destruct (decide (j = i)) as [->|Hne].
    + rewrite Hother by lia. apply lookup_insert_eq.
    + apply Hbound. lia.
  - intros u Hu. rewrite Hother by lia. apply lookup_insert_ne. lia.
  - rewrite Hactive. destruct (Z.ltb_spec (i + 1) n); [reflexivity | simpl; lia].
Qed.

(** X1.  When the registry has no more textures than the context has
    units and every handle is a live texture name, [BindGLTextures] binds
    texture [i] on unit [i] for every used cell, leaves the other units
    as they were, raises no error and ends on unit
    [m_loadedTextures - 1]. *)
Theorem BindGLTextures_binds_in_order (st : State) :
  0 ≤ m_loadedTextures st < 2 ^ 31 →
  m_loadedTextures st ≤ GL.max_units (gl st) →
  handles_live (m_textureIDs st) (m_loadedTextures st) (gl st) →
  let st' := BindGLTextures st in
  bound_in_order (m_textureIDs st) (m_loadedTextures st) (gl st') ∧
  (∀ u, ¬ 0 ≤ u < m_loadedTextures st →
     GL.bound2D (gl st') !! u = GL.bound2D (gl st) !! u) ∧
  GL.errors (gl st') = GL.errors (gl st) ∧
  (0 < m_loadedTextures st → GL.active (gl st') = m_loadedTextures st - 1) ∧
  (m_loadedTextures st = 0 → st' = st).
Proof.
  intros Hn Hunits Hlive. unfold BindGLTextures.
  destruct (BindGLTextures_loop_within (m_textureIDs st) (m_loadedTextures st)
              (Z.to_nat (m_loadedTextures st)) 0 (gl st))
    as (_ & Herrors & _ & Hbound & Hother & Hactive);
    [lia | lia | lia | exact Hunits | exact Hlive |].
  cbn [set_gl gl]. split; [exact Hbound|]. split; [exact Hother|].
  split; [exact Herrors|]. split.
  - intros Hpos. rewrite Hactive.
    destruct (Z.ltb_spec 0 (m_loadedTextures st)); [reflexivity | lia].
  - intros Hzero. rewrite Hzero. simpl. destruct st; reflexivity.
Qed.

End BindFacts.

Section BindOverflow.
Context {F : Scalar}.

Lemma replicate_snoc_cons {A} (k : nat) (x : A) (l : list A) :
  replicate k x ++ x :: l = x :: replicate k x ++ l.
Proof. induction k as [|k IH]; simpl; [reflexivity | rewrite IH; reflexivity]. Qed.

(** One turn of the loop when unit [i] does not exist: the selection is
    refused and the texture goes to the unit that was active. *)
Lemma BindGLTextures_turn_refused cells i g :
  0 ≤ i < 2 ^ 31 → GL.max_units g ≤ i →
  TEXTURE_INFO.ID (cell cells i) ∈ GL.names g →
  GL.glBindTexture GL.GL_TEXTURE_2D (TEXTURE_INFO.ID (cell cells i))
    (GL.glActiveTexture (GL.to_GLuint (GL.GL_TEXTURE0 + i)) g) =
  GL.mkContext (GL.names g) (GL.active g)
    (<[GL.active g := TEXTURE_INFO.ID (cell cells i)]> (GL.bound2D g))
    (GL.max_units g) (GL.GL_INVALID_ENUM :: GL.errors g)
    (GL.BindTexture GL.GL_TEXTURE_2D (TEXTURE_INFO.ID (cell cells i))
       :: GL.ActiveTexture (GL.GL_TEXTURE0 + i) :: GL.log g).
Proof.
  intros Hi Hunit Hlive. rewrite GLSteps.to_GLuint_selector by exact Hi.
  rewrite GLSteps.glActiveTexture_invalid by lia.
  rewrite GLSteps.glBindTexture_valid by (right; exact Hlive).
  reflexivity.
Qed.

(** The loop from [i] on, when the registry has more textures than the
    context has units. *)
Lemma BindGLTextures_loop_beyond cells n fuel :
  ∀ i g, (Z.to_nat (n - i) ≤ fuel)%nat → 0 ≤ i → n < 2 ^ 31 →
    1 ≤ GL.max_units g < n →
    (GL.max_units g ≤ i → GL.active g = GL.max_units g - 1) →
    (∀ j, i ≤ j < n → TEXTURE_INFO.ID (cell cells j) ∈ GL.names g) →
    let g' := BindGLTextures_loop cells n fuel i g in
    let units := GL.max_units g in
    GL.names g' = GL.names g ∧
    GL.max_units g' = units ∧
    GL.errors g' =
      replicate (Z.to_nat (n - Z.max i units)) GL.GL_INVALID_ENUM ++ GL.errors g ∧
    (∀ j, i ≤ j < units - 1 →
       GL.bound2D g' !! j = Some (TEXTURE_INFO.ID (cell cells j))) ∧
    (i < n →
       GL.bound2D g' !! (units - 1) = Some (TEXTURE_INFO.ID (cell cells (n - 1))) ∧
       GL.active g' = units - 1) ∧
    (∀ u, u < i ∨ units ≤ u → u ≠ units - 1 →
       GL.bound2D g' !! u = GL.bound2D g !! u).
Proof.
  induction fuel as [|fuel IH]; intros i g Hfuel Hi Hn Hunits Hactive Hlive;
    cbn [BindGLTextures_loop]; cbv zeta;
    destruct (Z.ltb_spec i n) as [Hlt|Hge];
    try (exfalso; lia);
    try (replace (Z.to_nat (n - Z.max i (GL.max_units g))) with 0%nat by lia;
         repeat split; try reflexivity; intros; lia).
  destruct (Z.lt_ge_cases i (GL.max_units g)) as [Hin|Hout].
  - rewrite BindGLTextures_turn by (try apply Hlive; lia).
    match goal with |- context [BindGLTextures_loop _ _ _ _ ?g1] =>
      specialize (IH (i + 1) g1) end.
    cbn [GL.names GL.active GL.bound2D GL.max_units GL.errors GL.log] in IH.
    destruct IH as (Hnames & Hmax & Herrors & Hbound & Hlast & Hother);
      [lia | lia | exact Hn | exact Hunits | lia
       | intros j Hj; apply Hlive; lia |].
    split; [exact Hnames|]. split; [exact Hmax|]. split; [|split; [|split]].
    + rewrite Herrors. f_equal. f_equal. lia.
    + intros j Hj. destruct (decide (j = i)) as [->|Hne].
      * rewrite Hother by lia. apply lookup_insert_eq.
      * apply Hbound. lia.
    + intros _. apply Hlast. lia.
    + intros u Hu Hne. rewrite Hother by lia. apply lookup_insert_ne. lia.
  - rewrite BindGLTextures_turn_refused by (try apply Hlive; lia).
    rewrite (Hactive Hout) in *.
    match goal with |- context [BindGLTextures_loop _ _ _ _ ?g1] =>
      specialize (IH (i + 1) g1) end.
    cbn [GL.names GL.active GL.bound2D GL.max_units GL.errors GL.log] in IH.
    destruct IH as (Hnames & Hmax & Herrors & Hbound & Hlast & Hother);
      [lia | lia | exact Hn | exact Hunits | reflexivity
       | intros j Hj; apply Hlive; lia |].
    split; [exact Hnames|]. split; [exact Hmax|]. split; [|split; [|split]].
    + rewrite Herrors, replicate_snoc_cons.
      replace (Z.to_nat (n - Z.max i (GL.max_units g)))
        with (S (Z.to_nat (n - Z.max (i + 1) (GL.max_units g)))) by lia.
      reflexivity.
    + intros j Hj. lia.
    + intros _. destruct (decide (i + 1 < n)) as [Hmore|Hdone].
      * apply Hlast. exact Hmore.
      * assert (i = n - 1) as -> by lia. split.
        -- destruct fuel; cbn [BindGLTextures_loop];
             (destruct (Z.ltb_spec (n - 1 + 1) n); [lia|]);
             cbn [GL.bound2D]; apply lookup_insert_eq.
        -- destruct fuel; cbn [BindGLTextures_loop];
             (destruct (Z.ltb_spec (n - 1 + 1) n); [lia|]); reflexivity.
    + intros u Hu Hne. rewrite Hother by lia. apply lookup_insert_ne. lia.
Qed.

(** X2.  When the registry has more textures than the context has units,
    [BindGLTextures] still runs over all of them: units below the last
    get their own texture, every selection past the last unit is refused
    with [GL_INVALID_ENUM], one error per texture in excess, and each of
    those textures is bound on the last unit in turn, so that the last
    unit ends with the last texture of the registry. *)
Theorem BindGLTextures_beyond_units (st : State) :
  1 ≤ GL.max_units (gl st) →
  GL.max_units (gl st) < m_loadedTextures st < 2 ^ 31 →
  handles_live (m_textureIDs st) (m_loadedTextures st) (gl st) →
  let st' := BindGLTextures st in
  let units := GL.max_units (gl st) in
  (∀ i, 0 ≤ i < units - 1 →
     GL.bound2D (gl st') !! i = Some (TEXTURE_INFO.ID (cell (m_textureIDs st) i))) ∧
  GL.bound2D (gl st') !! (units - 1) =
    Some (TEXTURE_INFO.ID (cell (m_textureIDs st) (m_loadedTextures st - 1))) ∧
  GL.errors (gl st') =
    replicate (Z.to_nat (m_loadedTextures st - units)) GL.GL_INVALID_ENUM
      ++ GL.errors (gl st) ∧
  (∀ u, units ≤ u → GL.bound2D (gl st') !! u = GL.bound2D (gl st) !! u) ∧
  GL.active (gl st') = units - 1.
Proof.
  intros Hunits Hn Hlive. unfold BindGLTextures.
  destruct (BindGLTextures_loop_beyond (m_textureIDs st) (m_loadedTextures st)
              (Z.to_nat (m_loadedTextures st)) 0 (gl st))
    as (_ & _ & Herrors & Hbound & Hlast & Hother);
    [lia | lia | lia | lia | lia | exact Hlive |].
  cbn [set_gl gl]. split; [exact Hbound|].
  split; [apply Hlast; lia|]. split; [|split].
  - rewrite Herrors. f_equal. f_equal. lia.
  - intros u Hu. apply Hother; lia.
  - apply Hlast. lia.
Qed.

End BindOverflow.

(** ** Registration and lookups in any state *)

Section RegistrationLookups.
Context {F : Scalar}.
Variable stbi_load : bool → string → option stbi_image.

(** The state after a call that returned [true]. *)
Lemma perform_success r st :
  fst (perform stbi_load r st) = true →
  ∃ g, perform stbi_load r st =
         (true,
          set_gl g
            (set_textures
               (write_tag (m_loadedTextures st) (request_tag r)
                  (write_ID (m_loadedTextures st)
                     (GL.unused_name (GL.names (gl st))) (m_textureIDs st)))
               (m_loadedTextures st + 1) st)) ∧
       GL.current_binding g = 0 ∧
       GL.names g = GL.unused_name (GL.names (gl st)) :: GL.names (gl st).
Proof.
  destruct r as [filename tag|filename tag]; simpl;
    unfold CreateGLTexture, CreateMirroredTexture; intros Hok;
    apply create_texture_true_supported in Hok;
    apply create_texture_success; exact Hok.
Qed.

(** The state after a call that returned [false]. *)
Lemma perform_failure r st :
  fst (perform stbi_load r st) = false →
  ∃ g, perform stbi_load r st = (false, set_gl g st).
Proof.
  intros Hfail. destruct (perform_cases stbi_load r st) as [(g & id & Heq)|Hg].
  - rewrite Heq in Hfail. discriminate.
  - exact Hg.
Qed.

(** A first match among the old cells is a first match in the new table. *)
Lemma first_match_registered cells n id tag t r :
  first_match cells n t 0 r →
  first_match (write_tag n tag (write_ID n id cells)) (n + 1) t 0 r.
Proof.
  intros (Hr & Htag & Hfirst). unfold first_match, tag_at in *.
  split; [lia|]. split.
  - rewrite cell_registered. rewrite decide_False by lia. exact Htag.
  - intros i Hi. rewrite cell_registered. rewrite decide_False by lia.
    apply Hfirst. exact Hi.
Qed.

(** X3.  In any state with a non-negative counter, a registration that
    returns [true] changes no answer for a tag that was registered
    already, also when the new entry carries that tag; a tag registered
    for the first time is found in the slot the counter named, with the
    new handle; every other tag is still not found. *)
Theorem registration_extends_lookups (r : request) (st : State) :
  0 ≤ m_loadedTextures st →
  fst (perform stbi_load r st) = true →
  let st' := snd (perform stbi_load r st) in
  (∀ t, t ∈ registered_tags st →
     FindTextureSlot t st' = FindTextureSlot t st ∧
     FindTextureID t st' = FindTextureID t st) ∧
  (request_tag r ∉ registered_tags st →
     FindTextureSlot (request_tag r) st' = m_loadedTextures st ∧
     FindTextureID (request_tag r) st' =
       int_of_GLuint (GL.unused_name (GL.names (gl st)))) ∧
  (∀ t, t ∉ registered_tags st → t ≠ request_tag r →
     FindTextureSlot t st' = -1 ∧ FindTextureID t st' = -1).
Proof.
  intros Hn Hok. destruct (perform_success r st Hok) as (g & -> & _ & _).
  cbn [snd]. set (n := m_loadedTextures st).
  set (cells' := write_tag n (request_tag r) (write_ID n _ (m_textureIDs st))).
  set (st' := set_gl g (set_textures cells' (n + 1) st)).
  assert (∀ t k, first_match cells' (n + 1) t 0 k →
                 FindTextureSlot t st' = k ∧
                 FindTextureID t st' =
                   int_of_GLuint (TEXTURE_INFO.ID (cell cells' k))) as Hfound.
  { intros t k Hk. assert (FindTextureSlot t st' = k) as Hslot
      by (apply FindTextureSlot_first; exact Hk).
    split; [exact Hslot|]. rewrite FindTextureID_slot. cbv zeta. rewrite Hslot.
    destruct Hk as (Hk & _). destruct (Z.ltb_spec k 0); [lia | reflexivity]. }
  split; [|split].
  - intros t Ht. apply elem_of_registered_tags in Ht as (i & Hi & Htag).
    destruct (FindTextureSlot_spec t st) as [[_ Hnone]|Hfirst];
      [exfalso; exact (Hnone i Hi Htag)|].
    destruct (Hfound t _ (first_match_registered _ _ _ _ _ _ Hfirst))
      as [Hslot Hid].
    split; [exact Hslot|]. rewrite Hid, FindTextureID_slot. cbv zeta.
    destruct Hfirst as (Hr & _). unfold cells'. rewrite cell_registered.
    rewrite decide_False by (fold n in Hr; lia).
    destruct (Z.ltb_spec (FindTextureSlot t st) 0); [lia | reflexivity].
  - intros Hfresh. apply not_registered_no_match in Hfresh.
    destruct (Hfound (request_tag r) n) as [Hslot Hid].
    { split; [lia|]. split.
      - unfold tag_at, cells'. rewrite cell_registered.
        rewrite decide_True by reflexivity. reflexivity.
      - intros i Hi. unfold tag_at, cells'. rewrite cell_registered.
        rewrite decide_False by lia. apply Hfresh. fold n. lia. }
    split; [exact Hslot|]. rewrite Hid. unfold cells'. rewrite cell_registered.
    rewrite decide_True by reflexivity. reflexivity.
  - intros t Hfresh Hne. apply not_registered_no_match in Hfresh.
    assert (FindTextureSlot t st' = -1) as Hslot.
    { apply FindTextureSlot_none. intros i Hi. unfold tag_at.
      unfold st' in *.
      cbn [set_gl set_textures m_textureIDs m_loadedTextures] in *.
      unfold cells'. rewrite cell_registered.
      destruct (decide (i = n)) as [->|Hin];
        [intros Heq; apply Hne; symmetry; exact Heq|].
      apply Hfresh. fold n. lia. }
    split; [exact Hslot|]. rewrite FindTextureID_slot. cbv zeta. rewrite Hslot.
    reflexivity.
Qed.

End RegistrationLookups.

(** ** DestroyGLTextures, lookups and bindings *)

Section DestroyLookups.
Context {F : Scalar}.

(** The slot loop reads the tags of the cells it visits and nothing else. *)
Lemma FindTextureSlot_loop_ext cells cells' n tag fuel :
  ∀ index, (∀ i, index ≤ i < n → tag_at cells' i = tag_at cells i) →
    FindTextureSlot_loop cells' n tag fuel index =
    FindTextureSlot_loop cells n tag fuel index.
Proof.
  induction fuel as [|fuel IH]; intros index Htags; simpl;
    destruct (Z.ltb_spec index n) as [Hlt|Hge]; try reflexivity.
  pose proof (Htags index) as Hindex. unfold tag_at in Hindex.
  rewrite Hindex by lia.
  destruct (String.eqb _ tag); [reflexivity|].
  apply IH. intros i Hi. apply Htags. lia.
Qed.

(** The loop issues [glGenTextures] and nothing else: unit, bindings and
    error flags are as before. *)
Lemma DestroyGLTextures_loop_context n fuel :
  ∀ i cells g,
    let g' := snd (DestroyGLTextures_loop n fuel i cells g) in
    GL.active g' = GL.active g ∧ GL.bound2D g' = GL.bound2D g ∧
    GL.errors g' = GL.errors g ∧ GL.max_units g' = GL.max_units g.
Proof.
  induction fuel as [|fuel IH]; intros i cells g; simpl;
    destruct (Z.ltb_spec i n) as [Hlt|Hge]; try (repeat split; reflexivity).
  exact (IH (i + 1) _ _).
Qed.

(** X4.  [DestroyGLTextures] leaves the tags where they are: the same
    tags are registered, and [FindTextureSlot] answers every tag as
    before.  [FindTextureID] of a registered tag now returns a handle
    generated by the call, one that was not a texture name before it. *)
Theorem DestroyGLTextures_keeps_slots (st : State) :
  let st' := DestroyGLTextures st in
  registered_tags st' = registered_tags st ∧
  (∀ t, FindTextureSlot t st' = FindTextureSlot t st) ∧
  (∀ t, t ∈ registered_tags st →
     ∃ id, FindTextureID t st' = int_of_GLuint id ∧
           (id ∉ GL.names (gl st)) ∧ id ∈ GL.names (gl st')).
Proof.
  unfold DestroyGLTextures.
  pose proof (DestroyGLTextures_loop_spec (m_loadedTextures st)
                (Z.to_nat (m_loadedTextures st)) 0 (m_textureIDs st) (gl st))
    as Hloop.
  destruct (DestroyGLTextures_loop _ _ 0 _ _) as [cells' g'] eqn:Hrun.
  cbn [fst snd] in Hloop.
  destruct Hloop as (_ & _ & Hnew & _); [lia|].
  set (st' := set_gl g' (set_textures cells' (m_loadedTextures st) st)).
  assert (∀ i, 0 ≤ i < m_loadedTextures st →
               tag_at cells' i = tag_at (m_textureIDs st) i) as Htags
    by (intros i Hi; exact (proj2 (proj2 (Hnew i Hi)))).
  assert (∀ t, FindTextureSlot t st' = FindTextureSlot t st) as Hslots
    by (intros t; apply FindTextureSlot_loop_ext; exact Htags).
  split; [|split].
  - unfold registered_tags. cbn [st' set_gl set_textures m_textureIDs m_loadedTextures].
    apply list_fmap_ext. intros k i Hi. apply Htags.
    apply lookup_seqZ in Hi. lia.
  - exact Hslots.
  - intros t Ht. apply elem_of_registered_tags in Ht as (i & Hi & Htag).
    destruct (FindTextureSlot_spec t st) as [[_ Hnone]|(Hr & _)];
      [exfalso; exact (Hnone i Hi Htag)|].
    exists (TEXTURE_INFO.ID (cell cells' (FindTextureSlot t st))).
    destruct (Hnew _ Hr) as (Hfresh & Hin & _).
    split; [|split; [exact Hfresh | exact Hin]].
    rewrite FindTextureID_slot. cbv zeta. rewrite Hslots.
    destruct (Z.ltb_spec (FindTextureSlot t st) 0); [lia | reflexivity].
Qed.

(** X5.  [DestroyGLTextures] unbinds nothing: the active unit, the
    texture bound on every unit and the error flags are as before the
    call.  When the handles of the registry were live texture names, the
    registry names a different handle in every used cell afterwards, so a
    unit that held the texture of its cell no longer does. *)
Theorem DestroyGLTextures_unbinds_nothing (st : State) :
  let st' := DestroyGLTextures st in
  GL.active (gl st') = GL.active (gl st) ∧
  GL.bound2D (gl st') = GL.bound2D (gl st) ∧
  GL.errors (gl st') = GL.errors (gl st) ∧
  (handles_live (m_textureIDs st) (m_loadedTextures st) (gl st) →
   ∀ i, 0 ≤ i < m_loadedTextures st →
     TEXTURE_INFO.ID (cell (m_textureIDs st') i) ≠
     TEXTURE_INFO.ID (cell (m_textureIDs st) i)).
Proof.
  unfold DestroyGLTextures.
  pose proof (DestroyGLTextures_loop_spec (m_loadedTextures st)
                (Z.to_nat (m_loadedTextures st)) 0 (m_textureIDs st) (gl st))
    as Hloop.
  pose proof (DestroyGLTextures_loop_context (m_loadedTextures st)
                (Z.to_nat (m_loadedTextures st)) 0 (m_textureIDs st) (gl st))
    as Hcontext.
  destruct (DestroyGLTextures_loop _ _ 0 _ _) as [cells' g'].
  cbn [fst snd] in Hloop, Hcontext.
  destruct Hloop as (_ & _ & Hnew & _); [lia|].
  destruct Hcontext as (Hactive & Hbound & Herrors & _).
  cbn [set_gl set_textures m_textureIDs gl].
  split; [exact Hactive|]. split; [exact Hbound|]. split; [exact Herrors|].
  intros Hlive i Hi Heq. destruct (Hnew i Hi) as (Hfresh & _ & _).
  apply Hfresh. rewrite Heq. apply Hlive. exact Hi.
Qed.

End DestroyLookups.

(** ** SetTwoTextures and the GL context *)

Section TwoTexturesFacts.
Context {F : Scalar}.

(** The context after [SetTwoTextures], when there is a shader manager. *)
Lemma SetTwoTextures_gl tag1 tag2 mixFactor sh st :
  m_pShaderManager st = Some sh →
  gl (SetTwoTextures tag1 tag2 mixFactor st) =
    GL.glBindTexture GL.GL_TEXTURE_2D (GL.to_GLuint (FindTextureID tag2 st))
      (GL.glActiveTexture (GL.to_GLuint (GL.GL_TEXTURE0 + FindTextureSlot tag2 st))
         (GL.glBindTexture GL.GL_TEXTURE_2D (GL.to_GLuint (FindTextureID tag1 st))
            (GL.glActiveTexture
               (GL.to_GLuint (GL.GL_TEXTURE0 + FindTextureSlot tag1 st)) (gl st)))).
Proof. intros Hsh. unfold SetTwoTextures. rewrite Hsh. reflexivity. Qed.

(** For a registered tag the two lookups name a used cell and its handle. *)
Lemma registered_lookups tag st :
  tag ∈ registered_tags st →
  0 ≤ FindTextureSlot tag st < m_loadedTextures st ∧
  FindTextureID tag st =
    int_of_GLuint (TEXTURE_INFO.ID (cell (m_textureIDs st) (FindTextureSlot tag st))).
Proof.
  intros Hreg. apply elem_of_registered_tags in Hreg as (i & Hi & Htag).
  destruct (FindTextureSlot_spec tag st) as [[_ Hnone]|(Hr & _)];
    [exfalso; exact (Hnone i Hi Htag)|].
  split; [exact Hr|]. rewrite FindTextureID_slot. cbv zeta.
  destruct (Z.ltb_spec (FindTextureSlot tag st) 0); [lia | reflexivity].
Qed.

(** Selecting the unit of a registered slot and binding the handle of
    the slot there. *)
Lemma bind_registered tag st g :
  tag ∈ registered_tags st →
  m_loadedTextures st < 2 ^ 31 →
  FindTextureSlot tag st < GL.max_units g →
  handles_in_range (m_textureIDs st) (m_loadedTextures st) →
  handles_live (m_textureIDs st) (m_loadedTextures st) g →
  GL.glBindTexture GL.GL_TEXTURE_2D (GL.to_GLuint (FindTextureID tag st))
    (GL.glActiveTexture (GL.to_GLuint (GL.GL_TEXTURE0 + FindTextureSlot tag st)) g) =
  let r := FindTextureSlot tag st in
  let id := TEXTURE_INFO.ID (cell (m_textureIDs st) r) in
  GL.mkContext (GL.names g) r (<[r := id]> (GL.bound2D g)) (GL.max_units g)
    (GL.errors g)
    (GL.BindTexture GL.GL_TEXTURE_2D id
       :: GL.ActiveTexture (GL.GL_TEXTURE0 + r) :: GL.log g).
Proof.
  intros Hreg Hn Hunit Hrange Hlive.
  destruct (registered_lookups tag st Hreg) as [Hr ->].
  rewrite GLSteps.to_GLuint_int_of_GLuint by (apply Hrange; exact Hr).
  cbv zeta. apply BindGLTextures_turn; [lia | exact Hunit | apply Hlive; exact Hr].
Qed.

(** X6.  With a shader manager, two registered tags whose slots are
    units of the context, and handles that are live texture names,
    [SetTwoTextures] binds the texture of each tag on the unit of its
    slot, the second after the first, raises no error and leaves unit
    [FindTextureSlot(tag2)] active.  The handle goes through the [int]
    that [FindTextureID] returns and comes back unchanged. *)
Theorem SetTwoTextures_binds_slots (tag1 tag2 : string) (mixFactor : float)
        (sh : ShaderManager) (st : State) :
  m_pShaderManager st = Some sh →
  tag1 ∈ registered_tags st → tag2 ∈ registered_tags st →
  m_loadedTextures st < 2 ^ 31 →
  FindTextureSlot tag1 st < GL.max_units (gl st) →
  FindTextureSlot tag2 st < GL.max_units (gl st) →
  handles_in_range (m_textureIDs st) (m_loadedTextures st) →
  handles_live (m_textureIDs st) (m_loadedTextures st) (gl st) →
  let st' := SetTwoTextures tag1 tag2 mixFactor st in
  let r1 := FindTextureSlot tag1 st in
  let r2 := FindTextureSlot tag2 st in
  GL.bound2D (gl st') =
    <[r2 := TEXTURE_INFO.ID (cell (m_textureIDs st) r2)]>
      (<[r1 := TEXTURE_INFO.ID (cell (m_textureIDs st) r1)]> (GL.bound2D (gl st))) ∧
  GL.active (gl st') = r2 ∧
  GL.errors (gl st') = GL.errors (gl st) ∧
  GL.names (gl st') = GL.names (gl st).
Proof.
  intros Hsh Hreg1 Hreg2 Hn Hunit1 Hunit2 Hrange Hlive.
  cbv zeta. rewrite (SetTwoTextures_gl _ _ _ sh) by exact Hsh.
  rewrite (bind_registered tag1 st (gl st)) by assumption. cbv zeta.
  rewrite (bind_registered tag2 st) by assumption. cbv zeta.
  repeat split.
Qed.

(** X7.  Once every texture is bound on the unit of its slot, as
    [BindGLTextures] leaves them, [SetTwoTextures] changes no binding:
    under the conditions of X6 the bindings of all units are the same map
    after the call, and textures are still bound in order. *)
Theorem SetTwoTextures_keeps_bindings (tag1 tag2 : string) (mixFactor : float)
        (sh : ShaderManager) (st : State) :
  m_pShaderManager st = Some sh →
  tag1 ∈ registered_tags st → tag2 ∈ registered_tags st →
  m_loadedTextures st < 2 ^ 31 →
  m_loadedTextures st ≤ GL.max_units (gl st) →
  handles_in_range (m_textureIDs st) (m_loadedTextures st) →
  handles_live (m_textureIDs st) (m_loadedTextures st) (gl st) →
  bound_in_order (m_textureIDs st) (m_loadedTextures st) (gl st) →
  let st' := SetTwoTextures tag1 tag2 mixFactor st in
  GL.bound2D (gl st') = GL.bound2D (gl st) ∧
  bound_in_order (m_textureIDs st') (m_loadedTextures st') (gl st').
Proof.
  intros Hsh Hreg1 Hreg2 Hn Hunits Hrange Hlive Hbound.
  destruct (registered_lookups tag1 st Hreg1) as [Hr1 _].
  destruct (registered_lookups tag2 st Hreg2) as [Hr2 _].
  assert (GL.bound2D (gl (SetTwoTextures tag1 tag2 mixFactor st)) =
          GL.bound2D (gl st)) as Hsame.
  { rewrite (SetTwoTextures_gl _ _ _ sh) by exact Hsh.
    rewrite (bind_registered tag1 st (gl st)) by (try assumption; lia). cbv zeta.
    rewrite (bind_registered tag2 st) by (try assumption; cbn [GL.max_units]; lia).
    cbv zeta. cbn [GL.bound2D].
    rewrite (insert_id (GL.bound2D (gl st)) (FindTextureSlot tag1 st))
      by (apply Hbound; exact Hr1).
    apply insert_id. apply Hbound. exact Hr2. }
  cbv zeta. split; [exact Hsame|].
  unfold bound_in_order. rewrite Hsame.
  unfold SetTwoTextures. rewrite Hsh. exact Hbound.
Qed.

End TwoTexturesFacts.

Section TwoTexturesMisses.
Context {F : Scalar}.

(** Error flags are only ever added. *)
Lemma errors_glBindTexture target texture g :
  ∃ raised, GL.errors (GL.glBindTexture target texture g) = raised ++ GL.errors g.
Proof.
  unfold GL.glBindTexture. repeat case_bool_decide;
    first [exists []; reflexivity | eexists [_]; reflexivity].
Qed.

Lemma errors_glActiveTexture texture g :
  ∃ raised, GL.errors (GL.glActiveTexture texture g) = raised ++ GL.errors g.
Proof.
  unfold GL.glActiveTexture. case_bool_decide;
    first [exists []; reflexivity | eexists [_]; reflexivity].
Qed.

(** The selector computed from the sentinel -1 names no unit. *)
Lemma glActiveTexture_sentinel g :
  GL.errors (GL.glActiveTexture (GL.to_GLuint (GL.GL_TEXTURE0 + -1)) g) =
    GL.GL_INVALID_ENUM :: GL.errors g ∧
  GL.active (GL.glActiveTexture (GL.to_GLuint (GL.GL_TEXTURE0 + -1)) g) =
    GL.active g.
Proof.
  assert (GL.to_GLuint (GL.GL_TEXTURE0 + -1) = GL.GL_TEXTURE0 - 1) as ->
    by (vm_compute; reflexivity).
  rewrite GLSteps.glActiveTexture_invalid by lia. split; reflexivity.
Qed.

(** X8.  With a shader manager, [SetTwoTextures] on a tag that is not
    registered hands the sentinel -1 to the sampler of that tag, and the
    unit selection computed from -1 is refused: [GL_INVALID_ENUM] is among
    the error flags afterwards.  The call reports nothing to its caller. *)
Theorem SetTwoTextures_unregistered_tag (tag1 tag2 : string) (mixFactor : float)
        (sh : ShaderManager) (st : State) :
  m_pShaderManager st = Some sh →
  let st' := SetTwoTextures tag1 tag2 mixFactor st in
  (tag1 ∉ registered_tags st →
     uniform_of st' g_TextureValueName = Some (USampler2D (-1)) ∧
     GL.GL_INVALID_ENUM ∈ GL.errors (gl st')) ∧
  (tag2 ∉ registered_tags st →
     uniform_of st' g_Texture2 = Some (USampler2D (-1)) ∧
     GL.GL_INVALID_ENUM ∈ GL.errors (gl st')).
Proof.
  intros Hsh. cbv zeta. rewrite (SetTwoTextures_gl _ _ _ sh) by exact Hsh.
  split; intros Hmiss; apply not_registered_no_match in Hmiss;
    apply FindTextureSlot_none in Hmiss.
  - split.
    + rewrite (SetTwoTextures_sampler _ _ _ sh) by exact Hsh.
      rewrite Hmiss. reflexivity.
    + rewrite Hmiss.
      destruct (errors_glBindTexture GL.GL_TEXTURE_2D
                  (GL.to_GLuint (FindTextureID tag2 st))
                  (GL.glActiveTexture
                     (GL.to_GLuint (GL.GL_TEXTURE0 + FindTextureSlot tag2 st))
                     (GL.glBindTexture GL.GL_TEXTURE_2D
                        (GL.to_GLuint (FindTextureID tag1 st))
                        (GL.glActiveTexture
                           (GL.to_GLuint (GL.GL_TEXTURE0 + -1)) (gl st)))))
        as [e3 ->].
      destruct (errors_glActiveTexture
                  (GL.to_GLuint (GL.GL_TEXTURE0 + FindTextureSlot tag2 st))
                  (GL.glBindTexture GL.GL_TEXTURE_2D
                     (GL.to_GLuint (FindTextureID tag1 st))
                     (GL.glActiveTexture
                        (GL.to_GLuint (GL.GL_TEXTURE0 + -1)) (gl st))))
        as [e2 ->].
      destruct (errors_glBindTexture GL.GL_TEXTURE_2D
                  (GL.to_GLuint (FindTextureID tag1 st))
                  (GL.glActiveTexture
                     (GL.to_GLuint (GL.GL_TEXTURE0 + -1)) (gl st)))
        as [e1 ->].
      rewrite (proj1 (glActiveTexture_sentinel (gl st))).
      rewrite !elem_of_app. right. right. right. left.
  - split.
    + unfold SetTwoTextures. rewrite Hsh.
      rewrite uniform_of_set_gl, uniform_of_set_shader.
      unfold setSampler2DValue, setUniform. cbn [uniforms].
      rewrite lookup_insert_eq, Hmiss. reflexivity.
    + rewrite Hmiss.
      match goal with |- _ ∈ GL.errors (GL.glBindTexture _ _ ?g) =>
        destruct (errors_glBindTexture GL.GL_TEXTURE_2D
                    (GL.to_GLuint (FindTextureID tag2 st)) g) as [e3 ->] end.
      rewrite (proj1 (glActiveTexture_sentinel _)).
      rewrite elem_of_app. right. left.
Qed.

End TwoTexturesMisses.

(** ** The uniform table under the setters *)

Section UniformFacts.
Context {F : Scalar}.

Lemma lookup_setUniform name v sh k :
  uniforms (setUniform name v sh) !! k =
    if decide (name = k) then Some v else uniforms sh !! k.
Proof. unfold setUniform. cbn [uniforms]. apply lookup_insert. Qed.

(** Rewrites the lookup of a uniform through the writes before it. *)
Ltac through_writes :=
  unfold setMat4Value, setIntValue, setBoolValue, setFloatValue, setVec2Value,
    setVec3Value, setVec4Value, setSampler2DValue;
  repeat (rewrite lookup_setUniform;
          first [rewrite decide_True by reflexivity
                | rewrite decide_False by (first [discriminate | congruence])]).

(** X9.  With a shader manager, [SetTwoTextures] writes five uniforms:
    the mix factor, [bUseTexture] as the boolean true, [bBlendTexture] as
    the integer 1, and the two samplers with the slots of the two tags.
    Every other uniform keeps its value. *)
Theorem SetTwoTextures_writes_five_uniforms (tag1 tag2 : string)
        (mixFactor : float) (sh : ShaderManager) (st : State) :
  m_pShaderManager st = Some sh →
  let st' := SetTwoTextures tag1 tag2 mixFactor st in
  uniform_of st' g_MixFactor = Some (UFloat mixFactor) ∧
  uniform_of st' g_UseTextureName = Some (UBool true) ∧
  uniform_of st' g_BlendTexture = Some (UInt 1) ∧
  uniform_of st' g_TextureValueName = Some (USampler2D (FindTextureSlot tag1 st)) ∧
  uniform_of st' g_Texture2 = Some (USampler2D (FindTextureSlot tag2 st)) ∧
  (∀ name, name ∉ two_texture_uniforms → uniform_of st' name = uniform_of st name).
Proof.
  intros Hsh. cbv zeta. unfold SetTwoTextures. rewrite Hsh.
  repeat rewrite uniform_of_set_gl, uniform_of_set_shader.
  repeat split; try (through_writes; reflexivity).
  intros name Hname. rewrite uniform_of_set_gl, uniform_of_set_shader.
  unfold two_texture_uniforms in Hname. rewrite !not_elem_of_cons in Hname.
  destruct Hname as (H1 & H2 & H3 & H4 & H5 & _).
  through_writes. unfold uniform_of. rewrite Hsh. reflexivity.
Qed.

(** X10.  Only [SetTwoTextures] writes [bBlendTexture]:
    [SetTransformations], [SetShaderColor], [SetShaderTexture],
    [SetTextureUVScale] and a returning [SetShaderMaterial] leave it as it
    is.  So after [SetTwoTextures], a [SetShaderColor] for an untextured
    object sets [bUseTexture] to 0 and the colour, while [bBlendTexture]
    is still 1 and both samplers still name the slots of the two tags. *)
Theorem blend_flag_is_never_cleared (st : State) :
  (∀ scaleXYZ X Y Z positionXYZ,
     uniform_of (SetTransformations scaleXYZ X Y Z positionXYZ st) g_BlendTexture =
       uniform_of st g_BlendTexture) ∧
  (∀ r g b a,
     uniform_of (SetShaderColor r g b a st) g_BlendTexture =
       uniform_of st g_BlendTexture) ∧
  (∀ textureTag,
     uniform_of (SetShaderTexture textureTag st) g_BlendTexture =
       uniform_of st g_BlendTexture) ∧
  (∀ u v,
     uniform_of (SetTextureUVScale u v st) g_BlendTexture =
       uniform_of st g_BlendTexture) ∧
  (∀ materialTag uninitialised st',
     SetShaderMaterial materialTag uninitialised st = Returns st' →
     uniform_of st' g_BlendTexture = uniform_of st g_BlendTexture) ∧
  (∀ sh tag1 tag2 mixFactor r g b a,
     m_pShaderManager st = Some sh →
     let st' := SetShaderColor r g b a (SetTwoTextures tag1 tag2 mixFactor st) in
     uniform_of st' g_BlendTexture = Some (UInt 1) ∧
     uniform_of st' g_UseTextureName = Some (UInt 0) ∧
     uniform_of st' g_ColorValueName = Some (UVec4 (Vec4 r g b a)) ∧
     uniform_of st' g_TextureValueName =
       Some (USampler2D (FindTextureSlot tag1 st)) ∧
     uniform_of st' g_Texture2 = Some (USampler2D (FindTextureSlot tag2 st))).
Proof.
  unfold SetTransformations, SetShaderColor, SetShaderTexture,
    SetTextureUVScale, SetShaderMaterial, SetTwoTextures.
  destruct (m_pShaderManager st) as [sh|] eqn:Hsh.
  - repeat split; intros;
      try (rewrite uniform_of_set_shader; through_writes;
           unfold uniform_of; rewrite Hsh; reflexivity).
    + destruct (0 <? length (m_objectMaterials st))%nat;
        [|injection H as <-; reflexivity].
      destruct (FindMaterial _ _ _) as [[] material];
        injection H as <-; [|reflexivity].
      rewrite uniform_of_set_shader. through_writes.
      unfold uniform_of. rewrite Hsh. reflexivity.
    + cbn [set_gl set_shader m_pShaderManager].
      rewrite uniform_of_set_shader. through_writes. reflexivity.
    + cbn [set_gl set_shader m_pShaderManager].
      rewrite uniform_of_set_shader. through_writes. reflexivity.
    + cbn [set_gl set_shader m_pShaderManager].
      rewrite uniform_of_set_shader. through_writes. reflexivity.
    + cbn [set_gl set_shader m_pShaderManager].
      rewrite uniform_of_set_shader. through_writes. reflexivity.
    + cbn [set_gl set_shader m_pShaderManager].
      rewrite uniform_of_set_shader. through_writes. reflexivity.
  - repeat split; intros; try reflexivity; try discriminate.
    destruct (0 <? length (m_objectMaterials st))%nat;
      [|injection H as <-; reflexivity].
    destruct (FindMaterial _ _ _) as [[] material];
      [discriminate | injection H as <-; reflexivity].
Qed.

End UniformFacts.

Section MaterialUniforms.
Context {F : Scalar}.

(** X11.  With a shader manager and a non-empty catalog,
    [SetShaderMaterial] always returns and writes the three material
    uniforms: from the first entry of the catalog with the tag when there
    is one, and otherwise from its local [material], which it never
    initialised.  No other uniform, and nothing outside the uniform table,
    changes.  On an empty catalog the state is as before. *)
Theorem SetShaderMaterial_writes_first_match_or_garbage
        (materialTag : string) (uninitialised : OBJECT_MATERIAL)
        (sh : ShaderManager) (st : State) :
  m_pShaderManager st = Some sh →
  (m_objectMaterials st = [] →
   SetShaderMaterial materialTag uninitialised st = Returns st) ∧
  (m_objectMaterials st ≠ [] →
   ∃ sh',
     SetShaderMaterial materialTag uninitialised st =
       Returns (set_shader (Some sh') st) ∧
     let source :=
       default uninitialised (first_material materialTag (m_objectMaterials st)) in
     uniforms sh' !! "material.diffuseColor" = Some (UVec3 (diffuseColor source)) ∧
     uniforms sh' !! "material.specularColor" = Some (UVec3 (specularColor source)) ∧
     uniforms sh' !! "material.shininess" = Some (UFloat (shininess source)) ∧
     ∀ name,
       name ∉ ["material.diffuseColor"; "material.specularColor";
               "material.shininess"] →
       uniforms sh' !! name = uniforms sh !! name).
Proof.
  intros Hsh. unfold SetShaderMaterial. split.
  - intros ->. reflexivity.
  - intros Hne. rewrite (FindMaterial_nonempty _ _ _ Hne). rewrite Hsh.
    destruct (m_objectMaterials st) as [|first rest] eqn:Hcat; [contradiction|].
    cbn [length Nat.ltb Nat.leb]. eexists. split; [reflexivity|].
    cbv zeta.
    assert (∀ (project : OBJECT_MATERIAL → vec3),
              (project = diffuseColor ∨ project = specularColor) →
              project (from_option (copy_into uninitialised) uninitialised
                         (first_material materialTag (first :: rest))) =
              project (default uninitialised
                         (first_material materialTag (first :: rest)))) as Hvec
      by (intros project [-> | ->];
          destruct (first_material materialTag (first :: rest)); reflexivity).
    assert (shininess (from_option (copy_into uninitialised) uninitialised
                         (first_material materialTag (first :: rest))) =
            shininess (default uninitialised
                         (first_material materialTag (first :: rest)))) as Hshine
      by (destruct (first_material materialTag (first :: rest)); reflexivity).
    unfold setVec3Value, setFloatValue. repeat split.
    + rewrite !lookup_setUniform. rewrite decide_False by discriminate.
      rewrite decide_False by discriminate. rewrite decide_True by reflexivity.
      rewrite Hvec by (left; reflexivity). reflexivity.
    + rewrite !lookup_setUniform. rewrite decide_False by discriminate.
      rewrite decide_True by reflexivity.
      rewrite Hvec by (right; reflexivity). reflexivity.
    + rewrite lookup_setUniform. rewrite decide_True by reflexivity.
      rewrite Hshine. reflexivity.
    + intros name Hname. rewrite !not_elem_of_cons in Hname.
      destruct Hname as (H1 & H2 & H3 & _).
      rewrite !lookup_setUniform.
      rewrite !decide_False by congruence. reflexivity.
Qed.

End MaterialUniforms.

(** ** DefineObjectMaterials *)

Section DefineMaterialsFacts.
Context {F : Scalar} {L : Literals F}.

Lemma DefineObjectMaterials_eq st :
  DefineObjectMaterials st =
    set_materials (m_objectMaterials st ++ defined_materials) st.
Proof.
  unfold DefineObjectMaterials, push_back_material, set_materials, defined_materials.
  cbn [m_pShaderManager m_textureIDs m_loadedTextures m_objectMaterials gl].
  rewrite <- !app_assoc. reflexivity.
Qed.

(** The first entry with a tag in two catalogs put end to end. *)
Lemma first_material_app tag0 (l1 l2 : list OBJECT_MATERIAL) :
  first_material tag0 (l1 ++ l2) =
    match first_material tag0 l1 with
    | Some entry => Some entry
    | None => first_material tag0 l2
    end.
Proof.
  unfold first_material. induction l1 as [|entry l1 IH]; simpl.
  - destruct (list_find _ l2) as [[k e]|]; reflexivity.
  - case_decide; [reflexivity|].
    destruct (list_find _ (l1 ++ l2)) as [[k e]|];
      destruct (list_find _ l1) as [[k1 e1]|]; simpl in *; exact IH.
Qed.

Lemma first_material_None tag0 (l : list OBJECT_MATERIAL) :
  (∀ e, e ∈ l → tag e ≠ tag0) → first_material tag0 l = None.
Proof.
  intros Hmiss. unfold first_material.
  destruct (list_find _ l) as [[k e]|] eqn:Hfind; [|reflexivity].
  apply list_find_Some in Hfind as (Hk & Htag & _).
  exfalso. apply (Hmiss e); [|exact Htag]. apply list_elem_of_lookup. eauto.
Qed.

(** The seven tags are different: each material is the first with its tag. *)
Lemma defined_materials_first entry :
  entry ∈ defined_materials →
  first_material (tag entry) defined_materials = Some entry.
Proof.
  unfold defined_materials. rewrite !elem_of_cons.
  intros [-> | [-> | [-> | [-> | [-> | [-> | [-> | Hnil]]]]]]];
    try reflexivity.
  inversion Hnil.
Qed.

(** X12.  [DefineObjectMaterials] appends its seven materials to the
    catalog, whatever the catalog holds, and changes nothing else.
    Afterwards [FindMaterial] copies, for each of the seven tags, the
    material defined here, unless the catalog already had an entry with
    that tag; a tag the catalog could find before is answered with the
    same entry as before.  A second call therefore adds seven entries
    that no lookup reaches. *)
Theorem DefineObjectMaterials_appends (st : State) :
  let st' := DefineObjectMaterials st in
  m_objectMaterials st' = m_objectMaterials st ++ defined_materials ∧
  m_pShaderManager st' = m_pShaderManager st ∧
  m_textureIDs st' = m_textureIDs st ∧
  m_loadedTextures st' = m_loadedTextures st ∧
  gl st' = gl st ∧
  (∀ entry material,
     entry ∈ defined_materials →
     (∀ e, e ∈ m_objectMaterials st → tag e ≠ tag entry) →
     FindMaterial (tag entry) material st' = (true, copy_into material entry)) ∧
  (∀ tag0 entry material,
     first_material tag0 (m_objectMaterials st) = Some entry →
     FindMaterial tag0 material st' = (true, copy_into material entry)).
Proof.
  cbv zeta. rewrite DefineObjectMaterials_eq.
  cbn [set_materials m_pShaderManager m_textureIDs m_loadedTextures
       m_objectMaterials gl].
  repeat (split; [reflexivity|]). split.
  - intros entry material Hentry Hfresh.
    rewrite FindMaterial_nonempty
      by (cbn [set_materials m_objectMaterials];
          destruct (m_objectMaterials st); discriminate).
    cbn [set_materials m_objectMaterials].
    rewrite first_material_app, (first_material_None _ _ Hfresh).
    rewrite (defined_materials_first entry Hentry). reflexivity.
  - intros tag0 entry material Hfound.
    rewrite FindMaterial_nonempty
      by (cbn [set_materials m_objectMaterials];
          destruct (m_objectMaterials st); discriminate).
    cbn [set_materials m_objectMaterials].
    rewrite first_material_app, Hfound. reflexivity.
Qed.

End DefineMaterialsFacts.

(** ** SetupSceneLights *)

(** The lookup of a uniform with a known name through the writes made
    before it. *)
Ltac lookup_through_writes :=
  unfold setVec3Literals, setMat4Value, setIntValue, setBoolValue, setFloatValue,
    setVec2Value, setVec3Value, setVec4Value, setSampler2DValue;
  repeat (rewrite lookup_setUniform;
          first [rewrite decide_True by reflexivity
                | rewrite decide_False by (first [discriminate | congruence])]).

Section LightFacts.
Context {F : Scalar} {L : Literals F}.

Lemma scene_lights_frame sh name :
  name ∉ light_uniforms → uniforms (scene_lights sh) !! name = uniforms sh !! name.
Proof.
  intros Hname. unfold light_uniforms in Hname.
  rewrite !not_elem_of_cons in Hname. destruct_and!.
  unfold scene_lights. lookup_through_writes. reflexivity.
Qed.

Lemma scene_lights_flags sh :
  uniforms (scene_lights sh) !! g_UseLightingName = Some (UBool true) ∧
  uniforms (scene_lights sh) !! "pointLights[0].bActive" = Some (UBool true) ∧
  uniforms (scene_lights sh) !! "pointLights[1].bActive" = Some (UBool true) ∧
  uniforms (scene_lights sh) !! "spotLight.bActive" = Some (UBool true).
Proof.
  unfold scene_lights. repeat split; lookup_through_writes; reflexivity.
Qed.

(** X13.  [SetupSceneLights] does not test the shader-manager pointer:
    with a null pointer it dereferences it at its first statement.  With
    a shader manager it returns, with lighting switched on and the two
    point lights and the spotlight active; it writes light uniforms only,
    so the uniforms of the render calls and everything outside the
    uniform table are as before. *)
Theorem SetupSceneLights_needs_shader_manager (st : State) :
  (m_pShaderManager st = None → SetupSceneLights st = NullDereference) ∧
  (∀ sh, m_pShaderManager st = Some sh →
     ∃ sh',
       SetupSceneLights st = Returns (set_shader (Some sh') st) ∧
       uniforms sh' !! g_UseLightingName = Some (UBool true) ∧
       uniforms sh' !! "pointLights[0].bActive" = Some (UBool true) ∧
       uniforms sh' !! "pointLights[1].bActive" = Some (UBool true) ∧
       uniforms sh' !! "spotLight.bActive" = Some (UBool true) ∧
       ∀ name, name ∉ light_uniforms → uniforms sh' !! name = uniforms sh !! name).
Proof.
  unfold SetupSceneLights. split.
  - intros ->. reflexivity.
  - intros sh ->. exists (scene_lights sh). split; [reflexivity|].
    destruct (scene_lights_flags sh) as (H1 & H2 & H3 & H4).
    repeat (split; [assumption|]). intros name. apply scene_lights_frame.
Qed.

End LightFacts.

(** ** LoadGLTextures *)

Section LoadFacts.
Context {F : Scalar}.
Variable stbi_load : bool → string → option stbi_image.

Lemma decodable_supported filename :
  decodable stbi_load filename = true ↔ supported stbi_load filename.
Proof.
  unfold decodable, supported. split.
  - destruct (stbi_load true filename) as [image|]; [|discriminate].
    intros Hch. apply orb_true_iff in Hch. exists image. split; [reflexivity|].
    destruct Hch as [H3|H4]; [left | right]; lia.
  - intros (image & -> & [H3|H4]); apply orb_true_iff; [left | right]; lia.
Qed.

(** The context after a registration, whatever its outcome: no error
    flag, the same units and active unit, and no texture name lost. *)
Lemma create_texture_context wrap filename tag st :
  let g' := gl (snd (create_texture stbi_load wrap filename tag st)) in
  GL.errors g' = GL.errors (gl st) ∧
  GL.max_units g' = GL.max_units (gl st) ∧
  GL.active g' = GL.active (gl st) ∧
  (∀ id, id ∈ GL.names (gl st) → id ∈ GL.names g').
Proof.
  unfold create_texture.
  destruct (stbi_load true filename) as [image|]; [|repeat split; auto].
  cbv beta iota zeta delta [GL.glGenTextures].
  rewrite (GLSteps.glBindTexture_valid (GL.unused_name (GL.names (gl st))))
    by (right; cbn [GL.issue GL.names]; apply elem_of_cons; left; reflexivity).
  unfold GL.glTexParameteri, GL.glTexImage2D, GL.glGenerateMipmap.
  destruct (colorChannels image =? 3);
    [|destruct (colorChannels image =? 4)];
    try rewrite GLSteps.glBindTexture_valid by (left; reflexivity);
    cbn [snd set_gl set_textures gl GL.issue GL.names GL.active GL.bound2D
         GL.max_units GL.errors GL.log];
    (repeat split; try reflexivity); intros id Hid; apply elem_of_cons; right;
    exact Hid.
Qed.

Lemma perform_context r st :
  let g' := gl (snd (perform stbi_load r st)) in
  GL.errors g' = GL.errors (gl st) ∧
  GL.max_units g' = GL.max_units (gl st) ∧
  GL.active g' = GL.active (gl st) ∧
  (∀ id, id ∈ GL.names (gl st) → id ∈ GL.names g').
Proof. destruct r; apply create_texture_context. Qed.

Lemma perform_decodable r st :
  fst (perform stbi_load r st) = decodable stbi_load (request_file r).
Proof.
  destruct r as [filename tag|filename tag]; cbn [perform request_file];
    unfold CreateGLTexture, CreateMirroredTexture.
  - destruct (create_texture_cases stbi_load GL.GL_REPEAT filename tag st)
      as [[Hs ->]|[Hs ->]]; symmetry.
    + apply decodable_supported. exact Hs.
    + apply not_true_is_false. rewrite decodable_supported. exact Hs.
  - destruct (create_texture_cases stbi_load GL.GL_MIRRORED_REPEAT filename tag st)
      as [[Hs ->]|[Hs ->]]; symmetry.
    + apply decodable_supported. exact Hs.
    + apply not_true_is_false. rewrite decodable_supported. exact Hs.
Qed.

(** One registration: the tag is appended when the file decodes, and live
    handles stay live. *)
Lemma perform_registry r st :
  0 ≤ m_loadedTextures st →
  let st' := snd (perform stbi_load r st) in
  let granted := if decodable stbi_load (request_file r) then [request_tag r] else [] in
  registered_tags st' = registered_tags st ++ granted ∧
  m_loadedTextures st' = m_loadedTextures st + Z.of_nat (length granted) ∧
  m_pShaderManager st' = m_pShaderManager st ∧
  m_objectMaterials st' = m_objectMaterials st ∧
  (handles_live (m_textureIDs st) (m_loadedTextures st) (gl st) →
   handles_live (m_textureIDs st') (m_loadedTextures st') (gl st')).
Proof.
  intros Hn. cbv zeta. rewrite <- (perform_decodable r st).
  pose proof (perform_context r st) as Hcontext. cbv zeta in Hcontext.
  destruct (fst (perform stbi_load r st)) eqn:Hok.
  - destruct (perform_success stbi_load r st Hok) as (g & Heq & _ & Hnames).
    rewrite Heq in *. cbn [snd set_gl set_textures m_textureIDs m_loadedTextures
                              m_pShaderManager m_objectMaterials gl] in *.
    split; [|split; [simpl; lia|split; [reflexivity|split; [reflexivity|]]]].
    + unfold registered_tags.
      cbn [set_gl set_textures m_textureIDs m_loadedTextures].
      rewrite seqZ_app by lia. rewrite fmap_app. f_equal.
      * apply list_fmap_ext. intros k i Hi. apply lookup_seqZ in Hi.
        unfold tag_at. rewrite cell_registered. rewrite decide_False by lia.
        reflexivity.
      * rewrite seqZ_cons by lia. rewrite seqZ_nil by lia. simpl.
        unfold tag_at. rewrite cell_registered, Z.add_0_l.
        rewrite decide_True by reflexivity. reflexivity.
    + intros Hlive i Hi. rewrite cell_registered, Hnames.
      destruct (decide (i = m_loadedTextures st)) as [->|Hne].
      * apply elem_of_cons. left. reflexivity.
      * apply elem_of_cons. right. apply Hlive. lia.
  - destruct (perform_failure stbi_load r st Hok) as (g & Heq).
    rewrite Heq in *. cbn [snd set_gl m_textureIDs m_loadedTextures
                              m_pShaderManager m_objectMaterials gl] in *.
    split; [rewrite app_nil_r; reflexivity|].
    split; [simpl; lia|]. split; [reflexivity|]. split; [reflexivity|].
    intros Hlive i Hi. apply Hcontext. apply Hlive. exact Hi.
Qed.

Lemma snd_perform_all_cons r rs st :
  snd (perform_all stbi_load (r :: rs) st) =
    snd (perform_all stbi_load rs (snd (perform stbi_load r st))).
Proof.
  cbn [perform_all]. destruct (perform stbi_load r st) as [ok st']. cbn [snd].
  destruct (perform_all stbi_load rs st') as [receipts st'']. reflexivity.
Qed.

(** A run of registrations: the tags of the files that decode are
    appended in order. *)
Lemma perform_all_registry rs :
  ∀ st, 0 ≤ m_loadedTextures st →
    let st' := snd (perform_all stbi_load rs st) in
    registered_tags st' = registered_tags st ++ granted_tags stbi_load rs ∧
    m_loadedTextures st' =
      m_loadedTextures st + Z.of_nat (length (granted_tags stbi_load rs)) ∧
    m_pShaderManager st' = m_pShaderManager st ∧
    m_objectMaterials st' = m_objectMaterials st ∧
    GL.errors (gl st') = GL.errors (gl st) ∧
    GL.max_units (gl st') = GL.max_units (gl st) ∧
    GL.active (gl st') = GL.active (gl st) ∧
    (handles_live (m_textureIDs st) (m_loadedTextures st) (gl st) →
     handles_live (m_textureIDs st') (m_loadedTextures st') (gl st')).
Proof.
  induction rs as [|r rs IH]; intros st Hn.
  - cbn [perform_all snd]. unfold granted_tags. simpl. rewrite app_nil_r.
    repeat split; try reflexivity; try lia. auto.
  - cbv zeta. rewrite snd_perform_all_cons.
    destruct (perform_registry r st Hn) as (Htags & Hcount & Hsh & Hcat & Hlive).
    destruct (perform_context r st) as (Herrors & Hunits & Hactive & _).
    destruct (IH (snd (perform stbi_load r st)))
      as (Htags' & Hcount' & Hsh' & Hcat' & Herrors' & Hunits' & Hactive' & Hlive');
      [lia|].
    assert (granted_tags stbi_load (r :: rs) =
            (if decodable stbi_load (request_file r) then [request_tag r] else [])
              ++ granted_tags stbi_load rs) as Hgranted.
    { unfold granted_tags. rewrite filter_cons.
      destruct (decodable stbi_load (request_file r)); case_decide;
        try congruence; reflexivity. }
    split; [rewrite Htags', Htags, Hgranted, <- app_assoc; reflexivity|].
    split; [rewrite Hcount', Hcount, Hgranted, length_app; lia|].
    split; [rewrite Hsh'; exact Hsh|]. split; [rewrite Hcat'; exact Hcat|].
    split; [rewrite Herrors'; exact Herrors|].
    split; [rewrite Hunits'; exact Hunits|].
    split; [rewrite Hactive'; exact Hactive|].
    intros H. apply Hlive'. apply Hlive. exact H.
Qed.

(** [LoadGLTextures] is the ten registrations, then [BindGLTextures]. *)
Lemma LoadGLTextures_eq st :
  LoadGLTextures stbi_load st =
    BindGLTextures (snd (perform_all stbi_load texture_requests st)).
Proof.
  unfold texture_requests. cbv zeta. rewrite !snd_perform_all_cons.
  cbn [perform_all snd perform]. unfold LoadGLTextures.
  repeat match goal with
         | |- context [let '(_, _) := ?call in _] =>
             rewrite (surjective_pairing call)
         end.
  reflexivity.
Qed.

End LoadFacts.

Section LoadTheorems.
Context {F : Scalar}.
Variable stbi_load : bool → string → option stbi_image.

(** When no tag is registered twice, a tag is found in the slot where it
    stands in the list of registered tags. *)
Lemma FindTextureSlot_of_position (st : State) (k : nat) (t : string) :
  NoDup (registered_tags st) →
  registered_tags st !! k = Some t →
  FindTextureSlot t st = Z.of_nat k.
Proof.
  intros Hnodup Hk. apply FindTextureSlot_first.
  pose proof Hk as Hk'. unfold registered_tags in Hk'.
  rewrite list_lookup_fmap in Hk'.
  destruct (seqZ 0 (m_loadedTextures st) !! k) as [i|] eqn:Hi; [|discriminate].
  apply lookup_seqZ in Hi as [-> Hrange]. injection Hk' as Htag.
  rewrite Z.add_0_l in Htag. split; [lia|]. split; [exact Htag|].
  intros i Hi Hsame.
  assert (registered_tags st !! Z.to_nat i = Some t) as Hearlier.
  { unfold registered_tags. rewrite list_lookup_fmap.
    rewrite lookup_seqZ_lt by lia. simpl. rewrite Z.add_0_l, Z2Nat.id by lia.
    f_equal. exact Hsame. }
  pose proof (NoDup_lookup _ _ _ _ Hnodup Hearlier Hk). lia.
Qed.

Lemma granted_tags_NoDup : NoDup (granted_tags stbi_load texture_requests).
Proof.
  apply (sublist_NoDup _ (request_tag <$> texture_requests)).
  - apply (bool_decide_unpack _). vm_compute. exact I.
  - unfold granted_tags. apply fmap_sublist. apply sublist_filter.
Qed.

Lemma granted_tags_length :
  (length (granted_tags stbi_load texture_requests) ≤ 10)%nat.
Proof.
  unfold granted_tags. rewrite length_fmap.
  etransitivity; [apply length_filter | reflexivity].
Qed.

(** X14.  [LoadGLTextures] drops the flag of every registration and goes
    on: the registered tags afterwards are the ones before, followed by
    the tags of those of its ten files that decode to 3 or 4 channels, in
    the order of the calls.  From an empty registry each such tag is found
    in the slot of its position among them, so a file that fails to load
    moves every later texture one slot down. *)
Theorem LoadGLTextures_slots_follow_decodable_files (st : State) :
  0 ≤ m_loadedTextures st →
  let st' := LoadGLTextures stbi_load st in
  let granted := granted_tags stbi_load texture_requests in
  registered_tags st' = registered_tags st ++ granted ∧
  m_loadedTextures st' = m_loadedTextures st + Z.of_nat (length granted) ∧
  m_objectMaterials st' = m_objectMaterials st ∧
  m_pShaderManager st' = m_pShaderManager st ∧
  (m_loadedTextures st = 0 →
   ∀ (k : nat) t, granted !! k = Some t → FindTextureSlot t st' = Z.of_nat k).
Proof.
  intros Hn. cbv zeta. rewrite LoadGLTextures_eq.
  destruct (perform_all_registry stbi_load texture_requests st Hn)
    as (Htags & Hcount & Hsh & Hcat & _).
  assert (registered_tags
            (BindGLTextures (snd (perform_all stbi_load texture_requests st))) =
          registered_tags st ++ granted_tags stbi_load texture_requests) as Htags'
    by exact Htags.
  split; [exact Htags'|]. split; [exact Hcount|]. split; [exact Hcat|].
  split; [exact Hsh|].
  intros Hzero k t Hk. apply FindTextureSlot_of_position.
  - rewrite Htags'. unfold registered_tags at 1. rewrite Hzero. simpl.
    apply granted_tags_NoDup.
  - rewrite Htags'. unfold registered_tags at 1. rewrite Hzero. exact Hk.
Qed.

(** Every texture on the unit of its slot after the ten registrations
    and the binding loop. *)
Lemma LoadGLTextures_bound (st : State) :
  0 ≤ m_loadedTextures st →
  m_loadedTextures st + 10 ≤ GL.max_units (gl st) →
  m_loadedTextures st + 10 < 2 ^ 31 →
  handles_live (m_textureIDs st) (m_loadedTextures st) (gl st) →
  let st' := LoadGLTextures stbi_load st in
  bound_in_order (m_textureIDs st') (m_loadedTextures st') (gl st') ∧
  handles_live (m_textureIDs st') (m_loadedTextures st') (gl st') ∧
  GL.errors (gl st') = GL.errors (gl st).
Proof.
  intros Hn Hunits Hint Hlive. cbv zeta. rewrite LoadGLTextures_eq.
  destruct (perform_all_registry stbi_load texture_requests st Hn)
    as (_ & Hcount & _ & _ & Herrors & Hmax & _ & Hlive').
  specialize (Hlive' Hlive). pose proof granted_tags_length as Hlen.
  set (st1 := snd (perform_all stbi_load texture_requests st)) in *.
  unfold BindGLTextures.
  destruct (BindGLTextures_loop_within (m_textureIDs st1) (m_loadedTextures st1)
              (Z.to_nat (m_loadedTextures st1)) 0 (gl st1))
    as (Hnames & Herrors' & _ & Hbound & _);
    [lia | lia | lia | lia | exact Hlive' |].
  cbn [set_gl gl m_textureIDs m_loadedTextures].
  split; [exact Hbound|]. split.
  - intros i Hi. rewrite Hnames. apply Hlive'. exact Hi.
  - rewrite Herrors'. exact Herrors.
Qed.

(** X15.  When the handles of the registry are live texture names and
    the context has units for ten more textures, [LoadGLTextures] ends
    with every registered texture, old or new, bound on the unit of its
    slot, with live handles, and with no error flag raised. *)
Theorem LoadGLTextures_binds_every_texture (st : State) :
  0 ≤ m_loadedTextures st →
  m_loadedTextures st + 10 ≤ GL.max_units (gl st) →
  m_loadedTextures st + 10 < 2 ^ 31 →
  handles_live (m_textureIDs st) (m_loadedTextures st) (gl st) →
  let st' := LoadGLTextures stbi_load st in
  bound_in_order (m_textureIDs st') (m_loadedTextures st') (gl st') ∧
  handles_live (m_textureIDs st') (m_loadedTextures st') (gl st') ∧
  GL.errors (gl st') = GL.errors (gl st).
Proof. apply LoadGLTextures_bound. Qed.

End LoadTheorems.

(** ** PrepareScene *)

Section PrepareFacts.
Context {F : Scalar} {L : Literals F}.
Variable stbi_load : bool → string → option stbi_image.


End PrepareFacts.

(** ** RenderScene *)

Module GLFrame.
Import GL.

Lemma max_units_glBindTexture target texture ctx :
  max_units (glBindTexture target texture ctx) = max_units ctx.
Proof. unfold glBindTexture. repeat case_bool_decide; reflexivity. Qed.

Lemma max_units_glActiveTexture texture ctx :
  max_units (glActiveTexture texture ctx) = max_units ctx.
Proof. unfold glActiveTexture. case_bool_decide; reflexivity. Qed.

End GLFrame.

Section RenderFrame.
Context {F : Scalar}.

Lemma same_registry_refl st : same_registry st st.
Proof. repeat split; eauto. Qed.

Lemma same_registry_trans st1 st2 st3 :
  same_registry st1 st2 → same_registry st2 st3 → same_registry st1 st3.
Proof.
  intros (H1 & H2 & H3 & H4 & H5 & H6 & H7) (K1 & K2 & K3 & K4 & K5 & K6 & K7).
  repeat split; try congruence; auto.
  intros sh Hsh. destruct (H7 sh Hsh) as [sh' Hsh']. eauto.
Qed.

Lemma same_registry_set_shader sh st :
  is_Some (m_pShaderManager st) → same_registry st (set_shader (Some sh) st).
Proof. intros [sh0 Hsh0]. repeat split; eauto. congruence. Qed.

Lemma run_call_frame uninitialised c sc sc' :
  run_call uninitialised c sc = Returns sc' →
  same_registry (manager sc) (manager sc') ∧
  m_basicMeshes sc' =
    match c with CallMesh mesh => [mesh] | _ => [] end ++ m_basicMeshes sc.
Proof.
  destruct c; cbn [run_call];
    try (intros [= <-]; cbn [manager m_basicMeshes]; split; [|reflexivity]).
  - unfold SetTransformations. cbv zeta.
    destruct (m_pShaderManager (manager sc)) eqn:Hsh;
      [apply same_registry_set_shader; eauto | apply same_registry_refl].
  - unfold SetShaderColor. cbv zeta.
    destruct (m_pShaderManager (manager sc)) eqn:Hsh;
      [apply same_registry_set_shader; eauto | apply same_registry_refl].
  - unfold SetShaderTexture. cbv zeta.
    destruct (m_pShaderManager (manager sc)) eqn:Hsh;
      [apply same_registry_set_shader; eauto | apply same_registry_refl].
  - unfold SetTextureUVScale.
    destruct (m_pShaderManager (manager sc)) eqn:Hsh;
      [apply same_registry_set_shader; eauto | apply same_registry_refl].
  - unfold SetTwoTextures. cbv zeta.
    destruct (m_pShaderManager (manager sc)) eqn:Hsh; [|apply same_registry_refl].
    unfold same_registry.
    cbn [set_gl set_shader m_textureIDs m_loadedTextures m_objectMaterials
         m_pShaderManager gl].
    split; [reflexivity|]. split; [reflexivity|]. split; [reflexivity|].
    split; [|split; [|split; [congruence | eauto]]].
    + repeat (rewrite GLFacts.names_glBindTexture
              || rewrite GLFacts.names_glActiveTexture).
      reflexivity.
    + repeat (rewrite GLFrame.max_units_glBindTexture
              || rewrite GLFrame.max_units_glActiveTexture).
      reflexivity.
  - unfold SetShaderMaterial.
    destruct (0 <? length (m_objectMaterials (manager sc)))%nat;
      [|intros [= <-]; split; [apply same_registry_refl | reflexivity]].
    destruct (FindMaterial _ _ _) as [[] material];
      [|intros [= <-]; split; [apply same_registry_refl | reflexivity]].
    destruct (m_pShaderManager (manager sc)) eqn:Hsh; [|discriminate].
    intros [= <-]. split; [|reflexivity].
    apply same_registry_set_shader. eauto.
  - apply same_registry_refl.
Qed.

Lemma run_calls_frame uninitialised cs :
  ∀ k sc sc', run_calls uninitialised k cs sc = Returns sc' →
    same_registry (manager sc) (manager sc') ∧
    m_basicMeshes sc' = reverse (meshes_of cs) ++ m_basicMeshes sc.
Proof.
  induction cs as [|c cs IH]; intros k sc sc'; cbn [run_calls].
  - intros [= <-]. split; [apply same_registry_refl | reflexivity].
  - destruct (run_call (uninitialised k) c sc) as [sc1|] eqn:Hcall; [|discriminate].
    intros Hrest. destruct (run_call_frame _ _ _ _ Hcall) as [Hsame Hmesh].
    destruct (IH _ _ _ Hrest) as [Hsame' Hmesh'].
    split; [exact (same_registry_trans _ _ _ Hsame Hsame')|].
    rewrite Hmesh', Hmesh. unfold meshes_of. rewrite bind_cons.
    rewrite reverse_app, <- app_assoc. f_equal.
    destruct c; reflexivity.
Qed.

End RenderFrame.

Section RenderOutcome.
Context {F : Scalar} {L : Literals F}.

(** With a shader manager every call returns. *)
Lemma run_call_returns uninitialised c sc :
  is_Some (m_pShaderManager (manager sc)) →
  ∃ sc', run_call uninitialised c sc = Returns sc'.
Proof.
  intros [sh Hsh]. destruct c; cbn [run_call]; eauto.
  unfold SetShaderMaterial. rewrite Hsh.
  destruct (0 <? length (m_objectMaterials (manager sc)))%nat; eauto.
  destruct (FindMaterial _ _ _) as [[] material]; eauto.
Qed.

Lemma run_calls_returns uninitialised cs :
  ∀ k sc, is_Some (m_pShaderManager (manager sc)) →
    ∃ sc', run_calls uninitialised k cs sc = Returns sc'.
Proof.
  induction cs as [|c cs IH]; intros k sc Hsh; cbn [run_calls]; eauto.
  destruct (run_call_returns (uninitialised k) c sc Hsh) as [sc1 Hcall].
  rewrite Hcall. apply IH.
  destruct (run_call_frame _ _ _ _ Hcall) as [(_ & _ & _ & _ & _ & _ & Hkeep) _].
  destruct Hsh as [sh Hsh]. destruct (Hkeep sh Hsh) as [sh' Hsh']. eauto.
Qed.

(** Without a shader manager a call changes nothing but the list of mesh
    calls, unless it is a [SetShaderMaterial] on a non-empty catalog. *)
Lemma run_call_null uninitialised c sc :
  m_pShaderManager (manager sc) = None →
  run_call uninitialised c sc =
    if is_material_call c && negb (Nat.eqb (length (m_objectMaterials (manager sc))) 0)
    then NullDereference
    else Returns (mkScene (manager sc)
                    (match c with CallMesh mesh => [mesh] | _ => [] end
                       ++ m_basicMeshes sc)).
Proof.
  intros Hnull. destruct sc as [st meshes]. cbn [manager m_basicMeshes] in *.
  destruct c; cbn [run_call is_material_call andb manager m_basicMeshes app];
    unfold SetTransformations, SetShaderColor, SetShaderTexture,
      SetTextureUVScale, SetTwoTextures; cbv zeta; rewrite ?Hnull;
    try reflexivity.
  unfold SetShaderMaterial.
  destruct (m_objectMaterials st) as [|first rest] eqn:Hcat; [reflexivity|].
  rewrite FindMaterial_nonempty by (rewrite Hcat; discriminate).
  rewrite Hnull. reflexivity.
Qed.

Lemma reverse_meshes_of_cons c cs (meshes : list MeshCall) :
  reverse (meshes_of (c :: cs)) ++ meshes =
    reverse (meshes_of cs)
      ++ match c with CallMesh mesh => [mesh] | _ => [] end ++ meshes.
Proof.
  unfold meshes_of. rewrite bind_cons, reverse_app, <- app_assoc.
  destruct c; reflexivity.
Qed.

Lemma run_calls_null uninitialised cs :
  ∀ k sc, m_pShaderManager (manager sc) = None →
    run_calls uninitialised k cs sc =
      if existsb is_material_call cs
         && negb (Nat.eqb (length (m_objectMaterials (manager sc))) 0)
      then NullDereference
      else Returns (mkScene (manager sc) (reverse (meshes_of cs) ++ m_basicMeshes sc)).
Proof.
  induction cs as [|c cs IH]; intros k sc Hnull; cbn [run_calls existsb].
  - destruct sc. reflexivity.
  - rewrite run_call_null by exact Hnull.
    rewrite reverse_meshes_of_cons.
    destruct (is_material_call c);
      destruct (negb (Nat.eqb (length (m_objectMaterials (manager sc))) 0))
        eqn:Hcat; cbn [andb orb]; try reflexivity;
      rewrite IH by exact Hnull; cbn [manager m_basicMeshes];
      rewrite Hcat, ?andb_false_r, ?andb_true_r; reflexivity.
Qed.

(** X17.  [RenderScene] with a shader manager always returns, whatever
    the registry and the catalog hold.  Whenever it returns it has made
    its fourteen draw calls in the order of the source (listed most recent
    first), and it has changed neither the texture table, nor the
    counter, nor the catalog, nor the set of texture names of the context:
    a frame registers and generates nothing. *)
Theorem RenderScene_draws_and_keeps_registry
        (uninitialised : nat → OBJECT_MATERIAL) (sc : Scene) :
  (is_Some (m_pShaderManager (manager sc)) →
   ∃ sc', RenderScene uninitialised sc = Returns sc') ∧
  (∀ sc', RenderScene uninitialised sc = Returns sc' →
     m_textureIDs (manager sc') = m_textureIDs (manager sc) ∧
     m_loadedTextures (manager sc') = m_loadedTextures (manager sc) ∧
     m_objectMaterials (manager sc') = m_objectMaterials (manager sc) ∧
     GL.names (gl (manager sc')) = GL.names (gl (manager sc)) ∧
     m_basicMeshes sc' = frame_draws ++ m_basicMeshes sc).
Proof.
  unfold RenderScene. split.
  - apply run_calls_returns.
  - intros sc' Hrun.
    destruct (run_calls_frame _ _ _ _ _ Hrun)
      as [(Hcells & Hcount & Hcat & Hnames & _) Hmeshes].
    repeat (split; [assumption|]). exact Hmeshes.
Qed.

(** X18.  [RenderScene] without a shader manager: on an empty catalog
    every setter is skipped and the fourteen draw calls are made with the
    state untouched; on any other catalog the first [SetShaderMaterial]
    dereferences the null pointer, before anything is drawn. *)
Theorem RenderScene_without_shader_manager
        (uninitialised : nat → OBJECT_MATERIAL) (sc : Scene) :
  m_pShaderManager (manager sc) = None →
  (m_objectMaterials (manager sc) = [] →
   RenderScene uninitialised sc =
     Returns (mkScene (manager sc) (frame_draws ++ m_basicMeshes sc))) ∧
  (m_objectMaterials (manager sc) ≠ [] →
   RenderScene uninitialised sc = NullDereference ∧
   ∃ before c after,
     render_calls = before ++ c :: after ∧
     is_material_call c = true ∧
     meshes_of before = []).
Proof.
  intros Hnull. unfold RenderScene. rewrite run_calls_null by exact Hnull.
  split.
  - intros ->. reflexivity.
  - intros Hne. split.
    + destruct (m_objectMaterials (manager sc)); [contradiction | reflexivity].
    + exists (take 3 render_calls), (CallSetShaderMaterial "tableCloth"),
        (drop 4 render_calls).
      repeat split.
Qed.

End RenderOutcome.

Section RenderHealth.
Context {F : Scalar} {L : Literals F}.

(** [SetTwoTextures] on registered tags, textures bound in order: the
    bindings and the error flags stay as they are. *)
Lemma SetTwoTextures_healthy tag1 tag2 mixFactor sh st :
  m_pShaderManager st = Some sh →
  tag1 ∈ registered_tags st → tag2 ∈ registered_tags st →
  bound_and_live st →
  GL.bound2D (gl (SetTwoTextures tag1 tag2 mixFactor st)) = GL.bound2D (gl st) ∧
  GL.errors (gl (SetTwoTextures tag1 tag2 mixFactor st)) = GL.errors (gl st).
Proof.
  intros Hsh Hreg1 Hreg2 (Hn & Hunits & Hrange & Hlive & Hbound).
  destruct (registered_lookups tag1 st Hreg1) as [Hr1 _].
  destruct (registered_lookups tag2 st Hreg2) as [Hr2 _].
  rewrite (SetTwoTextures_gl _ _ _ sh) by exact Hsh.
  rewrite (bind_registered tag1 st (gl st)) by (try assumption; lia). cbv zeta.
  rewrite (bind_registered tag2 st) by (try assumption; cbn [GL.max_units]; lia).
  cbv zeta. cbn [GL.bound2D GL.errors]. split; [|reflexivity].
  rewrite (insert_id (GL.bound2D (gl st)) (FindTextureSlot tag1 st))
    by (apply Hbound; exact Hr1).
  apply insert_id. apply Hbound. exact Hr2.
Qed.

(** A call other than [SetTwoTextures] leaves the context alone. *)
Lemma run_call_gl uninitialised c sc sc' :
  (∀ tag1 tag2 mixFactor, c ≠ CallSetTwoTextures tag1 tag2 mixFactor) →
  run_call uninitialised c sc = Returns sc' →
  gl (manager sc') = gl (manager sc).
Proof.
  intros Hother. destruct c; cbn [run_call];
    try (intros [= <-]; cbn [manager];
         unfold SetTransformations, SetShaderColor, SetShaderTexture,
           SetTextureUVScale; cbv zeta;
         destruct (m_pShaderManager (manager sc)); reflexivity).
  - exfalso. exact (Hother _ _ _ eq_refl).
  - unfold SetShaderMaterial.
    destruct (0 <? length (m_objectMaterials (manager sc)))%nat;
      [|intros [= <-]; reflexivity].
    destruct (FindMaterial _ _ _) as [[] material];
      [|intros [= <-]; reflexivity].
    destruct (m_pShaderManager (manager sc)); [|discriminate].
    intros [= <-]. reflexivity.
Qed.

Lemma bound_and_live_same st st' :
  same_registry st st' →
  GL.bound2D (gl st') = GL.bound2D (gl st) →
  bound_and_live st → bound_and_live st'.
Proof.
  intros (Hcells & Hcount & _ & Hnames & Hmax & _) Hbound.
  unfold bound_and_live, handles_in_range, handles_live, bound_in_order.
  rewrite Hcells, Hcount, Hnames, Hmax, Hbound. auto.
Qed.

Lemma registered_tags_same st st' :
  same_registry st st' → registered_tags st' = registered_tags st.
Proof. intros (Hcells & Hcount & _). unfold registered_tags. congruence. Qed.

Lemma run_call_healthy uninitialised c sc sc' :
  is_Some (m_pShaderManager (manager sc)) →
  bound_and_live (manager sc) →
  (∀ t, t ∈ texture_tags_of [c] → t ∈ registered_tags (manager sc)) →
  run_call uninitialised c sc = Returns sc' →
  GL.bound2D (gl (manager sc')) = GL.bound2D (gl (manager sc)) ∧
  GL.errors (gl (manager sc')) = GL.errors (gl (manager sc)).
Proof.
  intros [sh Hsh] Hhealthy Htags Hcall.
  assert ((∃ tag1 tag2 mixFactor, c = CallSetTwoTextures tag1 tag2 mixFactor) ∨
          ¬ ∃ tag1 tag2 mixFactor, c = CallSetTwoTextures tag1 tag2 mixFactor)
    as [(tag1 & tag2 & mixFactor & ->)|Hother]
    by (destruct c;
        first [left; eexists _, _, _; reflexivity
              | right; intros (? & ? & ? & ?); discriminate]).
  - cbn [run_call] in Hcall. injection Hcall as <-. cbn [manager].
    apply (SetTwoTextures_healthy _ _ _ sh); try assumption;
      apply Htags; cbn; set_solver.
  - rewrite (run_call_gl uninitialised c sc sc'); [split; reflexivity| |exact Hcall].
    intros tag1 tag2 mixFactor ->. apply Hother. eauto.
Qed.

Lemma texture_tags_of_cons (c : RenderCall) cs :
  texture_tags_of (c :: cs) = texture_tags_of [c] ++ texture_tags_of cs.
Proof.
  unfold texture_tags_of. rewrite !bind_cons. simpl. rewrite app_nil_r.
  reflexivity.
Qed.

Lemma run_calls_healthy uninitialised cs :
  ∀ k sc sc',
    is_Some (m_pShaderManager (manager sc)) →
    bound_and_live (manager sc) →
    (∀ t, t ∈ texture_tags_of cs → t ∈ registered_tags (manager sc)) →
    run_calls uninitialised k cs sc = Returns sc' →
    GL.bound2D (gl (manager sc')) = GL.bound2D (gl (manager sc)) ∧
    GL.errors (gl (manager sc')) = GL.errors (gl (manager sc)).
Proof.
  induction cs as [|c cs IH]; intros k sc sc' Hsh Hhealthy Htags; cbn [run_calls].
  - intros [= <-]. split; reflexivity.
  - destruct (run_call (uninitialised k) c sc) as [sc1|] eqn:Hcall; [|discriminate].
    intros Hrest.
    assert (∀ t, t ∈ texture_tags_of [c] → t ∈ registered_tags (manager sc))
      as Htags1.
    { intros t Ht. apply Htags. rewrite texture_tags_of_cons.
      apply elem_of_app. left. exact Ht. }
    destruct (run_call_healthy _ _ _ _ Hsh Hhealthy Htags1 Hcall)
      as [Hbound Herrors].
    destruct (run_call_frame _ _ _ _ Hcall) as [Hsame _].
    destruct (IH (S k) sc1 sc') as [Hbound' Herrors'].
    + destruct Hsh as [sh Hsh]. destruct Hsame as (_ & _ & _ & _ & _ & _ & Hkeep).
      destruct (Hkeep sh Hsh) as [sh' Hsh']. eauto.
    + exact (bound_and_live_same _ _ Hsame Hbound Hhealthy).
    + intros t Ht. rewrite (registered_tags_same _ _ Hsame). apply Htags.
      rewrite texture_tags_of_cons. apply elem_of_app. right. exact Ht.
    + exact Hrest.
    + split; congruence.
Qed.

Lemma render_calls_tags t :
  t ∈ texture_tags_of render_calls → t ∈ frame_tags.
Proof.
  assert (texture_tags_of render_calls =
          ["cloth"; "skull"; "wall"; "skull"; "breadSide"; "breadSide";
           "breadTop"; "breadTop"; "butter"; "butter"; "orange"; "cracks";
           "bottleLid"; "bottleLid"]%string) as -> by reflexivity.
  revert t. apply Forall_forall. apply (bool_decide_unpack _).
  vm_compute. exact I.
Qed.

(** X19.  With a shader manager, textures bound in order on live 32-bit
    handles, and the nine tags of the scene registered, a frame raises no
    GL error and ends with every unit bound as it was: [RenderScene]
    returns, error flags and bindings unchanged, and the registry and
    the context still agree for the next frame. *)
Theorem RenderScene_raises_no_error
        (uninitialised : nat → OBJECT_MATERIAL) (sc : Scene) :
  is_Some (m_pShaderManager (manager sc)) →
  bound_and_live (manager sc) →
  (∀ t, t ∈ frame_tags → t ∈ registered_tags (manager sc)) →
  ∃ sc',
    RenderScene uninitialised sc = Returns sc' ∧
    GL.errors (gl (manager sc')) = GL.errors (gl (manager sc)) ∧
    GL.bound2D (gl (manager sc')) = GL.bound2D (gl (manager sc)) ∧
    bound_and_live (manager sc') ∧
    (∀ t, t ∈ frame_tags → t ∈ registered_tags (manager sc')).
Proof.
  intros Hsh Hhealthy Htags. unfold RenderScene.
  destruct (run_calls_returns uninitialised render_calls 0%nat sc Hsh)
    as [sc' Hrun].
  exists sc'. split; [exact Hrun|].
  destruct (run_calls_healthy _ _ _ _ _ Hsh Hhealthy
              (λ t Ht, Htags t (render_calls_tags t Ht)) Hrun)
    as [Hbound Herrors].
  destruct (run_calls_frame _ _ _ _ _ Hrun) as [Hsame _].
  split; [exact Herrors|]. split; [exact Hbound|]. split.
  - exact (bound_and_live_same _ _ Hsame Hbound Hhealthy).
  - intros t Ht. rewrite (registered_tags_same _ _ Hsame). apply Htags. exact Ht.
Qed.

End RenderHealth.

(** ** Set-up, then a frame *)

Section NamesFacts.
Context {F : Scalar}.
Variable stbi_load : bool → string → option stbi_image.

Lemma unused_name_below (l : list Z) (bound : Z) :
  0 < bound → (∀ id, id ∈ l → 0 ≤ id < bound) →
  0 < GL.unused_name l ≤ bound.
Proof.
  intros Hbound Hl. unfold GL.unused_name.
  assert (0 ≤ foldr Z.max 0 l < bound) as Hmax.
  { induction l as [|x l IH]; simpl; [lia|].
    assert (0 ≤ x < bound) by (apply Hl; apply elem_of_cons; left; reflexivity).
    assert (0 ≤ foldr Z.max 0 l < bound)
      by (apply IH; intros id Hid; apply Hl; apply elem_of_cons; right; exact Hid).
    lia. }
  lia.
Qed.

(** A registration generates at most one texture name. *)
Lemma create_texture_names wrap filename tag st :
  let names' := GL.names (gl (snd (create_texture stbi_load wrap filename tag st))) in
  names' = GL.names (gl st) ∨
  names' = GL.unused_name (GL.names (gl st)) :: GL.names (gl st).
Proof.
  unfold create_texture.
  destruct (stbi_load true filename) as [image|]; [|left; reflexivity].
  cbv beta iota zeta delta [GL.glGenTextures]. right.
  unfold GL.glTexParameteri, GL.glTexImage2D, GL.glGenerateMipmap.
  destruct (colorChannels image =? 3);
    [|destruct (colorChannels image =? 4)];
    cbn [snd set_gl set_textures gl];
    repeat (rewrite GLFacts.names_glBindTexture || rewrite GLFacts.names_issue);
    reflexivity.
Qed.

Lemma perform_names_below bound r st :
  0 < bound → names_below bound (gl st) →
  names_below (bound + 1) (gl (snd (perform stbi_load r st))).
Proof.
  intros Hbound Hbelow id.
  assert (GL.names (gl (snd (perform stbi_load r st))) = GL.names (gl st) ∨
          GL.names (gl (snd (perform stbi_load r st))) =
            GL.unused_name (GL.names (gl st)) :: GL.names (gl st)) as [-> | ->]
    by (destruct r; apply create_texture_names).
  - intros Hid. specialize (Hbelow id Hid). lia.
  - intros Hid. apply elem_of_cons in Hid as [->|Hid].
    + pose proof (unused_name_below _ _ Hbound Hbelow). lia.
    + specialize (Hbelow id Hid). lia.
Qed.

Lemma perform_all_names_below rs :
  ∀ bound st, 0 < bound → names_below bound (gl st) →
    names_below (bound + Z.of_nat (length rs))
                (gl (snd (perform_all stbi_load rs st))).
Proof.
  induction rs as [|r rs IH]; intros bound st Hbound Hbelow.
  - cbn [perform_all snd length]. intros id Hid. specialize (Hbelow id Hid). lia.
  - rewrite snd_perform_all_cons.
    replace (bound + Z.of_nat (length (r :: rs)))
      with (bound + 1 + Z.of_nat (length rs)) by (cbn [length]; lia).
    apply IH; [lia|]. apply perform_names_below; assumption.
Qed.

(** [BindGLTextures] generates and deletes nothing. *)
Lemma BindGLTextures_loop_names cells n fuel :
  ∀ i g, GL.names (BindGLTextures_loop cells n fuel i g) = GL.names g ∧
         GL.max_units (BindGLTextures_loop cells n fuel i g) = GL.max_units g.
Proof.
  induction fuel as [|fuel IH]; intros i g; cbn [BindGLTextures_loop]; cbv zeta;
    destruct (i <? n); try (split; reflexivity).
  destruct (IH (i + 1)
              (GL.glBindTexture GL.GL_TEXTURE_2D (TEXTURE_INFO.ID (cell cells i))
                 (GL.glActiveTexture (GL.to_GLuint (GL.GL_TEXTURE0 + i)) g)))
    as [-> ->].
  rewrite GLFacts.names_glBindTexture, GLFacts.names_glActiveTexture.
  rewrite GLFrame.max_units_glBindTexture, GLFrame.max_units_glActiveTexture.
  split; reflexivity.
Qed.

(** After [LoadGLTextures] from an empty registry, on a context with ten
    units and room for ten more names, registry and context agree. *)
Lemma LoadGLTextures_bound_and_live st :
  m_loadedTextures st = 0 →
  10 ≤ GL.max_units (gl st) →
  names_below (2 ^ 32 - 10) (gl st) →
  bound_and_live (LoadGLTextures stbi_load st) ∧
  GL.errors (gl (LoadGLTextures stbi_load st)) = GL.errors (gl st).
Proof.
  intros Hzero Hunits Hbelow.
  assert (handles_live (m_textureIDs st) (m_loadedTextures st) (gl st)) as Hlive
    by (intros i Hi; lia).
  destruct (LoadGLTextures_bound stbi_load st) as (Hbound & Hlive' & Herrors);
    [lia | lia | lia | exact Hlive |].
  split; [|exact Herrors].
  rewrite LoadGLTextures_eq in *.
  destruct (perform_all_registry stbi_load texture_requests st)
    as (_ & Hcount & _ & _ & _ & Hmax & _); [lia|].
  pose proof (granted_tags_length stbi_load) as Hlen.
  pose proof (perform_all_names_below texture_requests (2 ^ 32 - 10) st
                ltac:(lia) Hbelow) as Hnames.
  set (st1 := snd (perform_all stbi_load texture_requests st)) in *.
  assert (GL.names (gl (BindGLTextures st1)) = GL.names (gl st1) ∧
          GL.max_units (gl (BindGLTextures st1)) = GL.max_units (gl st1))
    as [Hsame Hsame_units].
  { unfold BindGLTextures. cbn [set_gl gl]. apply BindGLTextures_loop_names. }
  unfold bound_and_live.
  change (m_loadedTextures (BindGLTextures st1)) with (m_loadedTextures st1) in *.
  change (m_textureIDs (BindGLTextures st1)) with (m_textureIDs st1) in *.
  split; [lia|]. split; [rewrite Hsame_units; lia|].
  split; [|split; [exact Hlive' | exact Hbound]].
  intros i Hi. specialize (Hlive' i Hi). rewrite Hsame in Hlive'.
  specialize (Hnames _ Hlive'). cbn [length texture_requests] in Hnames. lia.
Qed.

End NamesFacts.

Section FrameErrors.
Context {F : Scalar} {L : Literals F}.

(** An error flag, once raised, stays through later commands. *)
Lemma error_stays_glBindTexture e target texture g :
  e ∈ GL.errors g → e ∈ GL.errors (GL.glBindTexture target texture g).
Proof.
  intros He. destruct (errors_glBindTexture target texture g) as [raised ->].
  apply elem_of_app. right. exact He.
Qed.

Lemma error_stays_glActiveTexture e texture g :
  e ∈ GL.errors g → e ∈ GL.errors (GL.glActiveTexture texture g).
Proof.
  intros He. destruct (errors_glActiveTexture texture g) as [raised ->].
  apply elem_of_app. right. exact He.
Qed.

Lemma sentinel_raises g :
  GL.GL_INVALID_ENUM
    ∈ GL.errors (GL.glActiveTexture (GL.to_GLuint (GL.GL_TEXTURE0 + -1)) g).
Proof.
  rewrite (proj1 (glActiveTexture_sentinel g)). apply elem_of_cons. left.
  reflexivity.
Qed.

Lemma SetTwoTextures_miss tag1 tag2 mixFactor sh st :
  m_pShaderManager st = Some sh →
  tag1 ∉ registered_tags st ∨ tag2 ∉ registered_tags st →
  GL.GL_INVALID_ENUM ∈ GL.errors (gl (SetTwoTextures tag1 tag2 mixFactor st)).
Proof.
  intros Hsh Hmiss. rewrite (SetTwoTextures_gl _ _ _ sh) by exact Hsh.
  destruct Hmiss as [Hmiss|Hmiss]; apply not_registered_no_match in Hmiss;
    apply FindTextureSlot_none in Hmiss; rewrite Hmiss.
  - apply error_stays_glBindTexture, error_stays_glActiveTexture,
      error_stays_glBindTexture, sentinel_raises.
  - apply error_stays_glBindTexture, sentinel_raises.
Qed.

Lemma SetTwoTextures_error_stays e tag1 tag2 mixFactor st :
  e ∈ GL.errors (gl st) →
  e ∈ GL.errors (gl (SetTwoTextures tag1 tag2 mixFactor st)).
Proof.
  intros He. unfold SetTwoTextures. cbv zeta.
  destruct (m_pShaderManager st); [|exact He]. cbn [set_gl gl].
  apply error_stays_glBindTexture, error_stays_glActiveTexture,
    error_stays_glBindTexture, error_stays_glActiveTexture. exact He.
Qed.

Lemma run_call_error_stays e uninitialised c sc sc' :
  run_call uninitialised c sc = Returns sc' →
  e ∈ GL.errors (gl (manager sc)) → e ∈ GL.errors (gl (manager sc')).
Proof.
  intros Hcall He.
  assert ((∃ tag1 tag2 mixFactor, c = CallSetTwoTextures tag1 tag2 mixFactor) ∨
          ¬ ∃ tag1 tag2 mixFactor, c = CallSetTwoTextures tag1 tag2 mixFactor)
    as [(tag1 & tag2 & mixFactor & ->)|Hother]
    by (destruct c;
        first [left; eexists _, _, _; reflexivity
              | right; intros (? & ? & ? & ?); discriminate]).
  - cbn [run_call] in Hcall. injection Hcall as <-. cbn [manager].
    apply SetTwoTextures_error_stays. exact He.
  - rewrite (run_call_gl uninitialised c sc sc'); [exact He| |exact Hcall].
    intros tag1 tag2 mixFactor ->. apply Hother. eauto.
Qed.

Lemma run_calls_error_stays e uninitialised cs :
  ∀ k sc sc', run_calls uninitialised k cs sc = Returns sc' →
    e ∈ GL.errors (gl (manager sc)) → e ∈ GL.errors (gl (manager sc')).
Proof.
  induction cs as [|c cs IH]; intros k sc sc'; cbn [run_calls].
  - intros [= <-] He. exact He.
  - destruct (run_call (uninitialised k) c sc) as [sc1|] eqn:Hcall; [|discriminate].
    intros Hrest He. apply (IH _ _ _ Hrest).
    exact (run_call_error_stays _ _ _ _ _ Hcall He).
Qed.

Lemma bound_tags_of_cons (c : RenderCall) cs :
  bound_tags_of (c :: cs) = bound_tags_of [c] ++ bound_tags_of cs.
Proof.
  unfold bound_tags_of. rewrite !bind_cons. simpl. rewrite app_nil_r.
  reflexivity.
Qed.

(** A run that passes an unregistered tag to [SetTwoTextures] ends with
    [GL_INVALID_ENUM] among the error flags. *)
Lemma run_calls_missing uninitialised cs t :
  ∀ k sc sc',
    is_Some (m_pShaderManager (manager sc)) →
    t ∈ bound_tags_of cs → t ∉ registered_tags (manager sc) →
    run_calls uninitialised k cs sc = Returns sc' →
    GL.GL_INVALID_ENUM ∈ GL.errors (gl (manager sc')).
Proof.
  induction cs as [|c cs IH]; intros k sc sc' Hsh Ht Hmiss; cbn [run_calls].
  - inversion Ht.
  - destruct (run_call (uninitialised k) c sc) as [sc1|] eqn:Hcall; [|discriminate].
    intros Hrest. rewrite bound_tags_of_cons in Ht.
    apply elem_of_app in Ht as [Hhere|Hlater].
    + apply (run_calls_error_stays _ _ _ _ _ _ Hrest).
      destruct c; try (inversion Hhere; fail).
      cbn [run_call] in Hcall. injection Hcall as <-. cbn [manager].
      destruct Hsh as [sh Hsh]. apply (SetTwoTextures_miss _ _ _ sh); [exact Hsh|].
      cbn in Hhere. apply elem_of_cons in Hhere as [->|Hhere]; [left; exact Hmiss|].
      apply elem_of_cons in Hhere as [->|Hhere]; [right; exact Hmiss|].
      inversion Hhere.
    + destruct (run_call_frame _ _ _ _ Hcall) as [Hsame _].
      apply (IH (S k) sc1 sc'); [|exact Hlater| |exact Hrest].
      * destruct Hsh as [sh Hsh].
        destruct Hsame as (_ & _ & _ & _ & _ & _ & Hkeep).
        destruct (Hkeep sh Hsh) as [sh' Hsh']. eauto.
      * rewrite (registered_tags_same _ _ Hsame). exact Hmiss.
Qed.

Lemma frame_tags_bound t : t ∈ frame_tags → t ∈ bound_tags_of render_calls.
Proof.
  assert (bound_tags_of render_calls =
          ["cloth"; "skull"; "wall"; "skull"; "breadSide"; "breadSide";
           "breadTop"; "breadTop"; "butter"; "butter"; "orange"; "cracks";
           "bottleLid"; "bottleLid"]%string) as -> by reflexivity.
  revert t. apply Forall_forall. apply (bool_decide_unpack _).
  vm_compute. exact I.
Qed.

(** X20.  A frame looks up nine texture tags.  With a shader manager, if
    one of them is not registered, for instance because its file did not
    decode when the scene was prepared, [RenderScene] still returns and
    still draws, and the context has [GL_INVALID_ENUM] among its error
    flags afterwards: the miss shows in the GL error state only. *)
Theorem RenderScene_missing_texture
        (uninitialised : nat → OBJECT_MATERIAL) (sc : Scene) (t : string) :
  is_Some (m_pShaderManager (manager sc)) →
  t ∈ frame_tags →
  t ∉ registered_tags (manager sc) →
  ∃ sc',
    RenderScene uninitialised sc = Returns sc' ∧
    m_basicMeshes sc' = frame_draws ++ m_basicMeshes sc ∧
    GL.GL_INVALID_ENUM ∈ GL.errors (gl (manager sc')).
Proof.
  intros Hsh Ht Hmiss. unfold RenderScene.
  destruct (run_calls_returns uninitialised render_calls 0%nat sc Hsh)
    as [sc' Hrun].
  exists sc'. split; [exact Hrun|]. split.
  - exact (proj2 (run_calls_frame _ _ _ _ _ Hrun)).
  - exact (run_calls_missing _ _ _ _ _ _ Hsh (frame_tags_bound t Ht) Hmiss Hrun).
Qed.

End FrameErrors.

Section EndToEnd.
Context {F : Scalar} {L : Literals F}.
Variable stbi_load : bool → string → option stbi_image.

Lemma granted_tags_all rs :
  (∀ r, r ∈ rs → decodable stbi_load (request_file r) = true) →
  granted_tags stbi_load rs = request_tag <$> rs.
Proof.
  intros Hall. unfold granted_tags. f_equal.
  induction rs as [|r rs IH]; [reflexivity|].
  rewrite filter_cons. rewrite decide_True
    by (apply Hall; apply elem_of_cons; left; reflexivity).
  f_equal. apply IH. intros r' Hr'. apply Hall. apply elem_of_cons. right.
  exact Hr'.
Qed.

(** X21.  On a scene manager with a shader manager and an empty
    registry, a context with at least ten units and room for ten more
    texture names, and ten files that all decode to 3 or 4 channels:
    [PrepareScene] returns with the ten tags registered in the order of
    [LoadGLTextures], and a following [RenderScene] returns with no GL
    error raised since before the set-up, every texture still bound on
    the unit of its slot, and the six loads followed by the fourteen
    draws in the list of mesh calls. *)
Theorem PrepareScene_then_RenderScene
        (uninitialised : nat → OBJECT_MATERIAL) (sc : Scene) (sh : ShaderManager) :
  m_pShaderManager (manager sc) = Some sh →
  m_loadedTextures (manager sc) = 0 →
  10 ≤ GL.max_units (gl (manager sc)) →
  names_below (2 ^ 32 - 10) (gl (manager sc)) →
  (∀ r, r ∈ texture_requests → decodable stbi_load (request_file r) = true) →
  ∃ sc1 sc2,
    PrepareScene stbi_load sc = Returns sc1 ∧
    RenderScene uninitialised sc1 = Returns sc2 ∧
    registered_tags (manager sc1) =
      ["cloth"; "bottleLid"; "breadTop"; "butter"; "cracks"; "orange";
       "breadSide"; "skull"; "wall"; "water"]%string ∧
    GL.errors (gl (manager sc2)) = GL.errors (gl (manager sc)) ∧
    bound_and_live (manager sc2) ∧
    m_basicMeshes sc2 = frame_draws ++ mesh_loads ++ m_basicMeshes sc.
Proof.
  intros Hsh Hzero Hunits Hbelow Hall.
  unfold PrepareScene, SetupSceneLights. rewrite DefineObjectMaterials_eq.
  cbn [set_materials m_pShaderManager]. rewrite Hsh.
  set (st0 := set_shader (Some (scene_lights sh))
                (mkState (Some sh) (m_textureIDs (manager sc))
                   (m_loadedTextures (manager sc))
                   (m_objectMaterials (manager sc) ++ defined_materials)
                   (gl (manager sc)))).
  destruct (LoadGLTextures_bound_and_live stbi_load st0 Hzero Hunits Hbelow)
    as [Hhealthy Herrors].
  assert (registered_tags (LoadGLTextures stbi_load st0) =
          request_tag <$> texture_requests) as Htags.
  { rewrite LoadGLTextures_eq.
    destruct (perform_all_registry stbi_load texture_requests st0)
      as (Htags & _); [cbn; lia|].
    change (registered_tags (BindGLTextures ?st)) with (registered_tags st).
    rewrite Htags, (granted_tags_all _ Hall).
    unfold registered_tags at 1. cbn [st0 set_shader m_loadedTextures].
    rewrite Hzero. reflexivity. }
  assert (is_Some (m_pShaderManager (LoadGLTextures stbi_load st0))) as Hsh'.
  { rewrite LoadGLTextures_eq.
    destruct (perform_all_registry stbi_load texture_requests st0)
      as (_ & _ & Hkeep & _); [cbn; lia|].
    change (m_pShaderManager (BindGLTextures ?st)) with (m_pShaderManager st).
    rewrite Hkeep. eexists. reflexivity. }
  set (sc1 := mkScene (LoadGLTextures stbi_load st0)
                (LoadTaperedCylinderMesh :: LoadTorusMesh :: LoadSphereMesh
                   :: LoadCylinderMesh :: LoadBoxMesh :: LoadPlaneMesh
                   :: m_basicMeshes sc)).
  destruct (run_calls_returns uninitialised render_calls 0%nat sc1 Hsh')
    as [sc2 Hrun].
  exists sc1, sc2. split; [reflexivity|]. split; [exact Hrun|].
  split; [exact Htags|].
  destruct (run_calls_frame _ _ _ _ _ Hrun) as [Hsame Hmeshes].
  assert (∀ t, t ∈ texture_tags_of render_calls →
               t ∈ registered_tags (manager sc1)) as Hregistered.
  { intros t Ht. cbn [sc1 manager]. rewrite Htags.
    apply render_calls_tags in Ht. revert t Ht. apply Forall_forall.
    apply (bool_decide_unpack _). vm_compute. exact I. }
  destruct (run_calls_healthy uninitialised render_calls 0%nat sc1 sc2
              Hsh' Hhealthy Hregistered Hrun) as [Hbound Herrors'].
  split; [rewrite Herrors'; exact Herrors|].
  split; [exact (bound_and_live_same _ _ Hsame Hbound Hhealthy)|].
  exact Hmeshes.
Qed.

End EndToEnd.

(** ** Where the model matrix puts an object *)

Section ModelMatrixPlacement.
Local Open Scope R_scope.


End ModelMatrixPlacement.

(** ** The further properties on the concrete scenes *)

(** A property of every used cell follows from the property of the cells
    [0 .. n-1], which a concrete scene decides by evaluation. *)
Section CheckedByEnumeration.
Context {F : Scalar}.

Lemma handles_live_seqZ (cells : gmap Z TEXTURE_INFO.t) (n : Z) (g : GL.Context) :
  Forall (λ i, TEXTURE_INFO.ID (cell cells i) ∈ GL.names g) (seqZ 0 n) →
  handles_live cells n g.
Proof.
  intros Hall i Hi. rewrite Forall_forall in Hall. apply Hall.
  apply elem_of_seqZ. lia.
Qed.

Lemma handles_in_range_seqZ (cells : gmap Z TEXTURE_INFO.t) (n : Z) :
  Forall (λ i, 0 ≤ TEXTURE_INFO.ID (cell cells i) < 2 ^ 32) (seqZ 0 n) →
  handles_in_range cells n.
Proof.
  intros Hall i Hi. rewrite Forall_forall in Hall. apply Hall.
  apply elem_of_seqZ. lia.
Qed.

Lemma bound_in_order_seqZ (cells : gmap Z TEXTURE_INFO.t) (n : Z) (g : GL.Context) :
  Forall (λ i, GL.bound2D g !! i = Some (TEXTURE_INFO.ID (cell cells i))) (seqZ 0 n) →
  bound_in_order cells n g.
Proof.
  intros Hall i Hi. rewrite Forall_forall in Hall. apply Hall.
  apply elem_of_seqZ. lia.
Qed.

End CheckedByEnumeration.

Ltac by_enumeration := apply (bool_decide_unpack _); vm_compute; exact I.

Lemma BindGLTextures_binds_in_order_witness :
  m_loadedTextures two_textures = 2 ∧
  handles_live (m_textureIDs two_textures) 2 (gl two_textures) ∧
  bound_in_order (m_textureIDs two_textures) 2 (gl (BindGLTextures two_textures)) ∧
  GL.errors (gl (BindGLTextures two_textures)) = GL.errors (gl two_textures) ∧
  GL.active (gl (BindGLTextures two_textures)) = 1.
Proof.
  assert (m_loadedTextures two_textures = 2) as Hcount by (vm_compute; reflexivity).
  assert (handles_live (m_textureIDs two_textures) 2 (gl two_textures)) as Hlive
    by (apply handles_live_seqZ; by_enumeration).
  split; [exact Hcount|]. split; [exact Hlive|].
  destruct (BindGLTextures_binds_in_order two_textures) as (Hbound & _ & Herrors & Hactive & _).
  - rewrite Hcount. lia.
  - rewrite Hcount. vm_compute. discriminate.
  - rewrite Hcount. exact Hlive.
  - rewrite Hcount in Hbound, Hactive. split; [exact Hbound|].
    split; [exact Herrors|]. rewrite Hactive; lia.
Defined.

Lemma BindGLTextures_beyond_units_witness :
  GL.max_units (gl (crowded_scene 17)) = 16 ∧
  m_loadedTextures (crowded_scene 17) = 17 ∧
  GL.bound2D (gl (BindGLTextures (crowded_scene 17))) !! 15 =
    Some (TEXTURE_INFO.ID (cell (m_textureIDs (crowded_scene 17)) 16)) ∧
  GL.errors (gl (BindGLTextures (crowded_scene 17))) =
    GL.GL_INVALID_ENUM :: GL.errors (gl (crowded_scene 17)) ∧
  GL.active (gl (BindGLTextures (crowded_scene 17))) = 15.
Proof.
  assert (m_loadedTextures (crowded_scene 17) = 17) as Hcount
    by (vm_compute; reflexivity).
  assert (GL.max_units (gl (crowded_scene 17)) = 16) as Hunits
    by (vm_compute; reflexivity).
  split; [exact Hunits|]. split; [exact Hcount|].
  destruct (BindGLTextures_beyond_units (crowded_scene 17))
    as (_ & Hlast & Herrors & _ & Hactive).
  - rewrite Hunits. lia.
  - rewrite Hunits, Hcount. lia.
  - rewrite Hcount. apply handles_live_seqZ. by_enumeration.
  - rewrite Hunits, Hcount in *. split; [exact Hlast|].
    split; [exact Herrors | exact Hactive].
Defined.

Lemma registration_extends_lookups_witness :
  fst (perform disk (Plain "rgb.jpg" "wall") bound_scene) = true ∧
  FindTextureSlot "cloth" (snd (perform disk (Plain "rgb.jpg" "wall") bound_scene)) =
    FindTextureSlot "cloth" bound_scene ∧
  FindTextureSlot "wall" (snd (perform disk (Plain "rgb.jpg" "wall") bound_scene)) =
    m_loadedTextures bound_scene ∧
  FindTextureID "skull" (snd (perform disk (Plain "rgb.jpg" "wall") bound_scene)) = -1.
Proof.
  assert (fst (perform disk (Plain "rgb.jpg" "wall") bound_scene) = true) as Hok
    by (vm_compute; reflexivity).
  split; [exact Hok|].
  destruct (registration_extends_lookups disk (Plain "rgb.jpg" "wall") bound_scene)
    as (Hold & Hnew & Hother); [vm_compute; discriminate | exact Hok |].
  split; [apply Hold; by_enumeration|].
  split; [apply Hnew; by_enumeration|].
  apply Hother; [by_enumeration | discriminate].
Defined.

Lemma SetTwoTextures_binds_slots_witness :
  m_pShaderManager shaded_scene = Some (mkShader ∅) ∧
  FindTextureSlot "cloth" shaded_scene = 0 ∧
  FindTextureSlot "wall" shaded_scene = 1 ∧
  GL.active (gl (SetTwoTextures "cloth" "wall" 0%R shaded_scene)) = 1 ∧
  GL.errors (gl (SetTwoTextures "cloth" "wall" 0%R shaded_scene)) =
    GL.errors (gl shaded_scene).
Proof.
  assert (FindTextureSlot "cloth" shaded_scene = 0) as H1 by (vm_compute; reflexivity).
  assert (FindTextureSlot "wall" shaded_scene = 1) as H2 by (vm_compute; reflexivity).
  assert (m_loadedTextures shaded_scene = 2) as Hcount by (vm_compute; reflexivity).
  split; [reflexivity|]. split; [exact H1|]. split; [exact H2|].
  destruct (SetTwoTextures_binds_slots (F := R_scalar) "cloth" "wall" 0%R (mkShader ∅) shaded_scene)
    as (_ & Hactive & Herrors & _).
  - reflexivity.
  - by_enumeration.
  - by_enumeration.
  - rewrite Hcount. lia.
  - rewrite H1. vm_compute. reflexivity.
  - rewrite H2. vm_compute. reflexivity.
  - rewrite Hcount. apply handles_in_range_seqZ. by_enumeration.
  - rewrite Hcount. apply handles_live_seqZ. by_enumeration.
  - rewrite H2 in Hactive. split; [exact Hactive | exact Herrors].
Defined.

Lemma SetTwoTextures_keeps_bindings_witness :
  bound_in_order (m_textureIDs staged_scene) (m_loadedTextures staged_scene)
                 (gl staged_scene) ∧
  GL.bound2D (gl (SetTwoTextures "wall" "cloth" 0.5%R staged_scene)) =
    GL.bound2D (gl staged_scene).
Proof.
  assert (m_loadedTextures staged_scene = 2) as Hcount by (vm_compute; reflexivity).
  assert (bound_in_order (m_textureIDs staged_scene) (m_loadedTextures staged_scene)
                         (gl staged_scene)) as Hbound
    by (rewrite Hcount; apply bound_in_order_seqZ; by_enumeration).
  split; [exact Hbound|].
  destruct (SetTwoTextures_keeps_bindings (F := R_scalar) "wall" "cloth" 0.5%R (mkShader ∅)
              staged_scene) as [Hsame _].
  - reflexivity.
  - by_enumeration.
  - by_enumeration.
  - rewrite Hcount. lia.
  - rewrite Hcount. vm_compute. discriminate.
  - rewrite Hcount. apply handles_in_range_seqZ. by_enumeration.
  - rewrite Hcount. apply handles_live_seqZ. by_enumeration.
  - exact Hbound.
  - exact Hsame.
Defined.

Lemma SetTwoTextures_unregistered_tag_witness :
  m_pShaderManager shaded_scene = Some (mkShader ∅) ∧
  ("water"%string ∉ registered_tags shaded_scene) ∧
  uniform_of (SetTwoTextures "cloth" "water" 0%R shaded_scene) g_Texture2 =
    Some (USampler2D (-1)) ∧
  GL.GL_INVALID_ENUM ∈ GL.errors (gl (SetTwoTextures "cloth" "water" 0%R shaded_scene)).
Proof.
  assert ("water"%string ∉ registered_tags shaded_scene) as Hmiss by by_enumeration.
  split; [reflexivity|]. split; [exact Hmiss|].
  exact (proj2 (SetTwoTextures_unregistered_tag (F := R_scalar) "cloth" "water" 0%R (mkShader ∅)
                  shaded_scene eq_refl) Hmiss).
Defined.

Lemma SetTwoTextures_writes_five_uniforms_witness :
  m_pShaderManager shaded_scene = Some (mkShader ∅) ∧
  uniform_of (SetTwoTextures "cloth" "wall" 0.3%R shaded_scene) g_MixFactor =
    Some (UFloat 0.3%R) ∧
  uniform_of (SetTwoTextures "cloth" "wall" 0.3%R shaded_scene) g_BlendTexture =
    Some (UInt 1) ∧
  uniform_of (SetTwoTextures "cloth" "wall" 0.3%R shaded_scene) g_UseLightingName =
    uniform_of shaded_scene g_UseLightingName.
Proof.
  destruct (SetTwoTextures_writes_five_uniforms (F := R_scalar) "cloth" "wall" 0.3%R (mkShader ∅)
              shaded_scene eq_refl) as (Hmix & _ & Hblend & _ & _ & Hothers).
  split; [reflexivity|]. split; [exact Hmix|]. split; [exact Hblend|].
  apply Hothers. by_enumeration.
Defined.

Lemma SetShaderMaterial_writes_first_match_or_garbage_witness :
  m_pShaderManager lit_catalog_scene = Some (mkShader ∅) ∧
  m_objectMaterials lit_catalog_scene ≠ [] ∧
  first_material "paper" (m_objectMaterials lit_catalog_scene) = None ∧
  ∃ sh',
    SetShaderMaterial "paper" stale_material lit_catalog_scene =
      Returns (set_shader (Some sh') lit_catalog_scene) ∧
    uniforms sh' !! "material.shininess"%string = Some (UFloat 64%R).
Proof.
  assert (m_objectMaterials lit_catalog_scene ≠ []) as Hne by discriminate.
  split; [reflexivity|]. split; [exact Hne|]. split; [reflexivity|].
  destruct (proj2 (SetShaderMaterial_writes_first_match_or_garbage (F := R_scalar) "paper"
                     stale_material (mkShader ∅) lit_catalog_scene eq_refl) Hne)
    as (sh' & Hreturns & _ & _ & Hshininess & _).
  exists sh'. split; [exact Hreturns | exact Hshininess].
Defined.

Lemma LoadGLTextures_slots_follow_decodable_files_witness :
  m_loadedTextures lit_scene = 0 ∧
  decodable studio_disk "../7-1_FinalProjectMilestones/textures/bread.jpg" = false ∧
  registered_tags (LoadGLTextures studio_disk lit_scene) =
    ["cloth"; "bottleLid"; "butter"; "cracks"; "orange"; "breadSide"; "skull";
     "wall"; "water"]%string ∧
  FindTextureSlot "butter" (LoadGLTextures studio_disk lit_scene) = 2.
Proof.
  split; [reflexivity|]. split; [reflexivity|].
  destruct (LoadGLTextures_slots_follow_decodable_files studio_disk lit_scene)
    as (Htags & _ & _ & _ & Hslots); [vm_compute; discriminate|].
  split.
  - rewrite Htags. vm_compute. reflexivity.
  - apply (Hslots eq_refl 2%nat "butter"%string). vm_compute. reflexivity.
Defined.

Lemma LoadGLTextures_binds_every_texture_witness :
  m_loadedTextures lit_scene + 10 ≤ GL.max_units (gl lit_scene) ∧
  bound_in_order (m_textureIDs (LoadGLTextures full_disk lit_scene))
                 (m_loadedTextures (LoadGLTextures full_disk lit_scene))
                 (gl (LoadGLTextures full_disk lit_scene)) ∧
  GL.errors (gl (LoadGLTextures full_disk lit_scene)) = GL.errors (gl lit_scene).
Proof.
  assert (m_loadedTextures lit_scene + 10 ≤ GL.max_units (gl lit_scene)) as Hroom
    by (vm_compute; discriminate).
  split; [exact Hroom|].
  destruct (LoadGLTextures_binds_every_texture full_disk lit_scene)
    as (Hbound & _ & Herrors).
  - vm_compute; discriminate.
  - exact Hroom.
  - vm_compute; reflexivity.
  - intros i Hi. change (m_loadedTextures lit_scene) with 0 in Hi. lia.
  - split; [exact Hbound | exact Herrors].
Defined.

Lemma RenderScene_without_shader_manager_witness :
  m_pShaderManager (manager dark_studio) = None ∧
  RenderScene stale_locals dark_studio = Returns (mkScene empty_scene frame_draws) ∧
  m_objectMaterials unlit_scene ≠ [] ∧
  RenderScene stale_locals (mkScene unlit_scene []) = NullDereference.
Proof.
  assert (m_objectMaterials unlit_scene ≠ []) as Hne by discriminate.
  split; [reflexivity|].
  split.
  - exact (proj1 (RenderScene_without_shader_manager stale_locals dark_studio eq_refl)
             eq_refl).
  - split; [exact Hne|].
    exact (proj1 (proj2 (RenderScene_without_shader_manager stale_locals
                           (mkScene unlit_scene []) eq_refl) Hne)).
Defined.

(** After [LoadGLTextures] on ten decodable files, registry and context
    agree. *)
Lemma furnished_studio_bound_and_live : bound_and_live (manager furnished_studio).
Proof.
  assert (m_loadedTextures (manager furnished_studio) = 10) as Hcount
    by (vm_compute; reflexivity).
  unfold bound_and_live. rewrite Hcount.
  split; [lia|]. split; [vm_compute; discriminate|].
  split; [apply handles_in_range_seqZ; by_enumeration|].
  split; [apply handles_live_seqZ; by_enumeration|].
  apply bound_in_order_seqZ; by_enumeration.
Qed.

Lemma RenderScene_raises_no_error_witness :
  bound_and_live (manager furnished_studio) ∧
  ∃ sc',
    RenderScene stale_locals furnished_studio = Returns sc' ∧
    GL.errors (gl (manager sc')) = [] ∧
    GL.bound2D (gl (manager sc')) = GL.bound2D (gl (manager furnished_studio)).
Proof.
  split; [exact furnished_studio_bound_and_live|].
  destruct (RenderScene_raises_no_error stale_locals furnished_studio)
    as (sc' & Hreturns & Herrors & Hbound & _).
  - exists (mkShader ∅). vm_compute. reflexivity.
  - exact furnished_studio_bound_and_live.
  - apply Forall_forall. by_enumeration.
  - exists sc'. split; [exact Hreturns|]. split; [|exact Hbound].
    rewrite Herrors. vm_compute. reflexivity.
Defined.

Lemma RenderScene_missing_texture_witness :
  ("breadTop"%string ∈ frame_tags) ∧
  ("breadTop"%string ∉ registered_tags (manager breadless_studio)) ∧
  ∃ sc',
    RenderScene stale_locals breadless_studio = Returns sc' ∧
    m_basicMeshes sc' = frame_draws ∧
    GL.GL_INVALID_ENUM ∈ GL.errors (gl (manager sc')).
Proof.
  assert ("breadTop"%string ∈ frame_tags) as Hused by by_enumeration.
  assert ("breadTop"%string ∉ registered_tags (manager breadless_studio)) as Hmiss
    by by_enumeration.
  split; [exact Hused|]. split; [exact Hmiss|].
  destruct (RenderScene_missing_texture stale_locals breadless_studio "breadTop")
    as (sc' & Hreturns & Hmeshes & Herror);
    [exists (mkShader ∅); vm_compute; reflexivity | exact Hused | exact Hmiss |].
  exists sc'. split; [exact Hreturns|]. split; [|exact Herror].
  rewrite Hmeshes. apply app_nil_r.
Defined.

Lemma PrepareScene_then_RenderScene_witness :
  m_pShaderManager (manager fresh_studio) = Some (mkShader ∅) ∧
  names_below (2 ^ 32 - 10) (gl (manager fresh_studio)) ∧
  ∃ sc1 sc2,
    PrepareScene full_disk fresh_studio = Returns sc1 ∧
    RenderScene stale_locals sc1 = Returns sc2 ∧
    GL.errors (gl (manager sc2)) = [] ∧
    m_basicMeshes sc2 = frame_draws ++ mesh_loads.
Proof.
  assert (names_below (2 ^ 32 - 10) (gl (manager fresh_studio))) as Hnames.
  { unfold names_below. apply Forall_forall. by_enumeration. }
  split; [reflexivity|]. split; [exact Hnames|].
  destruct (PrepareScene_then_RenderScene full_disk stale_locals fresh_studio
              (mkShader ∅))
    as (sc1 & sc2 & Hprepare & Hrender & _ & Herrors & _ & Hmeshes).
  - reflexivity.
  - reflexivity.
  - vm_compute; discriminate.
  - exact Hnames.
  - intros r _. reflexivity.
  - exists sc1, sc2. split; [exact Hprepare|]. split; [exact Hrender|].
    split; [exact Herrors|]. rewrite Hmeshes, app_nil_r. reflexivity.
Defined.

